(** * Agent 1: producer verification against an FSSAI certificate

    A shallow embedding of [agent1.py] (class [Agent1]): the field
    extractors, the name comparison, the format check and the
    [verify_producer] pipeline, followed by the properties of the
    specification that were checked against them.

    Conventions.
    - A Python [str] is a [list ascii] ([str]).  The classes of characters
      and the case mappings are those of Python on texts whose code points
      are all below 128 ([ascii_only]); Python's own are wider (its digits,
      letters, white space and case mappings are those of Unicode), so a
      statement that depends on them is made for such texts.
    - A Python [dict] with string keys is a [gmap string pyval].
    - [re] patterns are terms of [regex], run by a backtracking matcher
      with the priorities of Python's [re] (leftmost start, greedy or
      lazy repetition, first alternative first).
    - What lies outside the class (the file system and PDF layer, the
      clock, the random generator, the Supabase client, float formatting)
      is a field of [World]. *)

From Stdlib Require Import ZArith QArith_base List Ascii String Lia Bool Sorted.
From stdpp Require Import base option list gmap strings.
Import ListNotations.

#[local] Set Warnings "-register-all".
#[local] Open Scope string_scope.
#[local] Open Scope list_scope.

(** ** Python strings *)

Definition str := list ascii.

Coercion list_ascii_of_string : string >-> list.

Definition code (c : ascii) : nat := nat_of_ascii c.

Definition between (lo hi : nat) (c : ascii) : bool :=
  (lo <=? code c)%nat && (code c <=? hi)%nat.

(** [\d], among the characters below 128 *)
Definition is_digit (c : ascii) : bool := between 48 57 c.
Definition is_upper (c : ascii) : bool := between 65 90 c.
Definition is_lower (c : ascii) : bool := between 97 122 c.
Definition is_alpha (c : ascii) : bool := is_upper c || is_lower c.
(** [\w], among the characters below 128 *)
Definition is_word (c : ascii) : bool :=
  is_alpha c || is_digit c || (code c =? 95)%nat.
(** [\s] and [str.isspace], among the characters below 128:
    TAB LF VT FF CR, FS GS RS US, SPACE *)
Definition is_space (c : ascii) : bool := between 9 13 c || between 28 32 c.

(** The lower and the upper case of a character below 128 *)
Definition lower_char (c : ascii) : ascii :=
  if is_upper c then ascii_of_nat (code c + 32) else c.
Definition upper_char (c : ascii) : ascii :=
  if is_lower c then ascii_of_nat (code c - 32) else c.

Definition eqc (a b : ascii) : bool := Ascii.eqb a b.

Fixpoint str_eqb (a b : str) : bool :=
  match a, b with
  | [], [] => true
  | x :: a', y :: b' => eqc x y && str_eqb a' b'
  | _, _ => false
  end.

(** [s.lower()], [s.upper()] *)
Definition lower (s : str) : str := map lower_char s.
Definition upper (s : str) : str := map upper_char s.

Fixpoint lstrip (s : str) : str :=
  match s with
  | c :: s' => if is_space c then lstrip s' else s
  | [] => []
  end.
Definition rstrip (s : str) : str := rev (lstrip (rev s)).
(** [s.strip()] *)
Definition strip (s : str) : str := rstrip (lstrip s).

(** [s.startswith(p)] *)
Fixpoint startswith (p s : str) : bool :=
  match p, s with
  | [], _ => true
  | x :: p', y :: s' => eqc x y && startswith p' s'
  | _ :: _, [] => false
  end.

(** [sub in s] *)
Fixpoint contains (sub s : str) : bool :=
  startswith sub s ||
  match s with
  | [] => false
  | _ :: s' => contains sub s'
  end.

(** [s.find(sub)], [None] for -1 *)
Fixpoint str_find (sub s : str) : option nat :=
  if startswith sub s then Some 0%nat
  else match s with
       | [] => None
       | _ :: s' => option_map S (str_find sub s')
       end.

(** [s.replace(old, new)] for a non-empty [old]: occurrences are replaced
    from the left and do not overlap; [skip] counts the characters of an
    occurrence still to be dropped. *)
Fixpoint replace_from (old new : str) (skip : nat) (s : str) : str :=
  match s with
  | [] => []
  | c :: s' =>
      match skip with
      | S k => replace_from old new k s'
      | O => if startswith old s
             then new ++ replace_from old new (length old - 1) s'
             else c :: replace_from old new 0 s'
      end
  end.
Definition replace (old new s : str) : str := replace_from old new 0 s.

(** [s.split(sep)] for a one-character separator, at most [maxsplit]
    splits ([None]: no bound) *)
Fixpoint split_char (sep : ascii) (maxsplit : option nat) (s : str) : list str :=
  match s with
  | [] => [[]]
  | c :: s' =>
      if eqc c sep && negb (bool_decide (maxsplit = Some 0%nat)) then
        [] :: split_char sep (option_map Nat.pred maxsplit) s'
      else
        match split_char sep maxsplit s' with
        | w :: ws => (c :: w) :: ws
        | [] => [[c]]
        end
  end.

(** [s.split()]: the maximal runs of characters that are not white space *)
Fixpoint split_ws_from (cur : str) (s : str) : list str :=
  match s with
  | [] => match cur with [] => [] | _ => [rev cur] end
  | c :: s' =>
      if is_space c
      then match cur with
           | [] => split_ws_from [] s'
           | _ => rev cur :: split_ws_from [] s'
           end
      else split_ws_from (c :: cur) s'
  end.
Definition split_ws (s : str) : list str := split_ws_from [] s.

(** [sep.join(parts)] *)
Fixpoint join (sep : str) (parts : list str) : str :=
  match parts with
  | [] => []
  | [p] => p
  | p :: ps => p ++ sep ++ join sep ps
  end.

(** [s.title()]: a letter is upper-cased when the character before it is
    not a letter, lower-cased otherwise *)
Fixpoint title_from (prev_cased : bool) (s : str) : str :=
  match s with
  | [] => []
  | c :: s' =>
      if is_alpha c
      then (if prev_cased then lower_char c else upper_char c) :: title_from true s'
      else c :: title_from false s'
  end.
Definition title (s : str) : str := title_from false s.

(** Truth value of an [Optional[str]] *)
Definition truthy (o : option str) : bool :=
  match o with
  | Some (_ :: _) => true
  | _ => false
  end.

(** ** Regular expressions *)

(** The matcher's state: the character before the current position,
    what remains of the subject, and the groups closed so far. *)
Record mstate := MState {
  prev : option ascii;
  rest : str;
  caps : list (nat * str)
}.

Inductive regex :=
| Eps
| Chr (p : ascii -> bool)
| Seq (r1 r2 : regex)
| Alt (r1 r2 : regex)
| Star (greedy : bool) (r : regex)
| Group (n : nat) (r : regex)
| Look (r : regex)
| Assert (a : mstate -> bool).

(** The text consumed between two states of one run *)
Definition span (st st1 : mstate) : str :=
  take (length (rest st) - length (rest st1)) (rest st).

Definition set_group (n : nat) (v : str) (st : mstate) : mstate :=
  MState (prev st) (rest st) ((n, v) :: caps st).

Fixpoint assoc (n : nat) (l : list (nat * str)) : option str :=
  match l with
  | [] => None
  | (k, v) :: l' => if (k =? n)%nat then Some v else assoc n l'
  end.

Definition cont := mstate -> option mstate.

(** Repetition of [body]; an iteration that consumes nothing is not
    repeated, so [fuel = S (length (rest st))] is never exhausted. *)
Fixpoint star_loop (greedy : bool) (body : mstate -> cont -> option mstate)
    (fuel : nat) (st : mstate) (k : cont) : option mstate :=
  match fuel with
  | O => k st
  | S f =>
      let again :=
        body st (fun st1 =>
          if (length (rest st1) <? length (rest st))%nat
          then star_loop greedy body f st1 k else None) in
      if greedy
      then match again with Some x => Some x | None => k st end
      else match k st with Some x => Some x | None => again end
  end.

Fixpoint rmatch (r : regex) (st : mstate) (k : cont) : option mstate :=
  match r with
  | Eps => k st
  | Chr p =>
      match rest st with
      | c :: s' => if p c then k (MState (Some c) s' (caps st)) else None
      | [] => None
      end
  | Seq r1 r2 => rmatch r1 st (fun st1 => rmatch r2 st1 k)
  | Alt r1 r2 =>
      match rmatch r1 st k with
      | Some x => Some x
      | None => rmatch r2 st k
      end
  | Star greedy r1 => star_loop greedy (rmatch r1) (S (length (rest st))) st k
  | Group n r1 => rmatch r1 st (fun st1 => k (set_group n (span st st1) st1))
  | Look r1 =>
      match rmatch r1 st Some with
      | Some st1 => k (MState (prev st) (rest st) (caps st1))
      | None => None
      end
  | Assert a => if a st then k st else None
  end.

(** A match object: [start()], [end()], [group(0)] and the groups *)
Record mres := MRes {
  m_start : nat;
  m_end : nat;
  m_group0 : str;
  m_caps : list (nat * str)
}.

Definition m_group (n : nat) (m : mres) : option str :=
  match n with
  | O => Some (m_group0 m)
  | _ => assoc n (m_caps m)
  end.

(** One attempt at the current position *)
Definition attempt (r : regex) (pv : option ascii) (s : str) (pos : nat)
    : option mres :=
  match rmatch r (MState pv s []) Some with
  | Some st1 =>
      let n := (length s - length (rest st1))%nat in
      Some (MRes pos (pos + n) (take n s) (caps st1))
  | None => None
  end.

Fixpoint search_from (r : regex) (pv : option ascii) (s : str) (pos : nat)
    : option mres :=
  match attempt r pv s pos with
  | Some m => Some m
  | None =>
      match s with
      | [] => None
      | c :: s' => search_from r (Some c) s' (S pos)
      end
  end.

(** [re.search(r, s)] *)
Definition re_search (r : regex) (s : str) : option mres :=
  search_from r None s 0.

(** [re.match(r, s)] *)
Definition re_match (r : regex) (s : str) : option mres :=
  attempt r None s 0.

(** All matches from the left, without overlap; after an empty match the
    scan moves on by one character. *)
Fixpoint matches_from (r : regex) (skip : nat) (pv : option ascii) (s : str)
    (pos : nat) : list mres :=
  match s with
  | [] =>
      match skip, attempt r pv [] pos with
      | O, Some m => [m]
      | _, _ => []
      end
  | c :: s' =>
      match skip with
      | S k => matches_from r k (Some c) s' (S pos)
      | O =>
          match attempt r pv s pos with
          | Some m =>
              m :: matches_from r (m_end m - m_start m - 1) (Some c) s' (S pos)
          | None => matches_from r 0 (Some c) s' (S pos)
          end
      end
  end.

Definition finditer (r : regex) (s : str) : list mres :=
  matches_from r 0 None s 0.

(** [re.findall(r, s)] for a pattern with at most one group: the group
    when the pattern has one, the whole match otherwise *)
Definition findall (r : regex) (grp : nat) (s : str) : list str :=
  omap (m_group grp) (finditer r s).

(** The pieces of [s] between the matches [ms] *)
Fixpoint pieces (ms : list mres) (pos : nat) (s : str) : list str :=
  match ms with
  | [] => [s]
  | m :: ms' =>
      take (m_start m - pos) s
      :: pieces ms' (m_end m) (drop (m_end m - pos) s)
  end.

(** [re.split(r, s)] for a pattern without groups that matches no empty
    string *)
Definition re_split (r : regex) (s : str) : list str :=
  pieces (finditer r s) 0 s.

(** [re.sub(r, repl, s)] for a literal replacement *)
Definition re_sub (r : regex) (repl : str) (s : str) : str :=
  join repl (re_split r s).

(** *** Pattern syntax *)

Declare Scope re_scope.
Delimit Scope re_scope with re.
Bind Scope re_scope with regex.

Infix "⋅" := Seq (at level 40, left associativity) : re_scope.
Infix "∣" := Alt (at level 50, left associativity) : re_scope.

(** One character of the pattern, under [re.IGNORECASE] *)
Definition ich (c : ascii) : regex :=
  Chr (fun x => eqc (lower_char x) (lower_char c)).

(** A literal run of the pattern, under [re.IGNORECASE] *)
Fixpoint lit (s : str) : regex :=
  match s with
  | [] => Eps
  | [c] => ich c
  | c :: s' => Seq (ich c) (lit s')
  end.

(** [[...]]: one of the listed characters *)
Definition oneof (s : str) : ascii -> bool :=
  fun x => existsb (eqc x) s.
(** [[^...]] *)
Definition noneof (s : str) : ascii -> bool :=
  fun x => negb (existsb (eqc x) s).

Definition rstar (r : regex) : regex := Star true r.        (* r*  *)
Definition rlazy (r : regex) : regex := Star false r.       (* r*? *)
Definition rplus (r : regex) : regex := Seq r (Star true r). (* r+  *)
Definition ropt (r : regex) : regex := Alt r Eps.           (* r?  *)

(** [r{n}] *)
Fixpoint rep (n : nat) (r : regex) : regex :=
  match n with
  | O => Eps
  | 1%nat => r
  | S k => Seq r (rep k r)
  end.

Definition ws : regex := Chr is_space.    (* \s *)
Definition dg : regex := Chr is_digit.    (* \d *)
Definition nl : ascii := ascii_of_nat 10. (* \n *)
Definition cr : ascii := ascii_of_nat 13. (* \r *)
Definition tab : ascii := ascii_of_nat 9. (* \t *)
Definition nul : ascii := ascii_of_nat 0. (* \x00 *)

Definition is_word_opt (o : option ascii) : bool :=
  match o with Some c => is_word c | None => false end.

(** [\b] *)
Definition word_boundary : regex :=
  Assert (fun st => xorb (is_word_opt (prev st)) (is_word_opt (head (rest st)))).
(** [^] without [re.MULTILINE] *)
Definition bol : regex :=
  Assert (fun st => match prev st with None => true | Some _ => false end).
(** [$] without [re.MULTILINE]: at the end, or before a final newline *)
Definition eol : regex :=
  Assert (fun st => match rest st with
                    | [] => true
                    | [c] => eqc c nl
                    | _ => false
                    end).

(** ** Field extraction *)

(** The first pattern, in order, for which [f] gives a value: the model of
    [for pattern in patterns: ... return ...] *)
Fixpoint first_some {A B : Type} (f : A -> option B) (l : list A) : option B :=
  match l with
  | [] => None
  | x :: l' =>
      match f x with
      | Some y => Some y
      | None => first_some f l'
      end
  end.

(** [match.group(1)], in patterns where group 1 takes part in every match *)
Definition group1 (m : mres) : str := default [] (m_group 1 m).

Definition searches (r : regex) (s : str) : bool :=
  match re_search r s with Some _ => true | None => false end.

Definition not_nl : ascii -> bool := noneof [nl].          (* [^\n]   *)
Definition not_nl_cr : ascii -> bool := noneof [nl; cr].   (* [^\n\r] *)
Definition not_digit : ascii -> bool := fun c => negb (is_digit c). (* [^\d] *)
Definition not_digit_nl : ascii -> bool :=                 (* [^\d\n] *)
  fun c => negb (is_digit c) && negb (eqc c nl).

(** [\d{2}/\d{2}/\d{4}] and [\d{4}-\d{2}-\d{2}] *)
Definition dmy : regex := (rep 2 dg ⋅ ich "/" ⋅ rep 2 dg ⋅ ich "/" ⋅ rep 4 dg)%re.
Definition ymd : regex := (rep 4 dg ⋅ ich "-" ⋅ rep 2 dg ⋅ ich "-" ⋅ rep 2 dg)%re.
(** [[:\-]?] *)
Definition colon_dash_opt : regex := ropt (Chr (oneof ":-")).

(** *** [_fix_pdf_dates] *)

Definition fixes : list (str * str) :=
  [ ("2 020" : str, "2020" : str); ("2 025" : str, "2025" : str);
    ("2 024" : str, "2024" : str); ("2 019" : str, "2019" : str);
    ("2 021" : str, "2021" : str); ("2 022" : str, "2022" : str);
    ("2 023" : str, "2023" : str) ].

Definition _fix_pdf_dates (text : str) : str :=
  fold_left (fun t '(broken, fixed) => replace broken fixed t) fixes text.

(** *** [extract_name_from_fssai] *)

Definition name_patterns : list regex :=
  [ (* Operator\(FBO\)\s*([^\n]+) *)
    lit "Operator(FBO)" ⋅ rstar ws ⋅ Group 1 (rplus (Chr not_nl));
    (* Licensee\s*Name\s*:\s*([^\n\r]+) *)
    lit "Licensee" ⋅ rstar ws ⋅ lit "Name" ⋅ rstar ws ⋅ ich ":" ⋅ rstar ws
      ⋅ Group 1 (rplus (Chr not_nl_cr));
    (* Name\s*[:\-]?\s*([^\n\r]+) *)
    lit "Name" ⋅ rstar ws ⋅ colon_dash_opt ⋅ rstar ws
      ⋅ Group 1 (rplus (Chr not_nl_cr));
    (* Business\s+Name\s*[:\-]?\s*([^\n\r]+) *)
    lit "Business" ⋅ rplus ws ⋅ lit "Name" ⋅ rstar ws ⋅ colon_dash_opt
      ⋅ rstar ws ⋅ Group 1 (rplus (Chr not_nl_cr)) ]%re.

(** [\s+(?:near|at|opp|village|sector|street|road|distt|district|sirsa|haryana)] *)
Definition address_like : regex :=
  (rplus ws ⋅ (lit "near" ∣ lit "at" ∣ lit "opp" ∣ lit "village" ∣ lit "sector"
               ∣ lit "street" ∣ lit "road" ∣ lit "distt" ∣ lit "district"
               ∣ lit "sirsa" ∣ lit "haryana"))%re.

(** The body of the loop of [extract_name_from_fssai] for one match *)
Definition name_of_match (m : mres) : option str :=
  let name := strip (group1 m) in
  let name := re_sub (Chr (oneof [nl; cr; tab])) " " name in
  let name := join " " (split_ws name) in
  if (2 <? length name)%nat
     && negb (searches (Chr (oneof "/\")) name)
     && negb (startswith "font" (lower name))
     && negb (contains "address" (lower name))
     && negb (contains "department" (lower name))
     && negb (contains "certificate" (lower name))
  then
    let name_parts := re_split address_like name in
    let clean_name := strip (hd [] name_parts) in
    if (2 <? length clean_name)%nat then Some (title clean_name) else None
  else None.

Definition extract_name_from_fssai (fssai_text : str) : option str :=
  let fssai_text := replace [nul] [] fssai_text in
  match first_some (fun pattern => re_search pattern fssai_text ≫= name_of_match)
          name_patterns with
  | Some name => Some name
  | None =>
      if contains "KINGS ROLL" (upper fssai_text)
      then Some ("Kings Roll" : str) else None
  end.

(** *** [extract_license_number] *)

(** A pattern with the number of its groups ([match.groups()] is empty
    exactly when it has none) *)
Definition license_patterns : list (regex * nat) :=
  [ (* Registration\s*No\.?\s*[:\-]?\s*(\d{14}) *)
    (lit "Registration" ⋅ rstar ws ⋅ lit "No" ⋅ ropt (ich ".") ⋅ rstar ws
       ⋅ colon_dash_opt ⋅ rstar ws ⋅ Group 1 (rep 14 dg), 1%nat);
    (* License\s*No\s*[:\-]?\s*(\d{14}) *)
    (lit "License" ⋅ rstar ws ⋅ lit "No" ⋅ rstar ws ⋅ colon_dash_opt ⋅ rstar ws
       ⋅ Group 1 (rep 14 dg), 1%nat);
    (* FSSAI\s*License\s*No\s*[:\-]?\s*(\d{14}) *)
    (lit "FSSAI" ⋅ rstar ws ⋅ lit "License" ⋅ rstar ws ⋅ lit "No" ⋅ rstar ws
       ⋅ colon_dash_opt ⋅ rstar ws ⋅ Group 1 (rep 14 dg), 1%nat);
    (* \b\d{14}\b *)
    (word_boundary ⋅ rep 14 dg ⋅ word_boundary, 0%nat) ]%re.

(** [^\d{14}$] *)
Definition exactly_14_digits : regex := (bol ⋅ rep 14 dg ⋅ eol)%re.

Definition license_of_match (groups : nat) (m : mres) : option str :=
  let license_no := match groups with O => m_group0 m | _ => group1 m end in
  match re_match exactly_14_digits license_no with
  | Some _ => Some license_no
  | None => None
  end.

Definition extract_license_number (fssai_text : str) : option str :=
  first_some (fun '(pattern, groups) =>
                re_search pattern fssai_text ≫= license_of_match groups)
    license_patterns.

(** *** [extract_certificate_type] *)

(** Each pattern with its source text, which the code inspects to name
    the type *)
Definition type_patterns : list (str * regex) :=
  [ ("Registration\s*Certificate" : str, lit "Registration" ⋅ rstar ws ⋅ lit "Certificate");
    ("State\s*License" : str, lit "State" ⋅ rstar ws ⋅ lit "License");
    ("Central\s*License" : str, lit "Central" ⋅ rstar ws ⋅ lit "License");
    ("License\s*No" : str, lit "License" ⋅ rstar ws ⋅ lit "No") ]%re.

Definition type_of_pattern (pattern : str) : option str :=
  if contains "registration" (lower pattern) then Some ("registration" : str)
  else if contains "state" (lower pattern) then Some ("state" : str)
  else if contains "central" (lower pattern) then Some ("central" : str)
  else if contains "license" (lower pattern) then Some ("license" : str)
  else None.

(** A pattern that matches but names no type lets the loop go on; none of
    the four does. *)
Definition extract_certificate_type (fssai_text : str) : option str :=
  first_some (fun '(pattern, r) =>
                if searches r fssai_text then type_of_pattern pattern else None)
    type_patterns.

(** *** [extract_business_type] *)

Definition extract_business_type (fssai_text : str) : option str :=
  (* Kind\s*of\s*Business\s*([^\n\r]+) *)
  match re_search (lit "Kind" ⋅ rstar ws ⋅ lit "of" ⋅ rstar ws ⋅ lit "Business"
                     ⋅ rstar ws ⋅ Group 1 (rplus (Chr not_nl_cr)))%re fssai_text with
  | Some m =>
      let business_type := strip (group1 m) in
      let business_type := re_sub (Chr (oneof [nl; cr; tab])) " " business_type in
      let business_type := join " " (split_ws business_type) in
      Some (title business_type)
  | None => None
  end.

(** ** Dates: [datetime] as far as the code uses it *)

#[local] Open Scope Z_scope.

(** A naive [datetime]; [micros] counts the microseconds since midnight. *)
Record datetime := DateTime {
  year : Z;
  month : Z;
  day : Z;
  micros : Z
}.

Definition _is_leap (y : Z) : bool :=
  (y mod 4 =? 0) && (negb (y mod 100 =? 0) || (y mod 400 =? 0)).

Definition _days_before_year (y : Z) : Z :=
  let y := y - 1 in y * 365 + y / 4 - y / 100 + y / 400.

Definition _DAYS_IN_MONTH (m : Z) : Z :=
  match m with
  | 1 => 31 | 2 => 28 | 3 => 31 | 4 => 30 | 5 => 31 | 6 => 30
  | 7 => 31 | 8 => 31 | 9 => 30 | 10 => 31 | 11 => 30 | 12 => 31
  | _ => -1
  end.

Definition _DAYS_BEFORE_MONTH (m : Z) : Z :=
  match m with
  | 1 => 0 | 2 => 31 | 3 => 59 | 4 => 90 | 5 => 120 | 6 => 151
  | 7 => 181 | 8 => 212 | 9 => 243 | 10 => 273 | 11 => 304 | 12 => 334
  | _ => -1
  end.

Definition _days_in_month (y m : Z) : Z :=
  if (m =? 2) && _is_leap y then 29 else _DAYS_IN_MONTH m.

Definition _days_before_month (y m : Z) : Z :=
  _DAYS_BEFORE_MONTH m + (if (2 <? m) && _is_leap y then 1 else 0).

Definition _ymd2ord (y m d : Z) : Z :=
  _days_before_year y + _days_before_month y m + d.

Definition _ord2ymd (n : Z) : Z * Z * Z :=
  let n := n - 1 in
  let n400 := n / 146097 in let n := n mod 146097 in
  let y := n400 * 400 + 1 in
  let n100 := n / 36524 in let n := n mod 36524 in
  let n4 := n / 1461 in let n := n mod 1461 in
  let n1 := n / 365 in let n := n mod 365 in
  let y := y + n100 * 100 + n4 * 4 + n1 in
  if (n1 =? 4) || (n100 =? 4) then (y - 1, 12, 31)
  else
    let leapyear := (n1 =? 3) && (negb (n4 =? 24) || (n100 =? 3)) in
    let m := Z.shiftr (n + 50) 5 in
    let preceding := _DAYS_BEFORE_MONTH m + (if (2 <? m) && leapyear then 1 else 0) in
    if n <? preceding then
      let m := m - 1 in
      let preceding :=
        preceding - (_DAYS_IN_MONTH m + (if (m =? 2) && leapyear then 1 else 0)) in
      (y, m, n - preceding + 1)
    else (y, m, n - preceding + 1).

Definition toordinal (d : datetime) : Z := _ymd2ord (year d) (month d) (day d).

(** [datetime(y, m, d)]: [None] stands for the [ValueError] of a date out
    of range. *)
Definition make_date (y m d : Z) : option datetime :=
  if (1 <=? y) && (y <=? 9999) && (1 <=? m) && (m <=? 12)
     && (1 <=? d) && (d <=? _days_in_month y m)
  then Some (DateTime y m d 0) else None.

(** [a < b] and [a > b] on naive datetimes *)
Definition dt_ltb (a b : datetime) : bool :=
  (toordinal a <? toordinal b)
  || ((toordinal a =? toordinal b) && (micros a <? micros b)).
Definition dt_gtb (a b : datetime) : bool := dt_ltb b a.

(** [int(s)] for a run of decimal digits, white space around it ignored *)
Definition py_int (s : str) : Z :=
  fold_left (fun acc c => acc * 10 + (Z.of_nat (code c) - 48)) (strip s) 0.

(** The patterns [_strptime] builds for the directives [%d], [%m] and
    [%Y]: [3[0-1]|[1-2]\d|0[1-9]|[1-9]| [1-9]], [1[0-2]|0[1-9]|[1-9]]
    and [\d\d\d\d]. *)
Definition directive_d : regex :=
  (ich "3" ⋅ Chr (oneof "01") ∣ Chr (oneof "12") ⋅ dg ∣ ich "0" ⋅ Chr (between 49 57)
   ∣ Chr (between 49 57) ∣ ich " " ⋅ Chr (between 49 57))%re.
Definition directive_m : regex :=
  (ich "1" ⋅ Chr (oneof "012") ∣ ich "0" ⋅ Chr (between 49 57)
   ∣ Chr (between 49 57))%re.
Definition directive_Y : regex := (dg ⋅ dg ⋅ dg ⋅ dg)%re.

(** [datetime.strptime(s, fmt)] for the two formats of the code; [None]
    stands for [ValueError] (no match, unconverted data, or a date that
    does not exist).  [gy], [gm], [gd] are the groups of the year, the
    month and the day. *)
Definition strptime_with (r : regex) (gy gm gd : nat) (s : str) : option datetime :=
  match re_match r s with
  | Some found =>
      if (m_end found =? length s)%nat then
        make_date (py_int (default [] (m_group gy found)))
                  (py_int (default [] (m_group gm found)))
                  (py_int (default [] (m_group gd found)))
      else None
  | None => None
  end.

(** [datetime.strptime(s, '%d/%m/%Y')] *)
Definition strptime_dmy : str -> option datetime :=
  strptime_with (Group 1 directive_d ⋅ ich "/" ⋅ Group 2 directive_m ⋅ ich "/"
                 ⋅ Group 3 directive_Y)%re 3 2 1.
(** [datetime.strptime(s, '%Y-%m-%d')] *)
Definition strptime_ymd : str -> option datetime :=
  strptime_with (Group 1 directive_Y ⋅ ich "-" ⋅ Group 2 directive_m ⋅ ich "-"
                 ⋅ Group 3 directive_d)%re 1 2 3.

(** The code's choice of format: [if '/' in s: ... else: ...] *)
Definition parse_date (s : str) : option datetime :=
  if contains "/" s then strptime_dmy s else strptime_ymd s.

(** [dt - timedelta(days=n)]; [None] stands for the [OverflowError] of a
    result before year 1 or after year 9999. *)
Definition minus_days (dt : datetime) (n : Z) : option datetime :=
  let o := toordinal dt - n in
  if (1 <=? o) && (o <=? 3652059) then
    let '(y, m, d) := _ord2ymd o in Some (DateTime y m d (micros dt))
  else None.

Definition digit_char (d : Z) : ascii := ascii_of_nat (Z.to_nat (48 + d mod 10)).

(** The decimal digits of [z], at least [width] of them *)
Fixpoint zero_padded (width : nat) (z : Z) : str :=
  match width with
  | O => []
  | S w => zero_padded w (z / 10) ++ [digit_char z]
  end.

Fixpoint drop_zeros (s : str) : str :=
  match s with
  | c :: (_ :: _) as s' => if eqc c "0" then drop_zeros s' else s
  | _ => s
  end.

(** [dt.strftime('%d/%m/%Y')]; the C library writes the year, between 1
    and 9999, without padding. *)
Definition strftime_dmy (dt : datetime) : str :=
  zero_padded 2 (day dt) ++ "/" ++ zero_padded 2 (month dt) ++ "/"
  ++ drop_zeros (zero_padded 4 (year dt)).

(** [list.sort(key=...)] is stable; so is this insertion sort, and the
    stable sorted arrangement of a list is unique. *)
Fixpoint insert_sorted {A : Type} (ltb : A -> A -> bool) (x : A) (l : list A) : list A :=
  match l with
  | [] => [x]
  | y :: l' => if ltb y x then y :: insert_sorted ltb x l' else x :: l
  end.
Definition sort_by {A : Type} (ltb : A -> A -> bool) (l : list A) : list A :=
  foldr (insert_sorted ltb) [] l.

(** *** [extract_expiry_date] *)

Definition valid_upto : regex := lit "Valid Upto".

Definition expiry_patterns : list regex :=
  [ (* Valid Upto\s*:\s*(\d{2}/\d{2}/\d{4}) *)
    valid_upto ⋅ rstar ws ⋅ ich ":" ⋅ rstar ws ⋅ Group 1 dmy;
    (* Valid Upto\s*[:\-]?\s*(\d{2}/\d{2}/\d{4}) *)
    valid_upto ⋅ rstar ws ⋅ colon_dash_opt ⋅ rstar ws ⋅ Group 1 dmy;
    (* Valid Upto[^\d]*(\d{2}/\d{2}/\d{4}) *)
    valid_upto ⋅ rstar (Chr not_digit) ⋅ Group 1 dmy;
    (* Valid Upto\s*\n\s*(\d{2}/\d{2}/\d{4}) *)
    valid_upto ⋅ rstar ws ⋅ ich nl ⋅ rstar ws ⋅ Group 1 dmy;
    (* Valid[^\n]*Upto[^\d\n]*(\d{2}/\d{2}/\d{4}) *)
    lit "Valid" ⋅ rstar (Chr not_nl) ⋅ lit "Upto" ⋅ rstar (Chr not_digit_nl)
      ⋅ Group 1 dmy;
    (* Valid[^\n]*Upto[^\n]*\n[^\d]*(\d{2}/\d{2}/\d{4}) *)
    lit "Valid" ⋅ rstar (Chr not_nl) ⋅ lit "Upto" ⋅ rstar (Chr not_nl) ⋅ ich nl
      ⋅ rstar (Chr not_digit) ⋅ Group 1 dmy;
    (* Valid Upto\s*:\s*(\d{4}-\d{2}-\d{2}) *)
    valid_upto ⋅ rstar ws ⋅ ich ":" ⋅ rstar ws ⋅ Group 1 ymd;
    (* Valid Upto\s*[:\-]?\s*(\d{4}-\d{2}-\d{2}) *)
    valid_upto ⋅ rstar ws ⋅ colon_dash_opt ⋅ rstar ws ⋅ Group 1 ymd;
    (* Valid Upto[^\d]*(\d{4}-\d{2}-\d{2}) *)
    valid_upto ⋅ rstar (Chr not_digit) ⋅ Group 1 ymd;
    (* Valid Upto\s*\n\s*(\d{4}-\d{2}-\d{2}) *)
    valid_upto ⋅ rstar ws ⋅ ich nl ⋅ rstar ws ⋅ Group 1 ymd ]%re.

(** [re.match(r'\d{2}/\d{2}/\d{4}', s) or re.match(r'\d{4}-\d{2}-\d{2}', s)] *)
Definition looks_like_date (s : str) : bool :=
  match re_match dmy s, re_match ymd s with
  | None, None => false
  | _, _ => true
  end.

(** The label-anchored patterns, in order; for each, the first of its
    matches that looks like a date *)
Definition expiry_by_label (fssai_text : str) : option str :=
  first_some (fun pattern =>
                first_some (fun m => let date_str := strip m in
                                     if looks_like_date date_str
                                     then Some date_str else None)
                  (findall pattern 1 fssai_text))
    expiry_patterns.

(** [mapM]: all the values, or [None] as soon as one is missing (the
    [ValueError] that leaves the [try] block) *)
Fixpoint all_some {A B : Type} (f : A -> option B) (l : list A) : option (list B) :=
  match l with
  | [] => Some []
  | x :: l' =>
      match f x with
      | Some y => option_map (cons y) (all_some f l')
      | None => None
      end
  end.

(** The fallback of [extract_expiry_date]: every date in the text *)
Definition expiry_fallback (fssai_text : str) : option str :=
  let all_dates := findall (Group 1 dmy) 1 fssai_text in
  let all_dates_yyyy := findall (Group 1 ymd) 1 fssai_text in
  match all_dates with
  | _ :: _ =>
      match all_some (fun date_str =>
                        option_map (fun date_obj => (date_obj, date_str))
                                   (strptime_dmy date_str)) all_dates with
      | Some date_objects =>
          option_map snd
            (last (sort_by (fun x y => dt_ltb (fst x) (fst y)) date_objects))
      | None => last all_dates
      end
  | [] => last all_dates_yyyy
  end.

Definition extract_expiry_date (fssai_text : str) : option str :=
  let fssai_text := _fix_pdf_dates fssai_text in
  match expiry_by_label fssai_text with
  | Some date_str => Some date_str
  | None => expiry_fallback fssai_text
  end.

(** *** [extract_issue_date] *)

Definition issue_date : regex := (lit "Issue" ⋅ rstar ws ⋅ lit "Date")%re.
Definition date_of_issue : regex :=
  (lit "Date" ⋅ rstar ws ⋅ lit "of" ⋅ rstar ws ⋅ lit "Issue")%re.

Definition issue_patterns : list regex :=
  [ (* Issue\s*Date\s*:\s*(\d{2}/\d{2}/\d{4}) *)
    issue_date ⋅ rstar ws ⋅ ich ":" ⋅ rstar ws ⋅ Group 1 dmy;
    (* Issue\s*Date\s*[:\-]?\s*(\d{2}/\d{2}/\d{4}) *)
    issue_date ⋅ rstar ws ⋅ colon_dash_opt ⋅ rstar ws ⋅ Group 1 dmy;
    (* Date\s*of\s*Issue\s*:\s*(\d{2}/\d{2}/\d{4}) *)
    date_of_issue ⋅ rstar ws ⋅ ich ":" ⋅ rstar ws ⋅ Group 1 dmy;
    (* Date\s*of\s*Issue\s*[:\-]?\s*(\d{2}/\d{2}/\d{4}) *)
    date_of_issue ⋅ rstar ws ⋅ colon_dash_opt ⋅ rstar ws ⋅ Group 1 dmy;
    (* Issue\s*Date\s*:\s*(\d{4}-\d{2}-\d{2}) *)
    issue_date ⋅ rstar ws ⋅ ich ":" ⋅ rstar ws ⋅ Group 1 ymd;
    (* Issue\s*Date\s*[:\-]?\s*(\d{4}-\d{2}-\d{2}) *)
    issue_date ⋅ rstar ws ⋅ colon_dash_opt ⋅ rstar ws ⋅ Group 1 ymd;
    (* Date\s*of\s*Issue\s*:\s*(\d{4}-\d{2}-\d{2}) *)
    date_of_issue ⋅ rstar ws ⋅ ich ":" ⋅ rstar ws ⋅ Group 1 ymd;
    (* Date\s*of\s*Issue\s*[:\-]?\s*(\d{4}-\d{2}-\d{2}) *)
    date_of_issue ⋅ rstar ws ⋅ colon_dash_opt ⋅ rstar ws ⋅ Group 1 ymd ]%re.

(** The fallback of [extract_issue_date]: the first date of the first line
    that mentions an issue or a registration and carries a date *)
Definition issue_date_of_line (line : str) : option str :=
  if searches (lit "issue" ∣ lit "registration")%re line then
    match findall (Group 1 dmy) 1 line with
    | d :: _ => Some d
    | [] => head (findall (Group 1 ymd) 1 line)
    end
  else None.

Definition extract_issue_date (fssai_text : str) : option str :=
  let fssai_text := _fix_pdf_dates fssai_text in
  match first_some (fun pattern =>
                      match re_search pattern fssai_text with
                      | Some m => let date_str := strip (group1 m) in
                                  if looks_like_date date_str
                                  then Some date_str else None
                      | None => None
                      end) issue_patterns with
  | Some date_str => Some date_str
  | None => first_some issue_date_of_line (split_char nl None fssai_text)
  end.

(** *** [extract_address] *)

#[local] Open Scope nat_scope.

(** [(?:License|Registration|Valid|Certificate|Name|Operator)] *)
Definition section_label : regex :=
  (lit "License" ∣ lit "Registration" ∣ lit "Valid" ∣ lit "Certificate"
   ∣ lit "Name" ∣ lit "Operator")%re.

(** [([^\n\r]+(?:\n[^\n\r]+)*?)(?=\n\s*(?:License|...|Operator))] *)
Definition address_body : regex :=
  (Group 1 (rplus (Chr not_nl_cr) ⋅ rlazy (ich nl ⋅ rplus (Chr not_nl_cr)))
   ⋅ Look (ich nl ⋅ rstar ws ⋅ section_label))%re.

(** A character of a pattern that is not below 128: it stands in no text
    of characters below 128, and the model takes it to stand in none. *)
Definition outside : regex := Chr (fun _ => false).

Definition address_patterns : list regex :=
  [ (* Address\s*:\s*(...)(?=...) *)
    lit "Address" ⋅ rstar ws ⋅ ich ":" ⋅ rstar ws ⋅ address_body;
    (* Business\s*Address\s*:\s*(...)(?=...) *)
    lit "Business" ⋅ rstar ws ⋅ lit "Address" ⋅ rstar ws ⋅ ich ":" ⋅ rstar ws
      ⋅ address_body;
    (* Address\s*of\s*Premises\s*:\s*(...)(?=...) *)
    lit "Address" ⋅ rstar ws ⋅ lit "of" ⋅ rstar ws ⋅ lit "Premises" ⋅ rstar ws
      ⋅ ich ":" ⋅ rstar ws ⋅ address_body;
    (* the Hindi word for address, three Devanagari letters,
       then \s*(...)(?=...) *)
    outside ⋅ outside ⋅ outside ⋅ rstar ws ⋅ address_body ]%re.

(** [(license|registration|valid|certificate|fbo|operator)] *)
Definition not_address_line : regex :=
  (lit "license" ∣ lit "registration" ∣ lit "valid" ∣ lit "certificate"
   ∣ lit "fbo" ∣ lit "operator")%re.

(** [(near|at|opp|village|sector|street|road|distt|district|punjab|bus|stand|vpo|teh|kalanwali|sirsa|haryana)] *)
Definition location_word : regex :=
  (lit "near" ∣ lit "at" ∣ lit "opp" ∣ lit "village" ∣ lit "sector"
   ∣ lit "street" ∣ lit "road" ∣ lit "distt" ∣ lit "district" ∣ lit "punjab"
   ∣ lit "bus" ∣ lit "stand" ∣ lit "vpo" ∣ lit "teh" ∣ lit "kalanwali"
   ∣ lit "sirsa" ∣ lit "haryana")%re.

Definition nonempty {A : Type} (l : list A) : bool :=
  match l with [] => false | _ :: _ => true end.

(** The loop over the lines that follow the business name;
    [address_parts] is the list built so far. *)
Fixpoint address_after_name (lines : list str) (address_parts : list str)
    : list str :=
  match lines with
  | [] => address_parts
  | line :: lines' =>
      let line := strip line in
      if nonempty line && negb (searches not_address_line line) then
        if searches location_word line then
          address_after_name lines' (address_parts ++ [line])
        else if nonempty address_parts then
          (if nonempty line
           then address_after_name lines' (address_parts ++ [line])
           else address_parts)
        else address_after_name lines' address_parts
      else if nonempty address_parts then address_parts
      else address_after_name lines' address_parts
  end.

(** The loop over all lines, from a line with "address" and a colon to
    the next section *)
Fixpoint address_by_keyword (lines : list str) (in_address : bool)
    (address_lines : list str) : list str :=
  match lines with
  | [] => address_lines
  | line :: lines' =>
      let line_lower := strip (lower line) in
      if contains "address" line_lower && contains ":" line then
        let parts := split_char ":" (Some 1) line in
        match parts with
        | _ :: p1 :: _ =>
            address_by_keyword lines' true (address_lines ++ [strip p1])
        | _ => address_by_keyword lines' true address_lines
        end
      else if in_address then
        if existsb (fun keyword => contains keyword line_lower)
             [ "license" : str; "registration" : str; "valid" : str;
               "certificate" : str; "name" : str; "operator" : str;
               "fbo" : str ]
        then address_lines
        else if nonempty (strip line)
             then address_by_keyword lines' in_address (address_lines ++ [strip line])
             else address_by_keyword lines' in_address address_lines
      else address_by_keyword lines' in_address address_lines
  end.

(** [' '.join(parts)], white space collapsed and trimmed, kept when
    longer than [min_len] *)
Definition joined_address (parts : list str) (min_len : nat) : option str :=
  if nonempty parts then
    let full_address := strip (re_sub (rplus ws) " " (join " " parts)) in
    if min_len <? length full_address then Some full_address else None
  else None.

Definition address_by_pattern (fssai_text : str) : option str :=
  first_some (fun pattern =>
                match re_search pattern fssai_text with
                | Some m =>
                    let address := strip (group1 m) in
                    let address := re_sub (Chr (oneof [nl; cr; tab])) " " address in
                    let address := join " " (split_ws address) in
                    if 5 <? length address then Some address else None
                | None => None
                end) address_patterns.

Definition address_by_name (fssai_text : str) : option str :=
  let business_name := extract_name_from_fssai fssai_text in
  if truthy business_name then
    let business_name := default [] business_name in
    match str_find (lower business_name) (lower fssai_text) with
    | Some name_pos =>
        let remaining_text := drop (name_pos + length business_name) fssai_text in
        let lines := split_char nl None remaining_text in
        joined_address (address_after_name (take 5 lines) []) 10
    | None => None
    end
  else None.

Definition extract_address (fssai_text : str) : option str :=
  match address_by_pattern fssai_text with
  | Some address => Some address
  | None =>
      match address_by_name fssai_text with
      | Some address => Some address
      | None =>
          joined_address
            (address_by_keyword (split_char nl None fssai_text) false []) 5
      end
  end.

(** ** Values, dictionaries and the world outside the class *)

(** A Python [float]: a rational, an infinity, or not a number *)
Inductive pyfloat :=
| Finite (q : Q)
| PosInf
| NegInf
| NaN.

Definition Qltb (x y : Q) : bool :=
  (Qnum x * Zpos (Qden y) <? Qnum y * Zpos (Qden x))%Z.

(** [a < b] on floats *)
Definition float_ltb (a b : pyfloat) : bool :=
  match a, b with
  | NaN, _ | _, NaN => false
  | Finite x, Finite y => Qltb x y
  | NegInf, (Finite _ | PosInf) => true
  | Finite _, PosInf => true
  | _, _ => false
  end.

Definition float_of_Z (z : Z) : pyfloat := Finite (inject_Z z).

Inductive pyval :=
| VNone
| VStr (s : str)
| VInt (z : Z)
| VFloat (f : pyfloat)
| VBool (b : bool)
| VStrs (l : list str)
| VDict (d : gmap string pyval).

Abbreviation dict := (gmap string pyval).

(** An [Optional[str]] as a value *)
Definition of_opt (o : option str) : pyval :=
  match o with
  | Some s => VStr s
  | None => VNone
  end.

(** [d[k] == s] for a string [s] *)
Definition is_str (d : dict) (k : string) (s : str) : bool :=
  match d !! k with
  | Some (VStr v) => str_eqb v s
  | _ => false
  end.

(** [d.get(k, "")] where the value, if any, is a string *)
Definition get_str (d : dict) (k : string) : str :=
  match d !! k with
  | Some (VStr v) => v
  | _ => []
  end.

(** [d[k]] where the key is known to be present *)
Definition item (d : dict) (k : string) : pyval := default VNone (d !! k).

Inductive pyexn := OverflowError.

Inductive outcome (A : Type) :=
| Returns (a : A)
| Raises (e : pyexn).
Arguments Returns {A} a.
Arguments Raises {A} e.

Record World := {
  (** [extract_text_from_document]: the text of the document at a path,
      empty when nothing could be read *)
  extract_text_from_document : str -> str;
  (** [datetime.now()] *)
  now : datetime;
  (** [random.randint(a, b)] *)
  randint : Z -> Z -> Z;
  (** [self.supabase.table("verified_producers").upsert(row, ...).execute()]:
      [true] when the call returns, [false] when it raises an [Exception] *)
  upsert : dict -> bool;
  (** the fragment [₹{income:,.0f}] of the two messages *)
  rupees : pyfloat -> str
}.

(** ** [verify_names] *)

(** The comparison of [verify_names]: both names trimmed and lower-cased,
    then [==] *)
Definition names_match (provided_name business_name : str) : bool :=
  let provided_name_clean := lower (strip provided_name) in
  let business_name_clean := lower (strip business_name) in
  str_eqb provided_name_clean business_name_clean.

Definition verify_names (w : World) (provided_name fssai_document_path : str) : dict :=
  let result : dict :=
    {[ "status" := VStr "pending"; "message" := VStr ""; "details" := VDict ∅ ]} in
  let fssai_text := extract_text_from_document w fssai_document_path in
  if negb (nonempty fssai_text) then
    <["message" := VStr "Could not read FSSAI document"]>
      (<["status" := VStr "rejected"]> result)
  else
    let business_name := extract_name_from_fssai fssai_text in
    if negb (truthy business_name) then
      <["message" := VStr "Could not extract business name from FSSAI document"]>
        (<["status" := VStr "rejected"]> result)
    else
      let business_name := default [] business_name in
      let details : dict :=
        {[ "provided_name" := VStr provided_name;
           "business_name" := VStr business_name ]} in
      if names_match provided_name business_name then
        <["fssai_text" := VStr fssai_text]>
          (<["details" := VDict details]>
             (<["message" := VStr "Names match successfully"]>
                (<["status" := VStr "verified"]> result)))
      else
        <["details" := VDict details]>
          (<["message" := VStr ("Name mismatch: '" ++ provided_name
                                ++ "' (provided) != '" ++ business_name
                                ++ "' (FSSAI document)")]>
             (<["status" := VStr "rejected"]> result)).

(** ** [check_fssai_format] *)

(** The expiry part of the format check: what becomes of [issues] *)
Definition check_expiry (w : World) (fssai_text : str) (issues : list str)
    : list str :=
  let expiry_date := extract_expiry_date fssai_text in
  if truthy expiry_date then
    let expiry_date := default [] expiry_date in
    match parse_date expiry_date with
    | Some exp_date =>
        if dt_gtb (now w) exp_date then
          issues ++ [("License expired on " : str) ++ expiry_date]
        else if existsb (contains "Issue or expiry date not found") issues then
          filter (fun issue =>
                    negb (contains "Issue or expiry date not found" issue)) issues
        else issues
    | None => issues ++ ["Invalid expiry date format" : str]
    end
  else
    if negb (existsb (contains "Issue or expiry date") issues)
    then issues ++ ["Expiry date not found" : str]
    else issues.

Definition check_fssai_format (w : World) (fssai_document_path : str) : dict :=
  let result : dict :=
    {[ "status" := VStr "pending"; "message" := VStr ""; "issues" := VStrs [] ]} in
  let fssai_text := extract_text_from_document w fssai_document_path in
  if negb (nonempty fssai_text) then
    <["issues" := VStrs ["Could not read FSSAI document" : str]]>
      (<["message" := VStr "Could not read FSSAI document"]>
         (<["status" := VStr "rejected"]> result))
  else if contains "20819019000744" fssai_text then
    <["issues" := VStrs []]>
      (<["message" := VStr "FSSAI document contains required number"]>
         (<["status" := VStr "verified"]> result))
  else
    let fssai_text := _fix_pdf_dates fssai_text in
    let issues : list str := [] in
    let license_number := extract_license_number fssai_text in
    let issues :=
      if negb (truthy license_number)
      then issues ++ ["No 14-digit license number found" : str] else issues in
    let business_name := extract_name_from_fssai fssai_text in
    let issues :=
      if negb (truthy business_name)
      then issues ++ ["Business name not found" : str] else issues in
    let issues :=
      if negb (searches (lit "address") fssai_text)
      then issues ++ ["Address information not found" : str] else issues in
    let all_dates :=
      findall (Group 1 dmy) 1 fssai_text ++ findall (Group 1 ymd) 1 fssai_text in
    let issues :=
      if negb (nonempty all_dates)
      then issues ++ ["Issue or expiry date not found" : str] else issues in
    let issues := check_expiry w fssai_text issues in
    if nonempty issues then
      <["issues" := VStrs issues]>
        (<["message" := VStr "FSSAI document format issues found"]>
           (<["status" := VStr "rejected"]> result))
    else
      <["message" := VStr "FSSAI document format is valid"]>
        (<["status" := VStr "verified"]> result).

(** ** [verify_producer] *)

(** Step 3: the certificate class the income calls for *)
Definition expected_type (income : pyfloat) : str :=
  if float_ltb income (float_of_Z 1200000) then "registration" else "license".

(** The issue date when none was found: the expiry date minus [365*5]
    days.  A [ValueError] of the parse is caught; the [OverflowError] of
    the subtraction is not. *)
Definition backfill_issue_date (issue_date expiry_date : option str)
    : outcome (option str) :=
  if negb (truthy issue_date) && truthy expiry_date then
    match parse_date (default [] expiry_date) with
    | Some exp_dt =>
        match minus_days exp_dt (365 * 5) with
        | Some issue_dt => Returns (Some (strftime_dmy issue_dt))
        | None => Raises OverflowError
        end
    | None => Returns issue_date
    end
  else Returns issue_date.

Definition clean_text (text : option str) : option str :=
  if truthy text then
    Some (strip (replace [cr] " " (replace [nl] " "
                   (replace [nul] [] (default [] text)))))
  else text.

Definition verify_producer (w : World) (producer_name fssai_document_path : str)
    (income : pyfloat) (aadhar : str) : outcome dict :=
  (* Step 1: cross-check names *)
  let name_verification := verify_names w producer_name fssai_document_path in
  if negb (is_str name_verification "status" "verified") then
    Returns {[ "status" := VStr "failed";
               "stage" := VStr "name_verification";
               "message" := item name_verification "message";
               "details" := item name_verification "details" ]}
  else
    (* Step 2: certificate type *)
    let fssai_text := get_str name_verification "fssai_text" in
    if negb (nonempty fssai_text) then
      Returns {[ "status" := VStr "failed";
                 "stage" := VStr "document_read";
                 "message" := VStr "Could not read FSSAI document text" ]}
    else
      let actual_type := extract_certificate_type fssai_text in
      if negb (truthy actual_type) then
        Returns {[ "status" := VStr "failed";
                   "stage" := VStr "certificate_type";
                   "message" := VStr "Certificate type not found in document" ]}
      else
        let actual_type := default [] actual_type in
        let business_type := extract_business_type fssai_text in
        (* Step 3: expected type from the income *)
        let expected_type := expected_type income in
        (* Step 4: the two must agree *)
        if str_eqb expected_type "registration"
           && negb (str_eqb actual_type "registration") then
          Returns {[ "status" := VStr "failed";
                     "stage" := VStr "certificate_match";
                     "message" :=
                       VStr (("Based on income (" : str) ++ rupees w income
                             ++ "), registration certificate expected, but document shows "
                             ++ actual_type ++ " license") ]}
        else if str_eqb expected_type "license"
                && str_eqb actual_type "registration" then
          Returns {[ "status" := VStr "failed";
                     "stage" := VStr "certificate_match";
                     "message" :=
                       VStr (("Based on income (" : str) ++ rupees w income
                             ++ "), state or central license expected, but document shows registration certificate") ]}
        else
          (* Step 5: document format *)
          let format_verification := check_fssai_format w fssai_document_path in
          if negb (is_str format_verification "status" "verified") then
            Returns {[ "status" := VStr "failed";
                       "stage" := VStr "format_verification";
                       "message" := item format_verification "message";
                       "issues" := item format_verification "issues" ]}
          else
            let license_number := extract_license_number fssai_text in
            let issue_date := extract_issue_date fssai_text in
            let expiry_date := extract_expiry_date fssai_text in
            let address := extract_address fssai_text in
            match backfill_issue_date issue_date expiry_date with
            | Raises e => Raises e
            | Returns issue_date =>
                let issue_date := clean_text issue_date in
                let expiry_date := clean_text expiry_date in
                let address := clean_text address in
                let pin := randint w 100000 999999 in
                let data_stored :=
                  upsert w {[ "aadhar" := VStr aadhar;
                              "name" := VStr producer_name;
                              "fssai_license_number" := of_opt license_number;
                              "annual_income" := VFloat income;
                              "certificate_type" := VStr actual_type;
                              "business_type" :=
                                VStr (if truthy business_type
                                      then default [] business_type else []);
                              "issue_date" := of_opt issue_date;
                              "expiry_date" := of_opt expiry_date;
                              "address" := of_opt address;
                              "pin" := VInt pin ]} in
                Returns {[ "status" := VStr "success";
                           "message" := VStr "Producer verified successfully";
                           "name_details" := item name_verification "details";
                           "certificate_type" := VStr actual_type;
                           "format_details" := VDict format_verification;
                           "issue_date" := of_opt issue_date;
                           "expiry_date" := of_opt expiry_date;
                           "address" := of_opt address;
                           "pin" := VInt pin;
                           "data_stored" := VBool data_stored ]}
            end.

(** ** The document: files and the PDF libraries *)

Module Agent1.

Definition bytes := list Byte.byte.

(** What a path names *)
Inductive node :=
| File (content : bytes)
| Directory.

(** The file system: the paths that exist *)
Abbreviation files := (gmap str node).

(** What a library does with a file it is asked to read: the results for
    the pages it gets through, and whether an exception ends it (at the
    import, on opening the file, or at a page). *)
Record run (A : Type) := Run {
  pages : list A;
  raised : bool
}.
Arguments Run {A} pages raised.
Arguments pages {A} r.
Arguments raised {A} r.

Record Libraries := {
  (** [PyPDF2.PdfReader(file).pages], [page.extract_text()] of each *)
  PyPDF2 : bytes -> run (option str);
  (** [pdfplumber.open(pdf_path).pages], [page.extract_text()] of each *)
  pdfplumber : bytes -> run (option str);
  (** [convert_from_path(pdf_path, 200)], [pytesseract.image_to_string]
      of each page *)
  pytesseract : bytes -> run str;
  (** [open(path, 'r', encoding=...).read()]: [None] for an exception *)
  read : str -> bytes -> option str;
  (** the name [tempfile.NamedTemporaryFile(suffix='.pdf', delete=False)]
      takes *)
  NamedTemporaryFile : files -> str
}.

(** A library at work on a path: nothing but a file can be opened. *)
Definition run_on {A : Type} (library : bytes -> run A) (fs : files)
    (pdf_path : str) : run A :=
  match fs !! pdf_path with
  | Some (File content) => library content
  | _ => Run [] true
  end.

(** [if page_text: text += page_text + "\n"] *)
Definition add_page_text (text : str) (page_text : option str) : str :=
  if truthy page_text then text ++ default [] page_text ++ [nl] else text.

Definition _extract_text_from_pdf (L : Libraries) (fs : files) (pdf_path : str)
    : str :=
  let text : str := [] in
  (* Try PyPDF2 first *)
  let pdf_reader := run_on (PyPDF2 L) fs pdf_path in
  let text := fold_left add_page_text (pages pdf_reader) text in
  if negb (raised pdf_reader) && nonempty (strip text) then text
  else
    (* Fallback to pdfplumber *)
    let pdf := run_on (pdfplumber L) fs pdf_path in
    let text := fold_left add_page_text (pages pdf) text in
    if negb (raised pdf) && nonempty (strip text) then text
    else
      (* Final fallback: OCR *)
      let ocr := run_on (pytesseract L) fs pdf_path in
      let text := fold_left (fun text page => text ++ page ++ [nl]) (pages ocr) text in
      if negb (raised ocr) then text else [].

(** The text and the file system that is left *)
Definition extract_text_from_pdf_data (L : Libraries) (fs : files)
    (pdf_data : bytes) : str * files :=
  let temp_pdf_path := NamedTemporaryFile L fs in
  let fs := <[temp_pdf_path := File pdf_data]> fs in
  let text := _extract_text_from_pdf L fs temp_pdf_path in
  let fs := if bool_decide (is_Some (fs !! temp_pdf_path))
            then delete temp_pdf_path fs else fs in
  (text, fs).

(** [s.endswith(suffix)] *)
Definition endswith (suffix s : str) : bool := startswith (rev suffix) (rev s).

Definition extract_text_from_document (L : Libraries) (fs : files)
    (document_path : str) : str :=
  if negb (bool_decide (is_Some (fs !! document_path))) then []
  else if endswith ".pdf" (lower document_path) then
    _extract_text_from_pdf L fs document_path
  else
    match fs !! document_path with
    | Some (File content) =>
        match read L "utf-8" content with
        | Some text => text
        | None =>
            match read L "latin-1" content with
            | Some text => text
            | None => []
            end
        end
    | _ => []
    end.

(** ** The variants that take the bytes of the PDF *)

Definition verify_names_with_pdf_data (L : Libraries) (fs : files)
    (provided_name : str) (fssai_pdf_data : bytes) : dict * files :=
  let result : dict :=
    {[ "status" := VStr "pending"; "message" := VStr ""; "details" := VDict ∅ ]} in
  let '(fssai_text, fs) := extract_text_from_pdf_data L fs fssai_pdf_data in
  if negb (nonempty fssai_text) then
    (<["message" := VStr "Could not read FSSAI document"]>
       (<["status" := VStr "rejected"]> result), fs)
  else
    let business_name := extract_name_from_fssai fssai_text in
    if negb (truthy business_name) then
      (<["message" := VStr "Could not extract business name from FSSAI document"]>
         (<["status" := VStr "rejected"]> result), fs)
    else
      let business_name := default [] business_name in
      let details : dict :=
        {[ "provided_name" := VStr provided_name;
           "business_name" := VStr business_name ]} in
      if names_match provided_name business_name then
        (<["fssai_text" := VStr fssai_text]>
           (<["details" := VDict details]>
              (<["message" := VStr "Names match successfully"]>
                 (<["status" := VStr "verified"]> result))), fs)
      else
        (<["details" := VDict details]>
           (<["message" := VStr ("Name mismatch: '" ++ provided_name
                                 ++ "' (provided) != '" ++ business_name
                                 ++ "' (FSSAI document)")]>
              (<["status" := VStr "rejected"]> result)), fs).

Definition check_fssai_format_with_pdf_data (L : Libraries) (w : World)
    (fs : files) (fssai_pdf_data : bytes) : dict * files :=
  let result : dict :=
    {[ "status" := VStr "pending"; "message" := VStr ""; "issues" := VStrs [] ]} in
  let '(fssai_text, fs) := extract_text_from_pdf_data L fs fssai_pdf_data in
  if negb (nonempty fssai_text) then
    (<["issues" := VStrs ["Could not read FSSAI document" : str]]>
       (<["message" := VStr "Could not read FSSAI document"]>
          (<["status" := VStr "rejected"]> result)), fs)
  else if contains "20819019000744" fssai_text then
    (<["issues" := VStrs []]>
       (<["message" := VStr "FSSAI document contains required number"]>
          (<["status" := VStr "verified"]> result)), fs)
  else
    let fssai_text := _fix_pdf_dates fssai_text in
    let issues : list str := [] in
    let license_number := extract_license_number fssai_text in
    let issues :=
      if negb (truthy license_number)
      then issues ++ ["No 14-digit license number found" : str] else issues in
    let business_name := extract_name_from_fssai fssai_text in
    let issues :=
      if negb (truthy business_name)
      then issues ++ ["Business name not found" : str] else issues in
    let issues :=
      if negb (searches (lit "address") fssai_text)
      then issues ++ ["Address information not found" : str] else issues in
    let all_dates :=
      findall (Group 1 dmy) 1 fssai_text ++ findall (Group 1 ymd) 1 fssai_text in
    let issues :=
      if negb (nonempty all_dates)
      then issues ++ ["Issue or expiry date not found" : str] else issues in
    let issues := check_expiry w fssai_text issues in
    if nonempty issues then
      (<["issues" := VStrs issues]>
         (<["message" := VStr "FSSAI document format issues found"]>
            (<["status" := VStr "rejected"]> result)), fs)
    else
      (<["message" := VStr "FSSAI document format is valid"]>
         (<["status" := VStr "verified"]> result), fs).

Definition verify_producer_with_pdf_data (L : Libraries) (w : World)
    (fs : files) (producer_name : str) (fssai_pdf_data : bytes)
    (income : pyfloat) (aadhar : str) : outcome dict * files :=
  (* Step 1: cross-check names *)
  let '(name_verification, fs) :=
    verify_names_with_pdf_data L fs producer_name fssai_pdf_data in
  if negb (is_str name_verification "status" "verified") then
    (Returns {[ "status" := VStr "failed";
                "stage" := VStr "name_verification";
                "message" := item name_verification "message";
                "details" := item name_verification "details" ]}, fs)
  else
    (* Step 2: certificate type *)
    let fssai_text := get_str name_verification "fssai_text" in
    if negb (nonempty fssai_text) then
      (Returns {[ "status" := VStr "failed";
                  "stage" := VStr "document_read";
                  "message" := VStr "Could not read FSSAI document text" ]}, fs)
    else
      let actual_type := extract_certificate_type fssai_text in
      if negb (truthy actual_type) then
        (Returns {[ "status" := VStr "failed";
                    "stage" := VStr "certificate_type";
                    "message" := VStr "Certificate type not found in document" ]},
         fs)
      else
        let actual_type := default [] actual_type in
        let business_type := extract_business_type fssai_text in
        (* Step 3: expected type from the income *)
        let expected_type := expected_type income in
        (* Step 4: the two must agree *)
        if str_eqb expected_type "registration"
           && negb (str_eqb actual_type "registration") then
          (Returns {[ "status" := VStr "failed";
                      "stage" := VStr "certificate_match";
                      "message" :=
                        VStr (("Based on income (" : str) ++ rupees w income
                              ++ "), registration certificate expected, but document shows "
                              ++ actual_type ++ " license") ]}, fs)
        else if str_eqb expected_type "license"
                && str_eqb actual_type "registration" then
          (Returns {[ "status" := VStr "failed";
                      "stage" := VStr "certificate_match";
                      "message" :=
                        VStr (("Based on income (" : str) ++ rupees w income
                              ++ "), state or central license expected, but document shows registration certificate") ]},
           fs)
        else
          (* Step 5: document format *)
          let '(format_verification, fs) :=
            check_fssai_format_with_pdf_data L w fs fssai_pdf_data in
          if negb (is_str format_verification "status" "verified") then
            (Returns {[ "status" := VStr "failed";
                        "stage" := VStr "format_verification";
                        "message" := item format_verification "message";
                        "issues" := item format_verification "issues" ]}, fs)
          else
            let license_number := extract_license_number fssai_text in
            let issue_date := extract_issue_date fssai_text in
            let expiry_date := extract_expiry_date fssai_text in
            let address := extract_address fssai_text in
            match backfill_issue_date issue_date expiry_date with
            | Raises e => (Raises e, fs)
            | Returns issue_date =>
                let issue_date := clean_text issue_date in
                let expiry_date := clean_text expiry_date in
                let address := clean_text address in
                let pin := randint w 100000 999999 in
                let data_stored :=
                  upsert w {[ "aadhar" := VStr aadhar;
                              "name" := VStr producer_name;
                              "fssai_license_number" := of_opt license_number;
                              "annual_income" := VFloat income;
                              "certificate_type" := VStr actual_type;
                              "business_type" :=
                                VStr (if truthy business_type
                                      then default [] business_type else []);
                              "issue_date" := of_opt issue_date;
                              "expiry_date" := of_opt expiry_date;
                              "address" := of_opt address;
                              "pin" := VInt pin ]} in
                (Returns {[ "status" := VStr "success";
                            "message" := VStr "Producer verified successfully";
                            "name_details" := item name_verification "details";
                            "certificate_type" := VStr actual_type;
                            "format_details" := VDict format_verification;
                            "issue_date" := of_opt issue_date;
                            "expiry_date" := of_opt expiry_date;
                            "address" := of_opt address;
                            "pin" := VInt pin;
                            "data_stored" := VBool data_stored ]}, fs)
            end.

End Agent1.

(** The world of a document that is read from the files *)
Definition world_of_files (L : Agent1.Libraries) (fs : Agent1.files) (w : World)
    : World :=
  {| extract_text_from_document := Agent1.extract_text_from_document L fs;
     now := now w;
     randint := randint w;
     upsert := upsert w;
     rupees := rupees w |}.

(** ** The [/verify] endpoint of [app.py] *)

Module App.

(** A JSON value as [request.get_json()] returns it *)
Inductive json :=
| JNull
| JBool (b : bool)
| JInt (z : Z)
| JFloat (f : pyfloat)
| JStr (s : str)
| JArr (l : list json)
| JObj (d : gmap string json).

(** The exceptions that reach the outer [except Exception] *)
Inductive failure :=
| BadRequest (description : str)  (* [request.get_json()] raises *)
| NotIterable (data : json)       (* [field not in data]: TypeError *)
| NotSubscriptable (data : json)  (* [data['aadhar']]: TypeError *)
| TooLarge (z : Z)                (* [float(z)]: OverflowError *)
| Pipeline (e : pyexn).           (* raised by [verify_producer_with_pdf_data] *)

Inductive decoded :=
| Decoded (pdf_data : Agent1.bytes)
| DecodeError (message : str).

Record Python := {
  (** [float(z)] for an [int]: [None] for the [OverflowError] of an
      integer beyond the floats *)
  float_of_int : Z -> option pyfloat;
  (** [float(s)] for a [str]: [None] for a [ValueError] *)
  float_of_str : str -> option pyfloat;
  (** [base64.b64decode(s)], with [str(e)] for an exception *)
  b64decode : str -> decoded;
  (** [str(e)] *)
  str_of : failure -> str
}.

(** [field in data]: a key of an object, an element of an array, a part
    of a string; [None] for the [TypeError] of any other value *)
Definition member (field : string) (data : json) : option bool :=
  match data with
  | JObj d => Some (bool_decide (is_Some (d !! field)))
  | JArr l =>
      Some (existsb (fun x => match x with
                              | JStr s => str_eqb s field
                              | _ => false
                              end) l)
  | JStr s => Some (contains field s)
  | _ => None
  end.

(** [float(annual_income)] *)
Inductive conversion :=
| Converted (income : pyfloat)
| ValueOrTypeError
| OverflowOf (z : Z).

Definition float (P : Python) (v : json) : conversion :=
  match v with
  | JNull | JArr _ | JObj _ => ValueOrTypeError
  | JBool b => Converted (float_of_Z (if b then 1 else 0))
  | JInt z =>
      match float_of_int P z with
      | Some f => Converted f
      | None => OverflowOf z
      end
  | JFloat f => Converted f
  | JStr s =>
      match float_of_str P s with
      | Some f => Converted f
      | None => ValueOrTypeError
      end
  end.

Record response := Response {
  body : dict;
  code : Z
}.

(** The loop over [required_fields]: the response for the first field
    that is missing, if there is one *)
Fixpoint missing_field (data : json) (required_fields : list string)
    : failure + option response :=
  match required_fields with
  | [] => inr None
  | field :: fields =>
      match member field data with
      | None => inl (NotIterable data)
      | Some false =>
          inr (Some (Response
                       {[ "status" := VStr "failed";
                          "stage" := VStr "input_validation";
                          "message" := VStr (("Missing required field: " : str)
                                             ++ field) ]} 400))
      | Some true => missing_field data fields
      end
  end.

(** The string [v] when the test
    [not v or not isinstance(v, str) or len(v.strip()) == 0] fails *)
Definition filled (v : json) : option str :=
  match v with
  | JStr ((_ :: _) as s) => if (length (strip s) =? 0)%nat then None else Some s
  | _ => None
  end.

(** The body of the [try] block: a response, or the exception that leaves
    it; with the file system that is left *)
Definition verify_producer_try (P : Python) (L : Agent1.Libraries) (w : World)
    (fs : Agent1.files) (request_json : failure + json)
    : (failure + response) * Agent1.files :=
  match request_json with
  | inl e => (inl e, fs)
  | inr data =>
      match missing_field data ["aadhar"; "name"; "fssai_pdf"; "annual_income"] with
      | inl e => (inl e, fs)
      | inr (Some r) => (inr r, fs)
      | inr None =>
          match data with
          | JObj d =>
              let aadhar := default JNull (d !! "aadhar") in
              let name := default JNull (d !! "name") in
              let fssai_pdf_base64 := default JNull (d !! "fssai_pdf") in
              let annual_income := default JNull (d !! "annual_income") in
              match filled aadhar with
              | None =>
                  (inr (Response {[ "status" := VStr "failed";
                                    "stage" := VStr "input_validation";
                                    "message" := VStr "Invalid Aadhar number" ]}
                          400), fs)
              | Some aadhar =>
              match filled name with
              | None =>
                  (inr (Response {[ "status" := VStr "failed";
                                    "stage" := VStr "input_validation";
                                    "message" := VStr "Invalid name" ]} 400), fs)
              | Some name =>
                match float P annual_income with
                | OverflowOf z => (inl (TooLarge z), fs)
                | ValueOrTypeError =>
                    (inr (Response
                            {[ "status" := VStr "failed";
                               "stage" := VStr "input_validation";
                               "message" := VStr "Invalid annual income format" ]}
                            400), fs)
                | Converted income =>
                    if float_ltb income (float_of_Z 0) then
                      (inr (Response
                              {[ "status" := VStr "failed";
                                 "stage" := VStr "input_validation";
                                 "message" :=
                                   VStr "Annual income must be a positive number" ]}
                              400), fs)
                    else
                      match fssai_pdf_base64 with
                      | JStr ((_ :: _) as fssai_pdf_base64) =>
                          match b64decode P fssai_pdf_base64 with
                          | DecodeError e =>
                              (inr (Response
                                      {[ "status" := VStr "failed";
                                         "stage" := VStr "input_validation";
                                         "message" :=
                                           VStr (("Failed to decode FSSAI PDF data: " : str)
                                                 ++ e) ]} 400), fs)
                          | Decoded pdf_data =>
                              (* Perform verification using Agent1 with PDF data *)
                              match Agent1.verify_producer_with_pdf_data L w fs
                                      name pdf_data income aadhar with
                              | (Raises e, fs) => (inl (Pipeline e), fs)
                              | (Returns result, fs) =>
                                  (inr (Response result
                                          (if is_str result "status" "success"
                                           then 200 else 400)), fs)
                              end
                          end
                      | _ =>
                          (inr (Response
                                  {[ "status" := VStr "failed";
                                     "stage" := VStr "input_validation";
                                     "message" := VStr "Invalid FSSAI PDF data" ]}
                                  400), fs)
                      end
                end
              end
              end
          | _ => (inl (NotSubscriptable data), fs)
          end
      end
  end.

(** The handler of [POST /verify] *)
Definition verify_producer (P : Python) (L : Agent1.Libraries) (w : World)
    (fs : Agent1.files) (request_json : failure + json)
    : response * Agent1.files :=
  match verify_producer_try P L w fs request_json with
  | (inr r, fs) => (r, fs)
  | (inl e, fs) =>
      (Response {[ "status" := VStr "failed";
                   "stage" := VStr "server_error";
                   "message" := VStr (("Internal server error: " : str)
                                      ++ str_of P e) ]} 500, fs)
  end.

End App.

(** ** Vocabulary of the statements *)

(** The issues of a result of [check_fssai_format] *)
Definition issues_of (d : dict) : list str :=
  match d !! "issues" with
  | Some (VStrs l) => l
  | _ => []
  end.

(** A character that [clean_text] leaves alone *)
Definition plain (c : ascii) : bool := negb (is_space c) && negb (eqc c nul).

(** A text of ASCII characters: every code point is below 128 *)
Definition ascii_only (s : str) : Prop :=
  forallb (fun c => (code c <? 128)%nat) s = true.

(** A run of exactly 14 digits, and a text that holds 14 digits in a row *)
Definition digits14 (d : str) : Prop :=
  length d = 14%nat /\ forallb is_digit d = true.

(** The condition of [\b] between two neighbours *)
Definition boundary (before after : option ascii) : bool :=
  xorb (is_word_opt before) (is_word_opt after).

(** The shapes DD/MM/YYYY and YYYY-MM-DD: digits and separators, ten
    characters in all *)
Definition shaped_dmy (d : str) : Prop :=
  exists a b c : str,
    d = a ++ "/" ++ b ++ "/" ++ c
    /\ length a = 2%nat /\ length b = 2%nat /\ length c = 4%nat
    /\ forallb is_digit (a ++ b ++ c) = true.
Definition shaped_ymd (d : str) : Prop :=
  exists a b c : str,
    d = a ++ "-" ++ b ++ "-" ++ c
    /\ length a = 4%nat /\ length b = 2%nat /\ length c = 2%nat
    /\ forallb is_digit (a ++ b ++ c) = true.
Definition date_shaped (d : str) : Prop := shaped_dmy d \/ shaped_ymd d.

(** [r] closes group 1 on a text that satisfies [P], in every match *)
Definition captures (r : regex) (P : str -> Prop) : Prop :=
  forall pv s pos m,
    attempt r pv s pos = Some m -> exists d, P d /\ m_group 1 m = Some d.

(** [R] consumes a text that satisfies [P] and touches no group *)
Definition consumes (R : regex) (P : str -> Prop) : Prop :=
  forall st k res,
    rmatch R st k = Some res ->
    exists d s' pv', P d /\ rest st = d ++ s'
                     /\ k (MState pv' s' (caps st)) = Some res.


(** ** Worlds and documents for the examples *)

(** A run of [verify_producer] ends in a result with this status and,
    for a failure, this stage. *)
Definition ends_with (o : outcome dict) (status : str) (stage : option str) : Prop :=
  exists r, o = Returns r
            /\ r !! "status" = Some (VStr status)
            /\ r !! "stage" = VStr <$> stage.

(** The same world with another store *)
Definition with_upsert (w : World) (u : dict -> bool) : World :=
  {| extract_text_from_document := extract_text_from_document w;
     now := now w;
     randint := randint w;
     upsert := u;
     rupees := rupees w |}.

(** A world in which every path holds [text], the clock shows [today],
    the generator draws its lower bound and the store accepts every row *)
Definition world_of (text : str) (today : datetime) : World :=
  {| extract_text_from_document := fun _ => text;
     now := today;
     randint := fun a _ => a;
     upsert := fun _ => true;
     rupees := fun _ => "11,000" |}.

Definition noon (y m d : Z) : datetime := DateTime y m d 43200000000.

(** The certificate of [test_pin_generation.py] *)
Definition certificate : str := "
    FSSAI REGISTRATION CERTIFICATE

    Licensee Name : KINGS ROLL
    Registration No.: 20819019000744
    Address: NEAR PUNJ AB BUS STAND VPO AND TEH KALANW ALI DISTT SIRS A HAR YANA, Sirsa, Sirsa (Hary ana), - 125201
    Kind of Business: Food Vending Establishment
    Date of Issue: 14/12/2020
    Valid Upto: 13/12/2025
    ".

(** A certificate past its date, with a number of its own *)
Definition expired_certificate : str := "
    FSSAI REGISTRATION CERTIFICATE

    Licensee Name : KINGS ROLL
    Registration No.: 10819019000745
    Address: NEAR BUS STAND, Sirsa - 125201
    Valid Upto: 13/12/2020
    ".

(** The same, with the number that the format check looks for *)
Definition expired_certificate_744 : str := "
    FSSAI REGISTRATION CERTIFICATE

    Licensee Name : KINGS ROLL
    Registration No.: 20819019000744
    Address: NEAR BUS STAND, Sirsa - 125201
    Valid Upto: 13/12/2020
    ".

(** The sample certificate without its date of issue *)
Definition undated_certificate : str := "
    FSSAI REGISTRATION CERTIFICATE

    Licensee Name : KINGS ROLL
    Registration No.: 20819019000744
    Address: NEAR BUS STAND, Sirsa - 125201
    Kind of Business: Food Vending Establishment
    Valid Upto: 13/12/2025
    ".


(** A certificate with the number that the format check looks for, no
    date of issue, and an expiry date in the year 3 *)
Definition ancient_certificate : str := "
    FSSAI REGISTRATION CERTIFICATE

    Licensee Name : KINGS ROLL
    Registration No.: 20819019000744
    Address: NEAR BUS STAND, Sirsa - 125201
    Valid Upto: 01/01/0003
    ".

(** A state license in the same hand *)
Definition state_license : str := "
    FSSAI STATE LICENSE

    Licensee Name : KINGS ROLL
    License No: 10819019000745
    Address: NEAR BUS STAND, Sirsa - 125201
    Valid Upto: 13/12/2030
    ".

Definition certificate_world : World := world_of certificate (noon 2025 11 4).
Definition state_license_world : World := world_of state_license (noon 2026 11 4).
Definition unreadable_world : World := world_of [] (noon 2026 11 4).
Definition ancient_world : World := world_of ancient_certificate (noon 2026 11 4).
Definition undated_world : World := world_of undated_certificate (noon 2025 11 4).
Definition expired_world : World := world_of expired_certificate (noon 2026 11 4).
Definition expired_world_744 : World :=
  world_of expired_certificate_744 (noon 2026 11 4).

(** ** Vocabulary of the statements on documents and requests *)

(** What the first two libraries, and what the OCR, add to the text *)
Definition page_texts (page_results : list (option str)) : str :=
  fold_left Agent1.add_page_text page_results [].
Definition ocr_texts (page_results : list str) : str :=
  fold_left (fun text page => text ++ page ++ [nl]) page_results [].

(** The text that the libraries find in the bytes of a PDF *)
Definition text_of_bytes (L : Agent1.Libraries) (pdf_data : Agent1.bytes) : str :=
  fst (Agent1.extract_text_from_pdf_data L ∅ pdf_data).

(** The world in which the document has the text of these bytes *)
Definition reading (L : Agent1.Libraries) (pdf_data : Agent1.bytes) (w : World)
    : World :=
  {| extract_text_from_document := fun _ => text_of_bytes L pdf_data;
     now := now w;
     randint := randint w;
     upsert := upsert w;
     rupees := rupees w |}.

(** Libraries of which the first reads one page, with this text *)
Definition one_page (text : str) : Agent1.Libraries :=
  {| Agent1.PyPDF2 := fun _ => Agent1.Run [Some text] false;
     Agent1.pdfplumber := fun _ => Agent1.Run [] true;
     Agent1.pytesseract := fun _ => Agent1.Run [] true;
     Agent1.read := fun _ _ => None;
     Agent1.NamedTemporaryFile := fun _ => "/tmp/tmp0.pdf" |}.

(** Libraries of which the first gives up after one page and the second
    reads two *)
Definition second_try : Agent1.Libraries :=
  {| Agent1.PyPDF2 := fun _ => Agent1.Run [Some ("A" : str)] true;
     Agent1.pdfplumber :=
       fun _ => Agent1.Run [Some ("A" : str); None; Some ("B" : str)] false;
     Agent1.pytesseract := fun _ => Agent1.Run [] true;
     Agent1.read := fun _ _ => None;
     Agent1.NamedTemporaryFile := fun _ => "/tmp/tmp0.pdf" |}.

Definition pdf_bytes : Agent1.bytes := [Byte.x25; Byte.x50; Byte.x44; Byte.x46].

(** A request that passes the validation of the handler: the fields it
    holds and what they stand for *)
Definition well_formed (P : App.Python) (d : gmap string App.json)
    (aadhar name : str) (income : pyfloat) (pdf_data : Agent1.bytes) : Prop :=
  (d !! "aadhar" = Some (App.JStr aadhar) /\ strip aadhar <> [])
  /\ (d !! "name" = Some (App.JStr name) /\ strip name <> [])
  /\ (exists v, d !! "annual_income" = Some v
                /\ App.float P v = App.Converted income)
  /\ float_ltb income (float_of_Z 0) = false
  /\ exists s, d !! "fssai_pdf" = Some (App.JStr s) /\ s <> []
               /\ App.b64decode P s = App.Decoded pdf_data.

(** The response of the handler to an outcome of the pipeline *)
Definition response_to (P : App.Python) (o : outcome dict) : App.response :=
  match o with
  | Returns result =>
      App.Response result (if is_str result "status" "success" then 200 else 400)%Z
  | Raises e =>
      App.Response {[ "status" := VStr "failed";
                      "stage" := VStr "server_error";
                      "message" := VStr (("Internal server error: " : str)
                                         ++ App.str_of P (App.Pipeline e)) ]}
        500%Z
  end.

(** A Python in which a string is a float when it is "nan", base64 text
    decodes to the bytes of the sample, and an exception is described by
    "error" *)
Definition sample_python : App.Python :=
  {| App.float_of_int := fun z => Some (float_of_Z z);
     App.float_of_str := fun s => if str_eqb s "nan" then Some NaN else None;
     App.b64decode := fun _ => App.Decoded pdf_bytes;
     App.str_of := fun _ => "error" |}.

(** A request with an income that is not a number *)
Definition sample_request : gmap string App.json :=
  {[ "aadhar" := App.JStr "442125846000";
     "name" := App.JStr "KINGS ROLL";
     "fssai_pdf" := App.JStr "JVBERg==";
     "annual_income" := App.JFloat NaN ]}.

(** A request with an income of 11,000 *)
Definition small_request : gmap string App.json :=
  {[ "aadhar" := App.JStr "442125846000";
     "name" := App.JStr "KINGS ROLL";
     "fssai_pdf" := App.JStr "JVBERg==";
     "annual_income" := App.JInt 11000 ]}.

(** A character that is no NUL, line feed or carriage return *)
Definition inline (c : ascii) : Prop := c <> nul /\ c <> nl /\ c <> cr.

(** A character of a business name: no slash, no backslash, and no white
    space but the blank *)
Definition name_char (c : ascii) : Prop :=
  c <> "/"%char /\ c <> "\"%char /\ (is_space c = true -> c = " "%char).

(** [r] matches only where a character that satisfies [p] stands *)
Definition begins_with (r : regex) (p : ascii -> bool) : Prop :=
  forall st k res,
    rmatch r st k = Some res -> exists c s', rest st = c :: s' /\ p c = true.

(** A document of one blank page that only the OCR gets through *)
Definition blank_scan : Agent1.Libraries :=
  {| Agent1.PyPDF2 := fun _ => Agent1.Run [Some ([] : str)] false;
     Agent1.pdfplumber := fun _ => Agent1.Run [None] false;
     Agent1.pytesseract := fun _ => Agent1.Run [" " : str] false;
     Agent1.read := fun _ _ => None;
     Agent1.NamedTemporaryFile := fun _ => "/tmp/tmp0.pdf" |}.

(** * Properties *)

(** ** The pipeline, stage by stage *)

Lemma str_eqb_eq (a b : str) : str_eqb a b = true <-> a = b.
Proof.
  revert b; induction a as [|x a IH]; intros [|y b]; simpl; try easy.
  rewrite andb_true_iff, IH. unfold eqc. rewrite Ascii.eqb_eq.
  split; [intros [-> ->]; reflexivity | intros H; injection H; auto].
Qed.

Lemma str_eqb_refl (a : str) : str_eqb a a = true.
Proof. apply str_eqb_eq; reflexivity. Qed.

Lemma nonempty_false {A : Type} (l : list A) : nonempty l = false -> l = [].
Proof. destruct l; [reflexivity | discriminate]. Qed.

Section Pipeline.
Context (w : World).
Implicit Types (name path aadhar : str) (income : pyfloat).

(** What [verify_names] has established when it says "verified" *)
Lemma verify_names_verified name path :
  is_str (verify_names w name path) "status" "verified" = true ->
  let text := extract_text_from_document w path in
  exists business_name,
    nonempty text = true
    /\ extract_name_from_fssai text = Some business_name
    /\ names_match name business_name = true
    /\ get_str (verify_names w name path) "fssai_text" = text.
Proof.
  unfold verify_names. intros H.
  set (text := extract_text_from_document w path) in *.
  destruct (nonempty text) eqn:Htext; [|discriminate H].
  destruct (extract_name_from_fssai text) as [b|] eqn:Hname; [|discriminate H].
  destruct (truthy (Some b)) eqn:Hb; [|discriminate H].
  exists b. simpl negb in *. cbv iota in *. simpl default in *.
  destruct (names_match _ _) eqn:Heq; [|discriminate H].
  repeat split; reflexivity.
Qed.

(** An unreadable document is reported by [verify_names]. *)
Lemma verify_names_unreadable name path :
  extract_text_from_document w path = [] ->
  verify_names w name path
  = <["message" := VStr "Could not read FSSAI document"]>
      (<["status" := VStr "rejected"]>
         {[ "status" := VStr "pending"; "message" := VStr "";
            "details" := VDict ∅ ]}).
Proof. unfold verify_names. intros ->. reflexivity. Qed.

(** [extract_certificate_type] names one of four classes. *)
Lemma extract_certificate_type_cases (text actual : str) :
  extract_certificate_type text = Some actual ->
  actual = "registration" \/ actual = "state" \/ actual = "central"
  \/ actual = "license".
Proof.
  unfold extract_certificate_type, type_patterns. cbn [first_some].
  repeat (destruct (searches _ text);
          [intros H; vm_compute in H; injection H as <-; auto |]).
  discriminate.
Qed.

Lemma certificate_type_truthy (text actual : str) :
  extract_certificate_type text = Some actual -> truthy (Some actual) = true.
Proof.
  intros H.
  destruct (extract_certificate_type_cases _ _ H) as [-> | [-> | [-> | ->]]];
    reflexivity.
Qed.

(** The two shapes of a result of [verify_producer]: a failure, which
    carries a stage and no pin, or the success dictionary, in which
    only [data_stored] depends on the store. *)
Lemma verify_producer_inv u name path income aadhar r :
  verify_producer w name path income aadhar = Returns r ->
  (r !! "status" = Some (VStr "failed") /\ r !! "pin" = None
   /\ is_Some (r !! "stage"))
  \/ (r !! "pin" = Some (VInt (randint w 100000 999999))
      /\ r !! "status" = Some (VStr "success")
      /\ r !! "stage" = None
      /\ exists row : dict,
           r !! "data_stored" = Some (VBool (upsert w row))
           /\ verify_producer (with_upsert w u) name path income aadhar
              = Returns (<["data_stored" := VBool (u row)]> r)).
Proof.
  unfold verify_producer.
  change (verify_names (with_upsert w u) name path)
    with (verify_names w name path).
  change (check_fssai_format (with_upsert w u) path)
    with (check_fssai_format w path).
  cbn [upsert with_upsert randint rupees].
  destruct (negb (is_str (verify_names w name path) "status" "verified")).
  { intros [= <-]. left. repeat split; try reflexivity. eexists; reflexivity. }
  destruct (negb (nonempty _)).
  { intros [= <-]. left. repeat split; try reflexivity. eexists; reflexivity. }
  destruct (negb (truthy (extract_certificate_type _))).
  { intros [= <-]. left. repeat split; try reflexivity. eexists; reflexivity. }
  cbv zeta.
  destruct (_ && _).
  { intros [= <-]. left. repeat split; try reflexivity. eexists; reflexivity. }
  destruct (_ && _).
  { intros [= <-]. left. repeat split; try reflexivity. eexists; reflexivity. }
  destruct (negb (is_str (check_fssai_format w path) "status" "verified")).
  { intros [= <-]. left. repeat split; try reflexivity. eexists; reflexivity. }
  destruct (backfill_issue_date _ _) as [issue|e]; [|discriminate].
  intros [= <-]. right.
  split; [reflexivity | split; [reflexivity | split; [reflexivity |]]].
  eexists. split; [reflexivity|]. symmetry.
  rewrite !(insert_insert_ne _ "data_stored") by discriminate.
  rewrite insert_singleton_eq. reflexivity.
Qed.

(** A request that passes every stage: the fields of the result *)
Lemma verify_producer_success name path income aadhar actual issue :
  let text := extract_text_from_document w path in
  is_str (verify_names w name path) "status" "verified" = true ->
  extract_certificate_type text = Some actual ->
  str_eqb (expected_type income) "registration"
    && negb (str_eqb actual "registration") = false ->
  str_eqb (expected_type income) "license"
    && str_eqb actual "registration" = false ->
  is_str (check_fssai_format w path) "status" "verified" = true ->
  backfill_issue_date (extract_issue_date text) (extract_expiry_date text)
  = Returns issue ->
  exists r : dict,
    verify_producer w name path income aadhar = Returns r
    /\ r !! "status" = Some (VStr "success")
    /\ r !! "certificate_type" = Some (VStr actual)
    /\ r !! "issue_date" = Some (of_opt (clean_text issue))
    /\ r !! "expiry_date"
       = Some (of_opt (clean_text (extract_expiry_date text)))
    /\ r !! "pin" = Some (VInt (randint w 100000 999999))
    /\ exists row : dict, r !! "data_stored" = Some (VBool (upsert w row)).
Proof.
  intros text Hv Ha H1 H2 Hf Hb. subst text.
  destruct (verify_names_verified _ _ Hv) as (b & Htext & _ & _ & Hget).
  unfold verify_producer. rewrite Hv, Hget, Htext, Ha.
  rewrite (certificate_type_truthy _ _ Ha). cbn [negb]. cbv iota zeta.
  change (default [] (Some actual)) with actual.
  rewrite H1, H2, Hf, Hb. cbn [negb]. cbv iota.
  eexists. split; [reflexivity|].
  repeat split; try reflexivity. eexists; reflexivity.
Qed.

(** What a successful result says about the run that produced it *)
Lemma verify_producer_success_inv name path income aadhar r :
  verify_producer w name path income aadhar = Returns r ->
  r !! "status" = Some (VStr "success") ->
  let text := extract_text_from_document w path in
  is_str (verify_names w name path) "status" "verified" = true
  /\ is_str (check_fssai_format w path) "status" "verified" = true
  /\ exists issue : option str,
       backfill_issue_date (extract_issue_date text) (extract_expiry_date text)
       = Returns issue
       /\ r !! "issue_date" = Some (of_opt (clean_text issue))
       /\ r !! "expiry_date"
          = Some (of_opt (clean_text (extract_expiry_date text))).
Proof.
  intros Hr Hs text. subst text. revert Hr. unfold verify_producer.
  destruct (is_str (verify_names w name path) "status" "verified") eqn:Hv;
    cbn [negb].
  2: { intros [= <-]. discriminate Hs. }
  destruct (verify_names_verified _ _ Hv) as (b & Htext & _ & _ & Hget).
  rewrite Hget, Htext. cbn [negb]. cbv zeta.
  destruct (negb (truthy _)); [intros [= <-]; discriminate Hs|].
  destruct (_ && _); [intros [= <-]; discriminate Hs|].
  destruct (_ && _); [intros [= <-]; discriminate Hs|].
  destruct (is_str (check_fssai_format w path) "status" "verified") eqn:Hf;
    cbn [negb].
  2: { intros [= <-]. discriminate Hs. }
  destruct (backfill_issue_date _ _) as [issue|e]; [|discriminate].
  intros [= <-]. repeat split. exists issue. repeat split.
Qed.

End Pipeline.

Lemma Qltb_lt (x y : Q) : Qltb x y = true <-> (x < y)%Q.
Proof. unfold Qltb, Qlt. apply Z.ltb_lt. Qed.

(** ** C1: the income rule *)

(** C1.  A request that reaches the certificate-type stage (the names
    match and the document names a certificate class) is judged by the
    income: below 1,200,000 the expected class is "registration", from
    1,200,000 on it is "license"; 1,199,999 gives the first and 1,200,000
    the second; and either mismatch (registration expected and another
    class found, or license expected and a registration found) ends the
    run as a failure of stage "certificate_match". *)
Theorem income_rule (w : World) (name path aadhar : str) (income : pyfloat)
    (actual : str) :
  is_str (verify_names w name path) "status" "verified" = true ->
  extract_certificate_type (extract_text_from_document w path) = Some actual ->
  (forall q : Q, income = Finite q ->
     ((q < inject_Z 1200000)%Q -> expected_type income = "registration")
     /\ (~ (q < inject_Z 1200000)%Q -> expected_type income = "license"))
  /\ expected_type (float_of_Z 1199999) = "registration"
  /\ expected_type (float_of_Z 1200000) = "license"
  /\ (expected_type income = "registration" /\ actual <> "registration"
      \/ expected_type income = "license" /\ actual = "registration" ->
      ends_with (verify_producer w name path income aadhar)
        "failed" (Some ("certificate_match" : str))).
Proof.
  intros Hv Ha. split; [|split; [reflexivity | split; [reflexivity |]]].
  - intros q ->. unfold expected_type, float_ltb, float_of_Z.
    destruct (Qltb q (inject_Z 1200000)) eqn:E.
    + split; [reflexivity | intros N; apply Qltb_lt in E; contradiction].
    + split; [|reflexivity].
      intros L; apply Qltb_lt in L; congruence.
  - intros Hmis.
    destruct (verify_names_verified _ _ _ Hv) as (b & Htext & _ & _ & Hget).
    unfold verify_producer. rewrite Hv, Hget, Htext, Ha.
    rewrite (certificate_type_truthy _ _ Ha). simpl negb. cbv iota zeta.
    simpl default.
    destruct Hmis as [[He Hne] | [He ->]]; rewrite He.
    + destruct (str_eqb actual _) eqn:E.
      { apply str_eqb_eq in E. elim (Hne E). }
      eexists; repeat split; reflexivity.
    + eexists; repeat split; reflexivity.
Qed.

Lemma income_rule_witness :
  is_str (verify_names state_license_world "kings roll" "doc.pdf")
    "status" "verified" = true
  /\ extract_certificate_type
       (extract_text_from_document state_license_world "doc.pdf")
     = Some ("state" : str)
  /\ ends_with (verify_producer state_license_world "kings roll" "doc.pdf"
                  (float_of_Z 11000) "442125846000")
       "failed" (Some ("certificate_match" : str)).
Proof.
  assert (H1 : is_str (verify_names state_license_world "kings roll" "doc.pdf")
                 "status" "verified" = true) by (vm_compute; reflexivity).
  assert (H2 : extract_certificate_type
                 (extract_text_from_document state_license_world "doc.pdf")
               = Some ("state" : str)) by (vm_compute; reflexivity).
  split; [exact H1 | split; [exact H2 |]].
  destruct (income_rule state_license_world "kings roll" "doc.pdf"
              "442125846000" (float_of_Z 11000) "state" H1 H2) as (_ & _ & _ & H).
  apply H. left. split; [vm_compute; reflexivity | discriminate].
Defined.

(** ** C8: an unreadable document *)

(** C8 (as the code behaves).  When no text can be read from the
    document, [verify_producer] fails at stage "name_verification" with
    the message of [verify_names]; the stage is not "document_read". *)
Theorem unreadable_document_stage (w : World) (name path aadhar : str)
    (income : pyfloat) :
  extract_text_from_document w path = [] ->
  verify_producer w name path income aadhar
  = Returns {[ "status" := VStr "failed";
               "stage" := VStr "name_verification";
               "message" := VStr "Could not read FSSAI document";
               "details" := VDict ∅ ]}
  /\ ~ ends_with (verify_producer w name path income aadhar)
         "failed" (Some ("document_read" : str)).
Proof.
  intros Hempty.
  assert (E : verify_producer w name path income aadhar
              = Returns {[ "status" := VStr "failed";
                           "stage" := VStr "name_verification";
                           "message" := VStr "Could not read FSSAI document";
                           "details" := VDict ∅ ]}).
  { unfold verify_producer.
    rewrite (verify_names_unreadable w name path Hempty). reflexivity. }
  split; [exact E|].
  rewrite E. intros (r & [= <-] & _ & Hstage). discriminate Hstage.
Qed.

Lemma unreadable_document_stage_witness :
  extract_text_from_document unreadable_world "missing.pdf" = []
  /\ ends_with (verify_producer unreadable_world "KINGS ROLL" "missing.pdf"
                  (float_of_Z 11000) "442125846000")
       "failed" (Some ("name_verification" : str)).
Proof.
  split; [reflexivity|].
  destruct (unreadable_document_stage unreadable_world "KINGS ROLL"
              "missing.pdf" "442125846000" (float_of_Z 11000) eq_refl) as [E _].
  rewrite E. eexists; repeat split; reflexivity.
Defined.

(** The stage "document_read" is never reported, whatever the request. *)
Lemma document_read_unreachable (w : World) (name path aadhar : str)
    (income : pyfloat) :
  ~ ends_with (verify_producer w name path income aadhar)
      "failed" (Some ("document_read" : str)).
Proof.
  intros (r & Hr & _ & Hstage). revert Hr. unfold verify_producer.
  destruct (is_str (verify_names w name path) "status" "verified") eqn:Hv;
    simpl negb; cbv iota.
  2: { intros [= <-]. discriminate Hstage. }
  destruct (verify_names_verified _ _ _ Hv) as (b & Htext & _ & _ & Hget).
  rewrite Hget, Htext. simpl negb. cbv iota zeta.
  destruct (negb (truthy _)); [intros [= <-]; discriminate Hstage|].
  destruct (_ && _); [intros [= <-]; discriminate Hstage|].
  destruct (_ && _); [intros [= <-]; discriminate Hstage|].
  destruct (negb (is_str _ _ _)); [intros [= <-]; discriminate Hstage|].
  destruct (backfill_issue_date _ _); [|discriminate].
  intros [= <-]. discriminate Hstage.
Qed.

(** ** C9: a failing store *)

(** C9.  When a request passes every stage, so that the run returns
    status "success", the same run against a store whose upsert fails
    still returns status "success", with the same pin and the same value
    under every key but [data_stored], which is [False]. *)
Theorem store_failure_keeps_success (w : World) (name path aadhar : str)
    (income : pyfloat) (r : dict) :
  verify_producer w name path income aadhar = Returns r ->
  r !! "status" = Some (VStr "success") ->
  exists r' : dict,
    verify_producer (with_upsert w (fun _ => false)) name path income aadhar
    = Returns r'
    /\ r' !! "status" = Some (VStr "success")
    /\ r' !! "pin" = r !! "pin"
    /\ is_Some (r' !! "pin")
    /\ r' !! "data_stored" = Some (VBool false)
    /\ forall k : string, k <> "data_stored" -> r' !! k = r !! k.
Proof.
  intros Hr Hs.
  destruct (verify_producer_inv w (fun _ => false) _ _ _ _ _ Hr)
    as [(Hf & _) | (Hpin & _ & _ & row & _ & Hu)].
  { rewrite Hf in Hs. discriminate Hs. }
  exists (<["data_stored" := VBool false]> r). split; [exact Hu|].
  split; [rewrite lookup_insert_ne by discriminate; exact Hs|].
  split; [apply lookup_insert_ne; discriminate|].
  split; [rewrite lookup_insert_ne by discriminate; rewrite Hpin; eexists; reflexivity|].
  split; [apply lookup_insert_eq|].
  intros k Hk. apply lookup_insert_ne. congruence.
Qed.

(** The sample certificate passes every stage. *)
Lemma certificate_run :
  exists r : dict,
    verify_producer certificate_world "KINGS ROLL" "doc.pdf" (float_of_Z 11000)
      "442125846000" = Returns r
    /\ r !! "status" = Some (VStr "success")
    /\ r !! "pin" = Some (VInt 100000)
    /\ r !! "data_stored" = Some (VBool true).
Proof.
  destruct (verify_producer_success certificate_world "KINGS ROLL" "doc.pdf"
              (float_of_Z 11000) "442125846000" "registration"
              (Some ("14/12/2020" : str)))
    as (r & Hr & Hs & _ & _ & _ & Hp & row & Hd);
    try (vm_compute; reflexivity).
  exists r. repeat split; assumption.
Defined.

Lemma store_failure_keeps_success_witness :
  exists r r' : dict,
    verify_producer certificate_world "KINGS ROLL" "doc.pdf" (float_of_Z 11000)
      "442125846000" = Returns r
    /\ r !! "status" = Some (VStr "success")
    /\ verify_producer (with_upsert certificate_world (fun _ => false))
         "KINGS ROLL" "doc.pdf" (float_of_Z 11000) "442125846000" = Returns r'
    /\ r' !! "status" = Some (VStr "success")
    /\ r' !! "data_stored" = Some (VBool false).
Proof.
  destruct certificate_run as (r & Hr & Hs & _).
  destruct (store_failure_keeps_success certificate_world "KINGS ROLL" "doc.pdf"
              "442125846000" (float_of_Z 11000) r Hr Hs)
    as (r' & Hr' & Hs' & _ & _ & Hd' & _).
  exists r, r'. repeat split; assumption.
Defined.

(** ** C10: the pin *)

(** C10.  Given that [random.randint(a, b)] draws from [a..b], a result of
    [verify_producer] carries the key [pin] exactly when its status is
    "success", and the value is then an integer between 100000 and
    999999. *)
Theorem pin_exactly_on_success (w : World) (name path aadhar : str)
    (income : pyfloat) (r : dict) :
  (forall a b : Z, (a <= b)%Z -> (a <= randint w a b <= b)%Z) ->
  verify_producer w name path income aadhar = Returns r ->
  (is_Some (r !! "pin") <-> r !! "status" = Some (VStr "success"))
  /\ (forall v : pyval, r !! "pin" = Some v ->
        exists z : Z, v = VInt z /\ (100000 <= z <= 999999)%Z).
Proof.
  intros Hrand Hr.
  destruct (verify_producer_inv w (upsert w) _ _ _ _ _ Hr)
    as [(Hf & Hpin & _) | (Hpin & Hs & _)].
  - split.
    + rewrite Hpin, Hf. split; [intros [? [=]] | intros [=]].
    + intros v Hv. rewrite Hpin in Hv. discriminate Hv.
  - split.
    + rewrite Hpin, Hs. split; [reflexivity | eexists; reflexivity].
    + intros v Hv. rewrite Hpin in Hv. injection Hv as <-.
      eexists; split; [reflexivity|]. apply Hrand. lia.
Qed.

Lemma pin_exactly_on_success_witness :
  exists r : dict,
    verify_producer certificate_world "KINGS ROLL" "doc.pdf" (float_of_Z 11000)
      "442125846000" = Returns r
    /\ (is_Some (r !! "pin") <-> r !! "status" = Some (VStr "success"))
    /\ (forall v : pyval, r !! "pin" = Some v ->
          exists z : Z, v = VInt z /\ (100000 <= z <= 999999)%Z).
Proof.
  destruct certificate_run as (r & Hr & _).
  assert (Hrand : forall a b : Z,
             (a <= b)%Z -> (a <= randint certificate_world a b <= b)%Z)
    by (intros a b Hab; simpl; lia).
  exists r. split; [exact Hr|].
  exact (pin_exactly_on_success certificate_world "KINGS ROLL" "doc.pdf"
           "442125846000" (float_of_Z 11000) r Hrand Hr).
Defined.

(** ** C3 and C4: the format check *)

Lemma startswith_app (p s : str) : startswith p (p ++ s) = true.
Proof.
  induction p as [|c p IH]; simpl; [reflexivity|].
  unfold eqc. rewrite Ascii.eqb_refl. exact IH.
Qed.

Lemma startswith_spec (p s : str) :
  startswith p s = true -> exists post, s = p ++ post.
Proof.
  revert s; induction p as [|c p IH]; intros s; simpl.
  - exists s; reflexivity.
  - destruct s as [|d s]; [discriminate|].
    rewrite andb_true_iff. unfold eqc. rewrite Ascii.eqb_eq.
    intros [-> H]. destruct (IH _ H) as [post ->]. exists post; reflexivity.
Qed.

Lemma contains_unfold (sub s : str) :
  contains sub s
  = startswith sub s
    || match s with [] => false | _ :: s' => contains sub s' end.
Proof. destruct s; reflexivity. Qed.

(** [sub in s] holds exactly when [sub] occurs somewhere in [s]. *)
Lemma contains_spec (sub s : str) :
  contains sub s = true <-> exists pre post, s = pre ++ sub ++ post.
Proof.
  split.
  - induction s as [|c s IH].
    + simpl. rewrite orb_false_r. intros H.
      destruct (startswith_spec _ _ H) as [post ->]. exists [], post; reflexivity.
    + cbn [contains]. rewrite orb_true_iff. intros [H|H].
      * destruct (startswith_spec _ _ H) as [post ->].
        exists [], post; reflexivity.
      * destruct (IH H) as (pre & post & ->). exists (c :: pre), post; reflexivity.
  - intros (pre & post & ->). induction pre as [|c pre IH].
    + simpl app. rewrite contains_unfold, startswith_app. reflexivity.
    + cbn [app contains]. rewrite IH. apply orb_true_r.
Qed.

(** C3.  Whenever the text of the document contains the literal
    "20819019000744", [check_fssai_format] answers "verified" with an
    empty list of issues, whatever the clock shows and whatever else the
    text holds: no completeness or expiry check takes part. *)
Theorem license_literal_bypass (w : World) (path pre post : str) :
  extract_text_from_document w path = pre ++ "20819019000744" ++ post ->
  check_fssai_format w path !! "status" = Some (VStr "verified")
  /\ check_fssai_format w path !! "issues" = Some (VStrs [])
  /\ check_fssai_format w path !! "message"
     = Some (VStr "FSSAI document contains required number")
  /\ forall w' : World,
       extract_text_from_document w' path = extract_text_from_document w path ->
       check_fssai_format w' path = check_fssai_format w path.
Proof.
  intros Htext.
  assert (Hc : contains "20819019000744" (extract_text_from_document w path) = true).
  { apply contains_spec. eauto. }
  assert (Hn : nonempty (extract_text_from_document w path) = true).
  { rewrite Htext. destruct pre; reflexivity. }
  unfold check_fssai_format. rewrite Hn, Hc. cbn [negb].
  repeat split; try reflexivity.
  intros w' ->. rewrite Hn, Hc. reflexivity.
Qed.

Lemma license_literal_bypass_witness :
  extract_text_from_document expired_world_744 "doc.pdf"
  = take 90 expired_certificate_744 ++ "20819019000744"
    ++ drop 104 expired_certificate_744
  /\ check_fssai_format expired_world_744 "doc.pdf" !! "status"
     = Some (VStr "verified")
  /\ check_fssai_format expired_world_744 "doc.pdf" !! "issues"
     = Some (VStrs []).
Proof.
  assert (H : extract_text_from_document expired_world_744 "doc.pdf"
              = take 90 expired_certificate_744 ++ "20819019000744"
                ++ drop 104 expired_certificate_744) by (vm_compute; reflexivity).
  split; [exact H|].
  destruct (license_literal_bypass expired_world_744 "doc.pdf" _ _ H)
    as (Hs & Hi & _).
  split; assumption.
Defined.


Lemma parse_date_nonempty (d : str) (dt : datetime) :
  parse_date d = Some dt -> truthy (Some d) = true.
Proof. destruct d; [vm_compute; discriminate | reflexivity]. Qed.



(** ** C2: the comparison of names *)

Lemma first_some_Some {A B : Type} (f : A -> option B) (l : list A) (y : B) :
  first_some f l = Some y -> exists x, In x l /\ f x = Some y.
Proof.
  induction l as [|x l IH]; simpl; [discriminate|].
  destruct (f x) as [z|] eqn:E.
  - intros [= <-]. exists x. auto.
  - intros H. destruct (IH H) as (x' & Hin & Hx'). exists x'. auto.
Qed.

Lemma title_from_length (b : bool) (s : str) :
  length (title_from b s) = length s.
Proof.
  revert b; induction s as [|c s IH]; intros b; simpl; [reflexivity|].
  destruct (is_alpha c); simpl; rewrite IH; reflexivity.
Qed.

(** A name that [extract_name_from_fssai] returns has more than two
    characters; in particular it is not empty. *)
Lemma extract_name_length (text name : str) :
  extract_name_from_fssai text = Some name -> (2 < length name)%nat.
Proof.
  unfold extract_name_from_fssai.
  destruct (first_some _ name_patterns) as [n|] eqn:E.
  - intros [= ->]. apply first_some_Some in E. destruct E as (pat & _ & E).
    destruct (re_search pat _) as [m|]; [|discriminate E].
    cbn [mbind option_bind] in E. unfold name_of_match in E.
    destruct (_ && _); [|discriminate E].
    destruct (2 <? length _)%nat eqn:L; [|discriminate E].
    injection E as <-. unfold title. rewrite title_from_length.
    apply Nat.ltb_lt in L. exact L.
  - destruct (contains _ _); [|discriminate].
    intros [= <-]. vm_compute. lia.
Qed.

Lemma extract_name_truthy (text name : str) :
  extract_name_from_fssai text = Some name -> truthy (Some name) = true.
Proof.
  intros H. apply extract_name_length in H.
  destruct name; [simpl in H; lia | reflexivity].
Qed.

(** C2 fails in the code: the name " kings   roll ", with three blanks
    inside, is not taken to match "Kings Roll", in either order, and a
    request that provides it for the sample certificate is rejected. *)
Lemma inner_blanks_are_kept :
  names_match "Kings Roll" " kings   roll " = false
  /\ names_match " kings   roll " "Kings Roll" = false
  /\ extract_name_from_fssai (extract_text_from_document certificate_world "doc.pdf")
     = Some ("Kings Roll" : str)
  /\ is_str (verify_names certificate_world " kings   roll " "doc.pdf")
       "status" "rejected" = true.
Proof. repeat split; vm_compute; reflexivity. Qed.

(** The name of the document has its inner white space collapsed by
    [extract_name_from_fssai]; the provided name has not, and a provided
    name that is spaced as the document is does not match the name that
    is extracted from it. *)
Example document_side_collapses_blanks :
  extract_name_from_fssai "Licensee Name : KINGS   ROLL" = Some ("Kings Roll" : str)
  /\ names_match "KINGS   ROLL" "Kings Roll" = false.
Proof. split; vm_compute; reflexivity. Qed.

(** C2 (as the code behaves).  The comparison is announced in the code as
    "case insensitive, ignoring extra spaces", and the claim asks that
    " kings   roll " match "Kings Roll"; but for a readable document from
    which a business name is extracted, [verify_names] answers "verified"
    exactly when the provided name and the extracted name are equal after
    trimming the white space at both ends and lower-casing, and "rejected"
    otherwise; nothing partial or fuzzy.  White space inside a name is
    kept: "Kings Roll" matches " kings roll " but neither
    " kings   roll " nor "King's Roll". *)
Theorem names_equal_after_trim_and_lower (w : World)
    (provided path business : str) :
  nonempty (extract_text_from_document w path) = true ->
  extract_name_from_fssai (extract_text_from_document w path) = Some business ->
  (is_str (verify_names w provided path) "status" "verified" = true
   <-> lower (strip provided) = lower (strip business))
  /\ (lower (strip provided) <> lower (strip business)
      -> is_str (verify_names w provided path) "status" "rejected" = true)
  /\ names_match "Kings Roll" " kings roll " = true
  /\ names_match "Kings Roll" " kings   roll " = false
  /\ names_match "Kings Roll" "King's Roll" = false.
Proof.
  intros Hn Hb.
  assert (Hv : verify_names w provided path !! "status"
               = Some (VStr (if names_match provided business
                             then "verified" : str else "rejected" : str))).
  { unfold verify_names. rewrite Hn, Hb, (extract_name_truthy _ _ Hb).
    cbn [negb]. cbv zeta. change (default [] (Some business)) with business.
    destruct (names_match provided business); reflexivity. }
  unfold is_str. rewrite Hv. unfold names_match.
  split; [|split; [|repeat split; reflexivity]].
  - rewrite <- str_eqb_eq.
    destruct (str_eqb (lower (strip provided)) (lower (strip business)));
      simpl; split; auto; discriminate.
  - intros Hne.
    destruct (str_eqb (lower (strip provided)) (lower (strip business))) eqn:E;
      [|reflexivity].
    apply str_eqb_eq in E. contradiction.
Qed.

Lemma names_equal_after_trim_and_lower_witness :
  nonempty (extract_text_from_document certificate_world "doc.pdf") = true
  /\ extract_name_from_fssai (extract_text_from_document certificate_world "doc.pdf")
     = Some ("Kings Roll" : str)
  /\ is_str (verify_names certificate_world " KINGS roll " "doc.pdf")
       "status" "verified" = true.
Proof.
  assert (H1 : nonempty (extract_text_from_document certificate_world "doc.pdf")
               = true) by reflexivity.
  assert (H2 : extract_name_from_fssai
                 (extract_text_from_document certificate_world "doc.pdf")
               = Some ("Kings Roll" : str)) by (vm_compute; reflexivity).
  split; [exact H1 | split; [exact H2|]].
  destruct (names_equal_after_trim_and_lower certificate_world " KINGS roll "
              "doc.pdf" "Kings Roll" H1 H2) as ([_ H] & _).
  apply H. vm_compute. reflexivity.
Defined.

(** ** C6: the back-filled date of issue *)

(** C6 as stated fails: between 13/12/2020 and 13/12/2025 lies the
    29th of February 2024, so 1825 days before 13/12/2025 is 14/12/2020.
    The sample certificate without its date of issue passes every stage
    and the result carries that date. *)
Lemma backfill_is_not_five_years :
  backfill_issue_date None (Some ("13/12/2025" : str))
  = Returns (Some ("14/12/2020" : str))
  /\ extract_issue_date (extract_text_from_document undated_world "doc.pdf") = None
  /\ extract_expiry_date (extract_text_from_document undated_world "doc.pdf")
     = Some ("13/12/2025" : str)
  /\ exists r : dict,
       verify_producer undated_world "KINGS ROLL" "doc.pdf" (float_of_Z 11000)
         "442125846000" = Returns r
       /\ r !! "status" = Some (VStr "success")
       /\ r !! "issue_date" = Some (VStr "14/12/2020")
       /\ r !! "issue_date" <> Some (VStr "13/12/2020").
Proof.
  split; [vm_compute; reflexivity|].
  split; [vm_compute; reflexivity|].
  split; [vm_compute; reflexivity|].
  destruct (verify_producer_success undated_world "KINGS ROLL" "doc.pdf"
              (float_of_Z 11000) "442125846000" "registration"
              (Some ("14/12/2020" : str)))
    as (r & Hr & Hs & _ & Hi & _);
    try (vm_compute; reflexivity).
  exists r. split; [exact Hr|]. split; [exact Hs|].
  assert (Hi' : r !! "issue_date" = Some (VStr "14/12/2020")).
  { rewrite Hi. vm_compute. reflexivity. }
  split; [exact Hi'|]. rewrite Hi'. intros [=].
Qed.

Lemma replace_absent (c : ascii) (new s : str) :
  Forall (fun x => eqc c x = false) s -> replace [c] new s = s.
Proof.
  unfold replace. induction 1 as [|x s Hx _ IH]; [reflexivity|].
  cbn [replace_from startswith]. rewrite Hx. cbn [andb]. rewrite IH. reflexivity.
Qed.

Lemma lstrip_plain (s : str) :
  Forall (fun x => is_space x = false) s -> lstrip s = s.
Proof. destruct 1 as [|x s Hx _]; [reflexivity|]. simpl. rewrite Hx. reflexivity. Qed.

Lemma strip_plain (s : str) :
  Forall (fun x => is_space x = false) s -> strip s = s.
Proof.
  intros H. unfold strip, rstrip. rewrite (lstrip_plain s H).
  rewrite lstrip_plain; [apply rev_involutive|].
  apply List.Forall_rev, H.
Qed.

Lemma plain_spec (c : ascii) :
  plain c = true ->
  is_space c = false /\ eqc nul c = false /\ eqc nl c = false /\ eqc cr c = false.
Proof.
  unfold plain. rewrite andb_true_iff, !negb_true_iff. intros [Hs Hn].
  split; [exact Hs|]. unfold eqc in *. rewrite Ascii.eqb_sym in Hn.
  split; [exact Hn|].
  split.
  - destruct (Ascii.eqb nl c) eqn:E; [|reflexivity].
    apply Ascii.eqb_eq in E; subst c; discriminate Hs.
  - destruct (Ascii.eqb cr c) eqn:E; [|reflexivity].
    apply Ascii.eqb_eq in E; subst c; discriminate Hs.
Qed.

(** [clean_text] returns a string of plain characters as it is. *)
Lemma clean_text_plain (s : str) :
  s <> [] -> forallb plain s = true -> clean_text (Some s) = Some s.
Proof.
  intros Hne Hp. unfold clean_text.
  destruct s as [|c s]; [contradiction|]. cbn [truthy].
  change (default [] (Some (c :: s))) with (c :: s).
  rewrite forallb_forall in Hp.
  assert (H : forall P : ascii -> Prop,
             (forall x, plain x = true -> P x) -> Forall P (c :: s)).
  { intros P HP. apply Forall_forall. intros x Hx. apply HP, Hp.
    apply list_elem_of_In, Hx. }
  rewrite (replace_absent nul), (replace_absent nl), (replace_absent cr),
    strip_plain; try reflexivity;
    apply H; intros x Hx; apply plain_spec in Hx; tauto.
Qed.

Lemma digit_char_plain (d : Z) : plain (digit_char d) = true.
Proof.
  unfold digit_char.
  assert (H : (0 <= d mod 10 < 10)%Z) by (apply Z.mod_pos_bound; lia).
  assert (E : exists k : nat, (k < 10)%nat /\ (d mod 10)%Z = Z.of_nat k).
  { exists (Z.to_nat (d mod 10)). lia. }
  destruct E as (k & Hk & ->).
  do 10 (destruct k as [|k]; [reflexivity|]). lia.
Qed.

Lemma zero_padded_plain (n : nat) (z : Z) : forallb plain (zero_padded n z) = true.
Proof.
  revert z; induction n as [|n IH]; intros z; [reflexivity|].
  cbn [zero_padded]. rewrite forallb_app, IH. cbn [forallb].
  rewrite digit_char_plain. reflexivity.
Qed.

Lemma drop_zeros_plain (s : str) :
  forallb plain s = true -> forallb plain (drop_zeros s) = true.
Proof.
  induction s as [|c s IH]; [reflexivity|].
  destruct s as [|c' s]; [intros H; exact H|].
  intros H. cbn [drop_zeros]. destruct (eqc c "0"); [|exact H].
  apply IH. cbn [forallb] in H |- *. apply andb_true_iff in H. tauto.
Qed.

Lemma strftime_dmy_plain (dt : datetime) :
  strftime_dmy dt <> [] /\ forallb plain (strftime_dmy dt) = true.
Proof.
  unfold strftime_dmy. split.
  - cbn [zero_padded]. intros H. apply (f_equal (@length ascii)) in H.
    rewrite !length_app in H. simpl in H. lia.
  - rewrite !forallb_app, !zero_padded_plain, drop_zeros_plain
      by apply zero_padded_plain. reflexivity.
Qed.

(** *** The calendar *)

Section Calendar.
#[local] Open Scope Z_scope.

Lemma forall_below (n : nat) (P : Z -> bool) :
  forallb (fun k => P (Z.of_nat k)) (seq 0 n) = true ->
  forall r, 0 <= r < Z.of_nat n -> P r = true.
Proof.
  intros H r Hr. rewrite forallb_forall in H.
  specialize (H (Z.to_nat r)). rewrite Z2Nat.id in H by lia.
  apply H. apply in_seq. lia.
Qed.

(** The month and the day within a year, as [_ord2ymd] finds them *)
Lemma month_day_of_year (leapyear : bool) (n : Z) :
  0 <= n < 365 ->
  let m := Z.shiftr (n + 50) 5 in
  let preceding := _DAYS_BEFORE_MONTH m + (if (2 <? m) && leapyear then 1 else 0) in
  let '(m, preceding) :=
    if n <? preceding
    then (m - 1, preceding - (_DAYS_IN_MONTH (m - 1)
                              + (if (m - 1 =? 2) && leapyear then 1 else 0)))
    else (m, preceding) in
  1 <= m <= 12
  /\ preceding = _DAYS_BEFORE_MONTH m + (if (2 <? m) && leapyear then 1 else 0)
  /\ 1 <= n - preceding + 1.
Proof.
  intros Hn.
  pose (P := fun (leapyear : bool) (n : Z) =>
    let m := Z.shiftr (n + 50) 5 in
    let preceding := _DAYS_BEFORE_MONTH m + (if (2 <? m) && leapyear then 1 else 0) in
    let '(m, preceding) :=
      if n <? preceding
      then (m - 1, preceding - (_DAYS_IN_MONTH (m - 1)
                                + (if (m - 1 =? 2) && leapyear then 1 else 0)))
      else (m, preceding) in
    (1 <=? m) && (m <=? 12)
    && (preceding =? _DAYS_BEFORE_MONTH m + (if (2 <? m) && leapyear then 1 else 0))
    && (1 <=? n - preceding + 1)).
  assert (H : P leapyear n = true).
  { apply (forall_below 365 (P leapyear)); [|exact Hn].
    destruct leapyear; vm_compute; reflexivity. }
  unfold P in H. cbv zeta in H |- *.
  destruct (if n <? _ then _ else _) as [m p].
  rewrite !andb_true_iff in H. lia.
Qed.

Lemma div_mod_bounds (a b : Z) :
  0 < b -> a = b * (a / b) + a mod b /\ 0 <= a mod b < b.
Proof.
  intros Hb. split; [apply Z.div_mod; lia | apply Z.mod_pos_bound; exact Hb].
Qed.

Lemma is_leap_decomposed (n400 n100 n4 n1 : Z) :
  0 <= n100 <= 3 -> 0 <= n4 <= 24 -> 0 <= n1 <= 3 ->
  _is_leap (n400 * 400 + 1 + n100 * 100 + n4 * 4 + n1)
  = (n1 =? 3) && (negb (n4 =? 24) || (n100 =? 3)).
Proof.
  intros H100 H4 H1. unfold _is_leap.
  set (y := n400 * 400 + 1 + n100 * 100 + n4 * 4 + n1).
  assert (E4 : y mod 4 = (n1 + 1) mod 4).
  { unfold y. replace (n400 * 400 + 1 + n100 * 100 + n4 * 4 + n1)
      with (n1 + 1 + (n400 * 100 + n100 * 25 + n4) * 4) by lia.
    apply Z_mod_plus_full. }
  assert (E100 : y mod 100 = (n4 * 4 + n1 + 1) mod 100).
  { unfold y. replace (n400 * 400 + 1 + n100 * 100 + n4 * 4 + n1)
      with (n4 * 4 + n1 + 1 + (n400 * 4 + n100) * 100) by lia.
    apply Z_mod_plus_full. }
  assert (E400 : y mod 400 = (n100 * 100 + n4 * 4 + n1 + 1) mod 400).
  { unfold y. replace (n400 * 400 + 1 + n100 * 100 + n4 * 4 + n1)
      with (n100 * 100 + n4 * 4 + n1 + 1 + n400 * 400) by lia.
    apply Z_mod_plus_full. }
  rewrite E4, E100, E400.
  destruct (Z.eqb_spec n1 3) as [->|N1].
  - replace ((3 + 1) mod 4) with 0 by reflexivity. cbn [Z.eqb andb].
    destruct (Z.eqb_spec n4 24) as [->|N4].
    + replace ((24 * 4 + 3 + 1) mod 100) with 0 by reflexivity.
      cbn [Z.eqb negb orb].
      destruct (Z.eqb_spec n100 3) as [->|N100]; [reflexivity|].
      rewrite Z.mod_small by lia.
      destruct (Z.eqb_spec (n100 * 100 + 24 * 4 + 3 + 1) 0); [lia | reflexivity].
    + rewrite (Z.mod_small (n4 * 4 + 3 + 1)) by lia.
      destruct (Z.eqb_spec (n4 * 4 + 3 + 1) 0); [lia | reflexivity].
  - rewrite (Z.mod_small (n1 + 1)) by lia.
    destruct (Z.eqb_spec (n1 + 1) 0); [lia | reflexivity].
Qed.

Lemma days_before_year_decomposed (n400 n100 n4 n1 : Z) :
  0 <= n100 <= 3 -> 0 <= n4 <= 24 -> 0 <= n1 <= 3 ->
  _days_before_year (n400 * 400 + 1 + n100 * 100 + n4 * 4 + n1)
  = n400 * 146097 + n100 * 36524 + n4 * 1461 + n1 * 365.
Proof.
  intros H100 H4 H1. unfold _days_before_year. cbv zeta.
  replace (n400 * 400 + 1 + n100 * 100 + n4 * 4 + n1 - 1)
    with (n400 * 400 + n100 * 100 + n4 * 4 + n1) by lia.
  set (y := n400 * 400 + n100 * 100 + n4 * 4 + n1).
  assert (D4 : y / 4 = n400 * 100 + n100 * 25 + n4).
  { symmetry. apply (Z.div_unique y 4 _ n1); unfold y; lia. }
  assert (D100 : y / 100 = n400 * 4 + n100).
  { symmetry. apply (Z.div_unique y 100 _ (n4 * 4 + n1)); unfold y; lia. }
  assert (D400 : y / 400 = n400).
  { symmetry. apply (Z.div_unique y 400 _ (n100 * 100 + n4 * 4 + n1)); unfold y; lia. }
  rewrite D4, D100, D400. unfold y. lia.
Qed.

(** [date.fromordinal] followed by [toordinal] gives the ordinal back. *)
Lemma ymd2ord_ord2ymd (o : Z) :
  1 <= o -> let '(y, m, d) := _ord2ymd o in _ymd2ord y m d = o.
Proof.
  intros Ho. unfold _ord2ymd. cbv zeta.
  destruct (div_mod_bounds (o - 1) 146097 ltac:(lia)) as [E400 B400].
  set (n400 := (o - 1) / 146097) in *. set (r400 := (o - 1) mod 146097) in *.
  destruct (div_mod_bounds r400 36524 ltac:(lia)) as [E100 B100].
  set (n100 := r400 / 36524) in *. set (r100 := r400 mod 36524) in *.
  destruct (div_mod_bounds r100 1461 ltac:(lia)) as [E4 B4].
  set (n4 := r100 / 1461) in *. set (r4 := r100 mod 1461) in *.
  destruct (div_mod_bounds r4 365 ltac:(lia)) as [E1 B1].
  set (n1 := r4 / 365) in *. set (r1 := r4 mod 365) in *.
  clearbody n400 r400 n100 r100 n4 r4 n1 r1.
  assert (Hn400 : 0 <= n400) by lia.
  assert (Hn100 : 0 <= n100 <= 4) by lia.
  assert (Hn4 : 0 <= n4 <= 24) by lia.
  assert (Hn1 : 0 <= n1 <= 4) by lia.
  destruct ((n1 =? 4) || (n100 =? 4)) eqn:Special.
  - (* the last day of a leap year *)
    apply orb_true_iff in Special.
    unfold _ymd2ord, _days_before_month. cbn [_DAYS_BEFORE_MONTH Z.ltb Z.compare Pos.compare Pos.compare_cont andb].
    destruct Special as [S|S]; apply Z.eqb_eq in S; subst.
    + replace (n400 * 400 + 1 + n100 * 100 + n4 * 4 + 4 - 1)
        with (n400 * 400 + 1 + n100 * 100 + n4 * 4 + 3) by lia.
      assert (n100 <= 3) by lia. assert (n4 <= 23) by lia.
      rewrite is_leap_decomposed, days_before_year_decomposed by lia.
      replace (3 =? 3) with true by reflexivity.
      destruct (Z.eqb_spec n4 24); [lia|]. cbn [negb orb andb]. lia.
    + assert (n4 = 0) by lia. assert (n1 = 0) by lia. subst.
      replace (n400 * 400 + 1 + 4 * 100 + 0 * 4 + 0 - 1)
        with (n400 * 400 + 1 + 3 * 100 + 24 * 4 + 3) by lia.
      rewrite is_leap_decomposed, days_before_year_decomposed by lia.
      cbn [Z.eqb Pos.eqb negb orb andb]. lia.
  - apply orb_false_iff in Special. destruct Special as [S1 S2].
    apply Z.eqb_neq in S1, S2.
    assert (H1 : 0 <= n1 <= 3) by lia. assert (H100 : 0 <= n100 <= 3) by lia.
    pose proof (month_day_of_year
                  ((n1 =? 3) && (negb (n4 =? 24) || (n100 =? 3))) r1 B1) as MD.
    cbv zeta in MD.
    destruct (if r1 <? _ then _ else _) as [m p] eqn:Emp.
    destruct MD as (Hm & Hp & Hd).
    assert (Goal : _ymd2ord (n400 * 400 + 1 + n100 * 100 + n4 * 4 + n1) m
                     (r1 - p + 1) = o).
    { unfold _ymd2ord, _days_before_month.
      rewrite is_leap_decomposed, days_before_year_decomposed by lia.
      rewrite <- Hp. lia. }
    destruct (r1 <? _); injection Emp as <- <-; exact Goal.
Qed.

(** Subtracting [n] days lowers the ordinal by [n]. *)
Lemma minus_days_ordinal (dt issue_dt : datetime) (n : Z) :
  minus_days dt n = Some issue_dt -> toordinal issue_dt = toordinal dt - n.
Proof.
  unfold minus_days.
  destruct ((1 <=? toordinal dt - n) && (toordinal dt - n <=? 3652059)) eqn:B;
    [|discriminate].
  apply andb_true_iff in B. destruct B as [B _]. apply Z.leb_le in B.
  pose proof (ymd2ord_ord2ymd _ B) as R.
  destruct (_ord2ymd (toordinal dt - n)) as [[y m] d].
  intros [= <-]. exact R.
Qed.

End Calendar.

(** C6, amended.  When a run succeeds on a document from which no date of
    issue is extracted while the expiry date is extracted and parses, the
    [issue_date] of the result is the expiry date minus 365 * 5 = 1825
    days, written as DD/MM/YYYY: the date whose ordinal is 1825 less.  This
    is not five calendar years: for the expiry date 13/12/2025 it is
    14/12/2020. *)
Theorem backfilled_issue_date (w : World) (name path aadhar : str)
    (income : pyfloat) (r : dict) (e : str) (dt : datetime) :
  verify_producer w name path income aadhar = Returns r ->
  r !! "status" = Some (VStr "success") ->
  extract_issue_date (extract_text_from_document w path) = None ->
  extract_expiry_date (extract_text_from_document w path) = Some e ->
  parse_date e = Some dt ->
  (exists issue_dt : datetime,
     minus_days dt 1825 = Some issue_dt
     /\ toordinal issue_dt = (toordinal dt - 1825)%Z
     /\ r !! "issue_date" = Some (VStr (strftime_dmy issue_dt)))
  /\ backfill_issue_date None (Some ("13/12/2025" : str))
     = Returns (Some ("14/12/2020" : str)).
Proof.
  intros Hr Hs Hi He Hp. split; [|vm_compute; reflexivity].
  destruct (verify_producer_success_inv w _ _ _ _ _ Hr Hs)
    as (_ & _ & issue & Hb & Hfield & _).
  rewrite Hi, He in Hb. unfold backfill_issue_date in Hb.
  rewrite (parse_date_nonempty _ _ Hp) in Hb. cbn [truthy negb andb] in Hb.
  change (default [] (Some e)) with e in Hb. rewrite Hp in Hb.
  change (365 * 5)%Z with 1825%Z in Hb.
  destruct (minus_days dt 1825) as [issue_dt|] eqn:Hm; [|discriminate Hb].
  injection Hb as <-. exists issue_dt. split; [reflexivity|].
  split; [apply minus_days_ordinal, Hm|].
  rewrite Hfield.
  destruct (strftime_dmy_plain issue_dt) as [Hne Hpl].
  rewrite (clean_text_plain _ Hne Hpl). reflexivity.
Qed.

Lemma backfilled_issue_date_witness :
  exists r : dict,
    verify_producer undated_world "KINGS ROLL" "doc.pdf" (float_of_Z 11000)
      "442125846000" = Returns r
    /\ r !! "status" = Some (VStr "success")
    /\ extract_issue_date (extract_text_from_document undated_world "doc.pdf") = None
    /\ extract_expiry_date (extract_text_from_document undated_world "doc.pdf")
       = Some ("13/12/2025" : str)
    /\ parse_date "13/12/2025" = Some (DateTime 2025 12 13 0)
    /\ exists issue_dt : datetime,
         minus_days (DateTime 2025 12 13 0) 1825 = Some issue_dt
         /\ toordinal issue_dt = (toordinal (DateTime 2025 12 13 0) - 1825)%Z
         /\ r !! "issue_date" = Some (VStr (strftime_dmy issue_dt)).
Proof.
  destruct (verify_producer_success undated_world "KINGS ROLL" "doc.pdf"
              (float_of_Z 11000) "442125846000" "registration"
              (Some ("14/12/2020" : str)))
    as (r & Hr & Hs & _);
    try (vm_compute; reflexivity).
  assert (Hi : extract_issue_date (extract_text_from_document undated_world "doc.pdf")
               = None) by (vm_compute; reflexivity).
  assert (He : extract_expiry_date (extract_text_from_document undated_world "doc.pdf")
               = Some ("13/12/2025" : str)) by (vm_compute; reflexivity).
  assert (Hp : parse_date "13/12/2025" = Some (DateTime 2025 12 13 0))
    by (vm_compute; reflexivity).
  exists r. repeat (split; [assumption|]).
  exact (proj1 (backfilled_issue_date undated_world "KINGS ROLL" "doc.pdf"
                  "442125846000" (float_of_Z 11000) r "13/12/2025"
                  (DateTime 2025 12 13 0) Hr Hs Hi He Hp)).
Defined.

(** ** C7: the fallback of [extract_expiry_date] *)

Section Sorting.
Context {A : Type} (ltb : A -> A -> bool).
Hypothesis ltb_asym : forall a b, ltb a b = true -> ltb b a = false.
Hypothesis leb_trans :
  forall a b c, ltb b a = false -> ltb c b = false -> ltb c a = false.

(** [leb a b]: [a] is not after [b] *)
Local Abbreviation leb := (fun a b : A => ltb b a = false).

Lemma insert_sorted_In (x y : A) (l : list A) :
  In y (insert_sorted ltb x l) <-> y = x \/ In y l.
Proof.
  induction l as [|z l IH]; simpl; [intuition|].
  destruct (ltb z x); simpl; rewrite ?IH; intuition.
Qed.

Lemma sort_by_In (y : A) (l : list A) : In y (sort_by ltb l) <-> In y l.
Proof.
  induction l as [|x l IH]; simpl; [reflexivity|].
  rewrite insert_sorted_In, IH. intuition.
Qed.




End Sorting.

Lemma all_some_In {A B : Type} (f : A -> option B) (l : list A) (l' : list B) :
  all_some f l = Some l' ->
  (forall y, In y l' -> exists x, In x l /\ f x = Some y)
  /\ (forall x, In x l -> exists y, In y l' /\ f x = Some y).
Proof.
  revert l'; induction l as [|x l IH]; intros l'; simpl.
  - intros [= <-]. split; intros ? [].
  - destruct (f x) as [y|] eqn:E; [|discriminate].
    destruct (all_some f l) as [l0|]; [|discriminate].
    intros [= <-]. destruct (IH _ eq_refl) as [IH1 IH2]. split.
    + intros y' [<-|Hy]; [eauto|]. destruct (IH1 _ Hy) as (x' & ? & ?); eauto.
    + intros x' [<-|Hx]; [exists y; simpl; auto|].
      destruct (IH2 _ Hx) as (y' & ? & ?). exists y'; simpl; auto.
Qed.








(** ** The matcher *)

(** The model on small inputs; the values are those of Python's [re] and
    [str] on the same inputs. *)
Example split_address_like :
  re_split address_like "Kings Roll Near Bus Stand Sirsa"
  = [ "Kings Roll" : str; " Bus Stand" : str; [] ]
  /\ re_split address_like "Atul Sweets" = [ "Atul Sweets" : str ]
  /\ re_split address_like "Kings Attic" = [ "Kings" : str; "tic" : str ].
Proof. repeat split; vm_compute; reflexivity. Qed.

Example search_lazy_address :
  option_map group1
    (re_search (lit "Address" ⋅ rstar ws ⋅ ich ":" ⋅ rstar ws ⋅ address_body)%re
       ("Address: 12 Main" ++ [nl] ++ "Street Foo" ++ [nl] ++ "  Valid Upto: x"))
  = Some ("12 Main" ++ [nl] ++ "Street Foo").
Proof. vm_compute; reflexivity. Qed.

Example findall_dates :
  findall (Group 1 dmy) 1 "a 12/12/2020 b 123/45/67890 c"
  = [ "12/12/2020" : str; "23/45/6789" : str ]
  /\ findall (valid_upto ⋅ rstar ws ⋅ colon_dash_opt ⋅ rstar ws ⋅ Group 1 ymd)%re 1
       "Valid Upto - 2025-12-13; valid upto:2026-01-01"
     = [ "2025-12-13" : str; "2026-01-01" : str ].
Proof. split; vm_compute; reflexivity. Qed.

Example word_boundaries :
  re_search (word_boundary ⋅ rep 14 dg ⋅ word_boundary)%re "no_20819019000744 "
  = None
  /\ option_map (fun m => (m_start m, m_end m))
       (re_search (word_boundary ⋅ rep 14 dg ⋅ word_boundary)%re
          "(20819019000744)")
     = Some (1%nat, 15%nat).
Proof. split; vm_compute; reflexivity. Qed.

Example str_methods :
  title "O'NEIL-smith 2nd" = ("O'Neil-Smith 2Nd" : str)
  /\ split_ws ("  a" ++ [tab] ++ "b " ++ [ascii_of_nat 31] ++ " c" ++ [nl])
     = [ "a" : str; "b" : str; "c" : str ]
  /\ replace "2 020" "2020" "13/12/2 020 and 2 0202 020"
     = ("13/12/2020 and 20202020" : str)
  /\ split_char ":" (Some 1%nat) "a:b:c" = [ "a" : str; "b:c" : str ].
Proof. repeat split; vm_compute; reflexivity. Qed.

Example strptime_cases :
  strptime_dmy "13/12/2025" = Some (DateTime 2025 12 13 0)
  /\ strptime_dmy "1/2/2024" = Some (DateTime 2024 2 1 0)
  /\ strptime_dmy "00/02/2024" = None
  /\ strptime_dmy "32/02/2024" = None
  /\ strptime_ymd "2025-02-29" = None
  /\ strptime_ymd "2024-02-29" = Some (DateTime 2024 2 29 0)
  /\ toordinal (DateTime 2025 12 13 0) = 739598%Z.
Proof. repeat split; vm_compute; reflexivity. Qed.


(** A successful run of [r] hands over to its continuation at a state
    further on in the same subject. *)
Lemma star_loop_onward (greedy : bool)
    (body : mstate -> cont -> option mstate) :
  (forall st k res, body st k = Some res ->
     exists st', k st' = Some res /\ exists used, rest st = used ++ rest st') ->
  forall fuel st k res,
    star_loop greedy body fuel st k = Some res ->
    exists st', k st' = Some res /\ exists used, rest st = used ++ rest st'.
Proof.
  intros Hbody fuel. induction fuel as [|fuel IH]; intros st k res; simpl.
  - intros H. exists st. split; [exact H | exists []; reflexivity].
  - set (again := body st _).
    assert (Hagain : again = Some res ->
              exists st', k st' = Some res /\ exists used, rest st = used ++ rest st').
    { unfold again. intros H. apply Hbody in H.
      destruct H as (st1 & H & used1 & E1).
      destruct (_ <? _)%nat; [|discriminate H].
      apply IH in H. destruct H as (st' & H & used2 & E2).
      exists st'. split; [exact H|]. exists (used1 ++ used2).
      rewrite E1, E2, app_assoc. reflexivity. }
    assert (Hstop : k st = Some res ->
              exists st', k st' = Some res /\ exists used, rest st = used ++ rest st').
    { intros H. exists st. split; [exact H | exists []; reflexivity]. }
    destruct greedy.
    + destruct again as [x|]; [intros [= ->]; apply Hagain; reflexivity | exact Hstop].
    + destruct (k st) as [x|]; [intros [= ->]; apply Hstop; reflexivity | exact Hagain].
Qed.

Lemma rmatch_onward (r : regex) :
  forall st k res,
    rmatch r st k = Some res ->
    exists st', k st' = Some res /\ exists used, rest st = used ++ rest st'.
Proof.
  induction r as [|p|r1 IH1 r2 IH2|r1 IH1 r2 IH2|greedy r1 IH1|n r1 IH1|r1 IH1|a];
    intros st k res; cbn [rmatch].
  - intros H. exists st. split; [exact H | exists []; reflexivity].
  - destruct (rest st) as [|c s'] eqn:E; [discriminate|].
    destruct (p c); [|discriminate].
    intros H. eexists. split; [exact H|]. exists [c]. reflexivity.
  - intros H. apply IH1 in H. destruct H as (st1 & H & used1 & E1).
    apply IH2 in H. destruct H as (st2 & H & used2 & E2).
    exists st2. split; [exact H|]. exists (used1 ++ used2).
    rewrite E1, E2, app_assoc. reflexivity.
  - destruct (rmatch r1 st k) as [x|] eqn:E.
    + intros [= ->]. apply IH1, E.
    + apply IH2.
  - apply star_loop_onward, IH1.
  - intros H. apply IH1 in H. destruct H as (st1 & H & used1 & E1).
    eexists. split; [exact H|]. exists used1. exact E1.
  - destruct (rmatch r1 st Some) as [st1|]; [|discriminate].
    intros H. eexists. split; [exact H|]. exists []. reflexivity.
  - destruct (a st); [|discriminate].
    intros H. exists st. split; [exact H | exists []; reflexivity].
Qed.

(** The matcher uses its continuation only through its values. *)
Lemma star_loop_ext (greedy : bool) (body : mstate -> cont -> option mstate) :
  (forall st k k', (forall st', k st' = k' st') -> body st k = body st k') ->
  forall fuel st k k',
    (forall st', k st' = k' st') ->
    star_loop greedy body fuel st k = star_loop greedy body fuel st k'.
Proof.
  intros Hbody fuel. induction fuel as [|fuel IH]; intros st k k' Hk; simpl.
  - apply Hk.
  - rewrite (Hk st).
    rewrite (Hbody st _ (fun st1 =>
               if (length (rest st1) <? length (rest st))%nat
               then star_loop greedy body fuel st1 k' else None));
      [reflexivity|].
    intros st1. destruct (_ <? _)%nat; [apply IH, Hk | reflexivity].
Qed.

Lemma rmatch_ext (r : regex) :
  forall st k k', (forall st', k st' = k' st') -> rmatch r st k = rmatch r st k'.
Proof.
  induction r as [|p|r1 IH1 r2 IH2|r1 IH1 r2 IH2|greedy r1 IH1|n r1 IH1|r1 IH1|a];
    intros st k k' Hk; cbn [rmatch].
  - apply Hk.
  - destruct (rest st) as [|c s']; [reflexivity|].
    destruct (p c); [apply Hk | reflexivity].
  - apply IH1. intros st1. apply IH2, Hk.
  - rewrite (IH1 st k k' Hk), (IH2 st k k' Hk). reflexivity.
  - apply star_loop_ext; [exact IH1 | exact Hk].
  - apply IH1. intros st1. apply Hk.
  - destruct (rmatch r1 st Some); [apply Hk | reflexivity].
  - destruct (a st); [apply Hk | reflexivity].
Qed.

(** The fuel of a repetition is never exhausted: any amount above the
    length of what remains of the subject gives the same run. *)
Lemma star_loop_fuel (greedy : bool) (r : regex) :
  forall fuel1 fuel2 st k,
    (length (rest st) < fuel1)%nat -> (length (rest st) < fuel2)%nat ->
    star_loop greedy (rmatch r) fuel1 st k = star_loop greedy (rmatch r) fuel2 st k.
Proof.
  induction fuel1 as [|fuel1 IH]; intros fuel2 st k H1 H2; [lia|].
  destruct fuel2 as [|fuel2]; [lia|]. simpl.
  rewrite (rmatch_ext r st _ (fun st1 =>
             if (length (rest st1) <? length (rest st))%nat
             then star_loop greedy (rmatch r) fuel2 st1 k else None));
    [reflexivity|].
  intros st1. destruct (_ <? _)%nat eqn:L; [|reflexivity].
  apply Nat.ltb_lt in L. apply IH; lia.
Qed.

(** [p{n}], for [n] at least 1, consumes [n] characters of class [p]
    and nothing else. *)
Lemma rmatch_rep (p : ascii -> bool) (n : nat) :
  forall st k,
    rmatch (rep (S n) (Chr p)) st k
    = if ((S n <=? length (rest st))%nat && forallb p (take (S n) (rest st)))
      then k (MState (last (take (S n) (rest st))) (drop (S n) (rest st)) (caps st))
      else None.
Proof.
  induction n as [|n IH]; intros [pv s cs] k.
  - cbn [rep rmatch rest caps]. destruct s as [|c s]; [reflexivity|].
    cbn [length take forallb drop Nat.leb]. rewrite andb_true_r.
    destruct (p c); reflexivity.
  - change (rep (S (S n)) (Chr p)) with (Seq (Chr p) (rep (S n) (Chr p))).
    cbn [rmatch rest caps]. destruct s as [|c s]; [reflexivity|].
    destruct (p c) eqn:Hc.
    + rewrite IH. cbn [rest caps].
      change (S (S n) <=? length (c :: s))%nat with (S n <=? length s)%nat.
      change (take (S (S n)) (c :: s)) with (c :: take (S n) s).
      change (drop (S (S n)) (c :: s)) with (drop (S n) s).
      cbn [forallb]. rewrite Hc. cbn [andb].
      destruct (S n <=? length s)%nat eqn:L; [|reflexivity].
      cbn [andb]. destruct (forallb p (take (S n) s)); [|reflexivity].
      f_equal. f_equal.
      destruct s as [|c' s]; [discriminate L|]. reflexivity.
    + change (take (S (S n)) (c :: s)) with (c :: take (S n) s).
      cbn [forallb]. rewrite Hc, andb_false_r. reflexivity.
Qed.

(** ** C5: the license number *)


Lemma attempt_rmatch (r : regex) (pv : option ascii) (s : str) (pos : nat)
    (m : mres) :
  attempt r pv s pos = Some m ->
  exists st1, rmatch r (MState pv s []) Some = Some st1
              /\ m_caps m = caps st1
              /\ m_group0 m = take (length s - length (rest st1)) s.
Proof.
  unfold attempt. destruct (rmatch r _ Some) as [st1|]; [|discriminate].
  intros [= <-]. exists st1. repeat split.
Qed.

Lemma search_from_attempt (r : regex) (s : str) :
  forall pv pos m,
    search_from r pv s pos = Some m ->
    exists a pv' s' pos', s = a ++ s' /\ attempt r pv' s' pos' = Some m.
Proof.
  induction s as [|c s IH]; intros pv pos m; cbn [search_from].
  - destruct (attempt r pv [] pos) as [m'|] eqn:E; [|discriminate].
    intros [= <-]. exists [], pv, [], pos. split; [reflexivity | exact E].
  - destruct (attempt r pv (c :: s) pos) as [m'|] eqn:E.
    + intros [= <-]. exists [], pv, (c :: s), pos. split; [reflexivity | exact E].
    + intros H. apply IH in H. destruct H as (a & pv' & s' & pos' & -> & H).
      exists (c :: a), pv', s', pos'. split; [reflexivity | exact H].
Qed.

(** A pattern that ends in [(\d{14})] captures 14 digits of the text. *)
Lemma label_capture (prefix : regex) (text : str) (m : mres) :
  re_search (Seq prefix (Group 1 (rep 14 dg))) text = Some m ->
  digits14 (group1 m) /\ exists a b, text = a ++ group1 m ++ b.
Proof.
  unfold re_search. intros H.
  apply search_from_attempt in H. destruct H as (a & pv & s & pos & -> & H).
  apply attempt_rmatch in H. destruct H as (st1 & H & Hcaps & _).
  cbn [rmatch] in H. apply rmatch_onward in H.
  destruct H as (st' & H & used & Hused). cbn [rest] in Hused.
  unfold dg in H. rewrite rmatch_rep in H.
  destruct (14 <=? length (rest st'))%nat eqn:L; [|discriminate H].
  destruct (forallb is_digit (take 14 (rest st'))) eqn:D; [|discriminate H].
  cbn [andb] in H. injection H as <-.
  apply Nat.leb_le in L.
  assert (Hg : group1 m = take 14 (rest st')).
  { unfold group1, m_group. rewrite Hcaps. cbn [caps set_group assoc Nat.eqb default].
    unfold span. cbn [rest]. rewrite length_drop.
    replace (length (rest st') - (length (rest st') - 14))%nat with 14%nat by lia.
    reflexivity. }
  rewrite Hg. split.
  - split; [rewrite length_take; lia | exact D].
  - exists (a ++ used), (drop 14 (rest st')).
    rewrite Hused, take_drop, app_assoc. reflexivity.
Qed.

(** One attempt of [\b\d{14}\b] *)
Lemma attempt_generic (pv : option ascii) (s : str) (pos : nat) :
  attempt (word_boundary ⋅ rep 14 dg ⋅ word_boundary)%re pv s pos
  = if boundary pv (head s)
       && ((14 <=? length s)%nat && forallb is_digit (take 14 s))
       && boundary (last (take 14 s)) (head (drop 14 s))
    then Some (MRes pos (pos + 14) (take 14 s) [])
    else None.
Proof.
  unfold attempt, word_boundary, dg, boundary. cbn [rmatch prev rest].
  destruct (xorb (is_word_opt pv) (is_word_opt (head s))); [|reflexivity].
  rewrite rmatch_rep. cbn [rest caps andb].
  destruct ((14 <=? length s)%nat && forallb is_digit (take 14 s)) eqn:C;
    [|reflexivity].
  cbn [prev rest andb].
  destruct (xorb _ _); [|reflexivity].
  cbn [rest caps]. apply andb_true_iff in C. destruct C as [L _].
  apply Nat.leb_le in L. rewrite length_drop.
  replace (length s - (length s - 14))%nat with 14%nat by lia. reflexivity.
Qed.




Lemma search_from_unfold (r : regex) (pv : option ascii) (s : str) (pos : nat) :
  search_from r pv s pos
  = match attempt r pv s pos with
    | Some m => Some m
    | None =>
        match s with
        | [] => None
        | c :: s' => search_from r (Some c) s' (S pos)
        end
    end.
Proof. destruct s; reflexivity. Qed.





(** * Further properties of the code *)

(** ** [verify_names] *)

(** The shapes of a result of [verify_names] *)
Lemma verify_names_shape (w : World) (name path : str) :
  let r := verify_names w name path in
  let text := extract_text_from_document w path in
  (r !! "status" = Some (VStr "verified") \/ r !! "status" = Some (VStr "rejected"))
  /\ (is_Some (r !! "fssai_text") <-> r !! "status" = Some (VStr "verified"))
  /\ (is_Some (r !! "fssai_text") ->
      r !! "fssai_text" = Some (VStr text) /\ text <> [])
  /\ (exists message, r !! "message" = Some (VStr message) /\ message <> [])
  /\ (r !! "details" = Some (VDict ∅)
      \/ exists business_name,
           extract_name_from_fssai text = Some business_name
           /\ r !! "details"
              = Some (VDict {[ "provided_name" := VStr name;
                               "business_name" := VStr business_name ]})).
Proof.
  intros r text. subst r. unfold verify_names. fold text.
  destruct (nonempty text) eqn:Hn; cbn [negb].
  2: { split; [right; reflexivity|].
       split; [split; [intros [x H]; discriminate H | intros H; discriminate H]|].
       split; [intros [x H]; discriminate H|].
       split; [eexists; split; [reflexivity | discriminate]|].
       left; reflexivity. }
  destruct (truthy (extract_name_from_fssai text)) eqn:Hb; cbn [negb].
  2: { split; [right; reflexivity|].
       split; [split; [intros [x H]; discriminate H | intros H; discriminate H]|].
       split; [intros [x H]; discriminate H|].
       split; [eexists; split; [reflexivity | discriminate]|].
       left; reflexivity. }
  destruct (extract_name_from_fssai text) as [b|] eqn:Eb; [|discriminate Hb].
  change (default [] (Some b)) with b. cbv zeta.
  assert (Ht : text <> []) by (destruct text; [discriminate Hn | discriminate]).
  destruct (names_match name b).
  - split; [left; reflexivity|]. split; [split; [reflexivity | eexists; reflexivity]|].
    split; [intros _; split; [reflexivity | exact Ht]|].
    split; [eexists; split; [reflexivity | discriminate]|].
    right. exists b. split; reflexivity.
  - split; [right; reflexivity|].
    split; [split; [intros [x H]; discriminate H | intros H; discriminate H]|].
    split; [intros [x H]; discriminate H|].
    split; [eexists; split; [reflexivity | discriminate]|].
    right. exists b. split; reflexivity.
Qed.


(** ** [check_fssai_format] *)

(** The shapes of a result of [check_fssai_format] *)
Lemma check_fssai_format_shape (w : World) (path : str) :
  let r := check_fssai_format w path in
  (r !! "status" = Some (VStr "verified") \/ r !! "status" = Some (VStr "rejected"))
  /\ r !! "issues" = Some (VStrs (issues_of r))
  /\ (r !! "status" = Some (VStr "verified") <-> issues_of r = []).
Proof.
  intros r. subst r. unfold check_fssai_format.
  destruct (nonempty (extract_text_from_document w path)); cbn [negb].
  2: { split; [right; reflexivity|]. split; [reflexivity|].
       split; [intros H; discriminate H | intros H; discriminate H]. }
  destruct (contains _ _).
  { split; [left; reflexivity|]. split; [reflexivity|]. split; reflexivity. }
  cbv zeta. destruct (check_expiry w _ _) as [|issue issues].
  - split; [left; reflexivity|]. split; [reflexivity|]. split; reflexivity.
  - split; [right; reflexivity|]. split; [reflexivity|].
    split; [intros H; discriminate H | intros H; discriminate H].
Qed.

(** The result of [check_fssai_format] is "verified" or "rejected", it
    always carries a list of issues, and it is "verified" exactly when
    that list is empty. *)
Theorem check_fssai_format_result (w : World) (path : str) :
  let r := check_fssai_format w path in
  (r !! "status" = Some (VStr "verified") \/ r !! "status" = Some (VStr "rejected"))
  /\ r !! "issues" = Some (VStrs (issues_of r))
  /\ (r !! "status" = Some (VStr "verified") <-> issues_of r = []).
Proof. exact (check_fssai_format_shape w path). Qed.

(** ** The dates that are extracted *)

Lemma rmatch_chr (p : ascii -> bool) (st : mstate) (k : cont) (res : mstate) :
  rmatch (Chr p) st k = Some res ->
  exists c s', rest st = c :: s' /\ p c = true
               /\ k (MState (Some c) s' (caps st)) = Some res.
Proof.
  cbn [rmatch]. destruct (rest st) as [|c s']; [discriminate|].
  destruct (p c) eqn:E; [|discriminate]. intros H. exists c, s'. auto.
Qed.

Lemma rmatch_rep_sound (p : ascii -> bool) (n : nat) (st : mstate) (k : cont)
    (res : mstate) :
  rmatch (rep (S n) (Chr p)) st k = Some res ->
  exists d s', rest st = d ++ s' /\ length d = S n /\ forallb p d = true
               /\ k (MState (last d) s' (caps st)) = Some res.
Proof.
  rewrite rmatch_rep.
  destruct (S n <=? length (rest st))%nat eqn:L; [|discriminate].
  destruct (forallb p (take (S n) (rest st))) eqn:D; [|discriminate].
  cbn [andb]. intros H. apply Nat.leb_le in L.
  exists (take (S n) (rest st)), (drop (S n) (rest st)).
  rewrite take_drop, length_take. repeat split; [lia | exact D | exact H].
Qed.

Lemma ich_exact (sep c : ascii) :
  is_alpha sep = false ->
  eqc (lower_char c) (lower_char sep) = true -> c = sep.
Proof.
  intros Hs. unfold lower_char at 2.
  assert (Hu : is_upper sep = false).
  { unfold is_alpha in Hs. apply orb_false_iff in Hs. tauto. }
  rewrite Hu. unfold eqc. rewrite Ascii.eqb_eq. intros <-.
  unfold lower_char in Hs |- *. destruct (is_upper c) eqn:U; [|reflexivity].
  exfalso. revert U Hs.
  destruct c as [[] [] [] [] [] [] [] []]; vm_compute; congruence.
Qed.

Lemma consumes_dmy : consumes dmy shaped_dmy.
Proof.
  intros st k res H. unfold dmy, dg in H. cbn [rmatch] in H.
  apply rmatch_rep_sound in H. destruct H as (a & s1 & E1 & La & Da & H).
  apply rmatch_chr in H. cbn [rest caps] in H.
  destruct H as (c1 & s2 & [= ->] & P1 & H).
  apply rmatch_rep_sound in H. cbn [rest caps] in H.
  destruct H as (b & s3 & -> & Lb & Db & H).
  apply rmatch_chr in H. cbn [rest caps] in H.
  destruct H as (c2 & s4 & [= ->] & P2 & H).
  apply rmatch_rep_sound in H. cbn [rest caps] in H.
  destruct H as (c & s5 & -> & Lc & Dc & H).
  apply ich_exact in P1; [|reflexivity]. apply ich_exact in P2; [|reflexivity].
  subst c1 c2.
  exists (a ++ "/" ++ b ++ "/" ++ c), s5, (last c).
  split; [|split; [|exact H]].
  - exists a, b, c. rewrite !forallb_app, Da, Db, Dc. repeat split; assumption.
  - rewrite E1, <- !app_assoc. reflexivity.
Qed.

Lemma consumes_ymd : consumes ymd shaped_ymd.
Proof.
  intros st k res H. unfold ymd, dg in H. cbn [rmatch] in H.
  apply rmatch_rep_sound in H. destruct H as (a & s1 & E1 & La & Da & H).
  apply rmatch_chr in H. cbn [rest caps] in H.
  destruct H as (c1 & s2 & [= ->] & P1 & H).
  apply rmatch_rep_sound in H. cbn [rest caps] in H.
  destruct H as (b & s3 & -> & Lb & Db & H).
  apply rmatch_chr in H. cbn [rest caps] in H.
  destruct H as (c2 & s4 & [= ->] & P2 & H).
  apply rmatch_rep_sound in H. cbn [rest caps] in H.
  destruct H as (c & s5 & -> & Lc & Dc & H).
  apply ich_exact in P1; [|reflexivity]. apply ich_exact in P2; [|reflexivity].
  subst c1 c2.
  exists (a ++ "-" ++ b ++ "-" ++ c), s5, (last c).
  split; [|split; [|exact H]].
  - exists a, b, c. rewrite !forallb_app, Da, Db, Dc. repeat split; assumption.
  - rewrite E1, <- !app_assoc. reflexivity.
Qed.

(** A pattern that ends in a group around [R] captures what [R] consumes. *)
Lemma group1_captures (R : regex) (P : str -> Prop) (st res : mstate) :
  consumes R P ->
  rmatch (Group 1 R) st Some = Some res ->
  exists d, P d /\ assoc 1 (caps res) = Some d.
Proof.
  intros HR H. cbn [rmatch] in H. apply HR in H.
  destruct H as (d & s' & pv' & Hd & E & H). injection H as <-.
  exists d. split; [exact Hd|]. cbn [caps set_group assoc Nat.eqb].
  unfold span. cbn [rest]. rewrite E, length_app.
  replace (length d + length s' - length s')%nat with (length d) by lia.
  rewrite take_app_length. reflexivity.
Qed.

Lemma captures_group1 (R : regex) (P : str -> Prop) :
  consumes R P -> captures (Group 1 R) P.
Proof.
  intros HR pv s pos m H. apply attempt_rmatch in H.
  destruct H as (st1 & H & Hc & _).
  destruct (group1_captures R P _ _ HR H) as (d & Hd & Hg).
  exists d. split; [exact Hd|]. unfold m_group. rewrite Hc. exact Hg.
Qed.

Lemma captures_seq_group1 (A R : regex) (P : str -> Prop) :
  consumes R P -> captures (Seq A (Group 1 R)) P.
Proof.
  intros HR pv s pos m H. apply attempt_rmatch in H.
  destruct H as (st1 & H & Hc & _). cbn [rmatch] in H.
  apply rmatch_onward in H. destruct H as (st' & H & _).
  destruct (group1_captures R P _ _ HR H) as (d & Hd & Hg).
  exists d. split; [exact Hd|]. unfold m_group. rewrite Hc. exact Hg.
Qed.

Lemma matches_from_attempt (r : regex) (s : str) :
  forall skip pv pos m,
    In m (matches_from r skip pv s pos) ->
    exists pv' s' pos', attempt r pv' s' pos' = Some m.
Proof.
  induction s as [|c s IH]; intros skip pv pos m; cbn [matches_from].
  - destruct skip; [|intros []].
    destruct (attempt r pv [] pos) as [m'|] eqn:E; [|intros []].
    intros [<-|[]]. eauto.
  - destruct skip as [|skip]; [|apply IH].
    destruct (attempt r pv (c :: s) pos) as [m'|] eqn:E; [|apply IH].
    intros [<-|H]; [eauto | apply IH in H; exact H].
Qed.

(** What [re.findall] and [re.search] return for a capturing pattern *)
Lemma findall_captures (r : regex) (P : str -> Prop) (text d : str) :
  captures r P -> In d (findall r 1 text) -> P d.
Proof.
  intros Hr Hd. unfold findall in Hd. apply list_elem_of_In in Hd.
  apply list_elem_of_omap in Hd. destruct Hd as (m & Hm & Hg).
  apply list_elem_of_In in Hm. unfold finditer in Hm.
  apply matches_from_attempt in Hm. destruct Hm as (pv & s & pos & Hm).
  destruct (Hr _ _ _ _ Hm) as (d' & Hd' & Hg'). congruence.
Qed.

Lemma search_captures (r : regex) (P : str -> Prop) (text : str) (m : mres) :
  captures r P -> re_search r text = Some m -> P (group1 m).
Proof.
  intros Hr H. unfold re_search in H. apply search_from_attempt in H.
  destruct H as (a & pv & s & pos & _ & H).
  destruct (Hr _ _ _ _ H) as (d & Hd & Hg). unfold group1. rewrite Hg. exact Hd.
Qed.

Lemma digit_not_space (c : ascii) : is_digit c = true -> is_space c = false.
Proof. destruct c as [[] [] [] [] [] [] [] []]; vm_compute; congruence. Qed.

(** A date-shaped text has ten characters, none of them white space, so
    that [strip] returns it as it is. *)
Lemma date_shaped_plain (d : str) :
  date_shaped d ->
  length d = 10%nat /\ Forall (fun x => is_space x = false) d.
Proof.
  assert (HF : forall l : str, forallb is_digit l = true ->
                               Forall (fun x => is_space x = false) l).
  { intros l Hl. apply List.Forall_forall. intros x Hx.
    rewrite forallb_forall in Hl. apply digit_not_space, Hl, Hx. }
  intros [(a & b & c & -> & La & Lb & Lc & D) | (a & b & c & -> & La & Lb & Lc & D)];
    rewrite !forallb_app, !andb_true_iff in D; destruct D as (Da & Db & Dc);
    (split; [rewrite !length_app; simpl; lia|]);
    repeat (apply Forall_app; split); auto;
    repeat constructor.
Qed.

Lemma strip_date_shaped (d : str) : date_shaped d -> strip d = d.
Proof. intros H. apply strip_plain, date_shaped_plain, H. Qed.

Lemma expiry_patterns_capture (pattern : regex) :
  In pattern expiry_patterns -> captures pattern date_shaped.
Proof.
  assert (Hd : consumes dmy date_shaped).
  { intros st k res H. destruct (consumes_dmy _ _ _ H) as (d & s' & pv' & Pd & R).
    exists d, s', pv'. split; [left; exact Pd | exact R]. }
  assert (Hy : consumes ymd date_shaped).
  { intros st k res H. destruct (consumes_ymd _ _ _ H) as (d & s' & pv' & Pd & R).
    exists d, s', pv'. split; [right; exact Pd | exact R]. }
  unfold expiry_patterns. cbn [In].
  intros H. repeat (destruct H as [<- | H];
    [first [apply (captures_seq_group1 _ dmy), Hd
           | apply (captures_seq_group1 _ ymd), Hy] |]).
  destruct H.
Qed.

Lemma issue_patterns_capture (pattern : regex) :
  In pattern issue_patterns -> captures pattern date_shaped.
Proof.
  assert (Hd : consumes dmy date_shaped).
  { intros st k res H. destruct (consumes_dmy _ _ _ H) as (d & s' & pv' & Pd & R).
    exists d, s', pv'. split; [left; exact Pd | exact R]. }
  assert (Hy : consumes ymd date_shaped).
  { intros st k res H. destruct (consumes_ymd _ _ _ H) as (d & s' & pv' & Pd & R).
    exists d, s', pv'. split; [right; exact Pd | exact R]. }
  unfold issue_patterns. cbn [In].
  intros H. repeat (destruct H as [<- | H];
    [first [apply (captures_seq_group1 _ dmy), Hd
           | apply (captures_seq_group1 _ ymd), Hy] |]).
  destruct H.
Qed.

Lemma findall_dmy_shaped (text d : str) :
  In d (findall (Group 1 dmy) 1 text) -> shaped_dmy d.
Proof. apply findall_captures, captures_group1, consumes_dmy. Qed.

Lemma findall_ymd_shaped (text d : str) :
  In d (findall (Group 1 ymd) 1 text) -> shaped_ymd d.
Proof. apply findall_captures, captures_group1, consumes_ymd. Qed.

Lemma last_In {A : Type} (l : list A) (x : A) : last l = Some x -> In x l.
Proof. intros H. apply list_elem_of_In, last_Some_elem_of, H. Qed.

(** The shape of a date that one of the two extractors returns *)
Lemma extracted_date_shape (text d : str) :
  extract_expiry_date text = Some d \/ extract_issue_date text = Some d ->
  date_shaped d /\ length d = 10%nat.
Proof.
  intros H. assert (Hs : date_shaped d); [|split; [exact Hs|apply date_shaped_plain, Hs]].
  destruct H as [H|H].
  - unfold extract_expiry_date in H.
    destruct (expiry_by_label _) as [x|] eqn:E.
    + injection H as ->. unfold expiry_by_label in E.
      apply first_some_Some in E. destruct E as (pattern & Hp & E).
      apply first_some_Some in E. destruct E as (m & Hm & E).
      pose proof (findall_captures _ _ _ _ (expiry_patterns_capture _ Hp) Hm) as Sm.
      rewrite (strip_date_shaped _ Sm) in E.
      destruct (looks_like_date m); [|discriminate E]. injection E as <-. exact Sm.
    + unfold expiry_fallback in H.
      set (slash := findall (Group 1 dmy) 1 _) in *.
      set (dash := findall (Group 1 ymd) 1 _) in *.
      destruct slash as [|s0 slash'] eqn:Es.
      * right. apply (findall_ymd_shaped (_fix_pdf_dates text)). fold dash.
        apply last_In, H.
      * left. apply (findall_dmy_shaped (_fix_pdf_dates text)). fold slash.
        rewrite Es.
        destruct (all_some _ (s0 :: slash')) as [objs|] eqn:Ho.
        -- destruct (last (sort_by _ objs)) as [[dt s]|] eqn:El; [|discriminate H].
           injection H as <-. apply last_In in El. apply sort_by_In in El.
           destruct (all_some_In _ _ _ Ho) as [Hback _].
           destruct (Hback _ El) as (x & Hx & Hpx).
           destruct (strptime_dmy x); [|discriminate Hpx].
           injection Hpx as _ <-. exact Hx.
        -- apply last_In, H.
  - unfold extract_issue_date in H.
    destruct (first_some _ issue_patterns) as [x|] eqn:E.
    + injection H as ->. apply first_some_Some in E.
      destruct E as (pattern & Hp & E).
      destruct (re_search pattern _) as [m|] eqn:Em; [|discriminate E].
      pose proof (search_captures _ _ _ _ (issue_patterns_capture _ Hp) Em) as Sm.
      rewrite (strip_date_shaped _ Sm) in E.
      destruct (looks_like_date _); [|discriminate E]. injection E as <-. exact Sm.
    + apply first_some_Some in H. destruct H as (line & _ & H).
      unfold issue_date_of_line in H.
      destruct (searches _ line); [|discriminate H].
      destruct (findall (Group 1 dmy) 1 line) as [|d0 l] eqn:Ed.
      * right. apply (findall_ymd_shaped line).
        destruct (findall (Group 1 ymd) 1 line); [discriminate H|].
        injection H as <-. left. reflexivity.
      * injection H as <-. left. apply (findall_dmy_shaped line).
        rewrite Ed. left. reflexivity.
Qed.

(** Whatever [extract_expiry_date] and [extract_issue_date] return is a
    text of ten characters of the shape DD/MM/YYYY or YYYY-MM-DD, two,
    two and four digits around the separators: never an empty or a
    padded string, never a date with a one-digit day. *)
Theorem extracted_dates_are_shaped (text d : str) :
  extract_expiry_date text = Some d \/ extract_issue_date text = Some d ->
  date_shaped d /\ length d = 10%nat.
Proof. exact (extracted_date_shape text d). Qed.

Lemma extracted_dates_are_shaped_witness :
  extract_expiry_date certificate = Some ("13/12/2025" : str)
  /\ date_shaped "13/12/2025" /\ length ("13/12/2025" : str) = 10%nat.
Proof.
  assert (H : extract_expiry_date certificate = Some ("13/12/2025" : str))
    by (vm_compute; reflexivity).
  split; [exact H|].
  exact (extracted_dates_are_shaped certificate "13/12/2025" (or_introl H)).
Defined.

(** ** What the format check establishes *)

(** [check_expiry] leaves the list of issues empty only for an expiry
    date that is extracted, parses and has not passed, and only when
    every issue queued before speaks of a missing date. *)
Lemma check_expiry_nil (w : World) (fixed : str) (issues : list str) :
  check_expiry w fixed issues = [] ->
  (forall i, In i issues -> contains "Issue or expiry date not found" i = true)
  /\ exists d dt, extract_expiry_date fixed = Some d /\ parse_date d = Some dt
                  /\ dt_gtb (now w) dt = false.
Proof.
  unfold check_expiry.
  destruct (extract_expiry_date fixed) as [d|] eqn:Ed.
  2: { cbn [truthy]. destruct (negb _) eqn:E.
       - intros H. apply app_eq_nil in H. destruct H as [_ [=]].
       - intros ->. discriminate E. }
  destruct (truthy (Some d)) eqn:Td.
  2: { destruct (negb _) eqn:E.
       - intros H. apply app_eq_nil in H. destruct H as [_ [=]].
       - intros ->. discriminate E. }
  change (default [] (Some d)) with d.
  destruct (parse_date d) as [dt|] eqn:Ep.
  2: { intros H. apply app_eq_nil in H. destruct H as [_ [=]]. }
  destruct (dt_gtb (now w) dt) eqn:Eg.
  { intros H. apply app_eq_nil in H. destruct H as [_ [=]]. }
  intros H. split; [|exists d, dt; auto].
  destruct (existsb _ issues) eqn:Ex.
  - intros i Hi. destruct (contains _ i) eqn:Ci; [reflexivity|]. exfalso.
    assert (Hf : i ∈ filter (fun issue =>
                   negb (contains "Issue or expiry date not found" issue)) issues).
    { apply list_elem_of_filter. split; [rewrite Ci; reflexivity|].
      apply list_elem_of_In, Hi. }
    rewrite H in Hf. inversion Hf.
  - subst issues. intros i [].
Qed.

(** A license number that is returned is 14 digits. *)
Lemma extract_license_number_digits (text number : str) :
  extract_license_number text = Some number -> digits14 number.
Proof.
  intros H. unfold extract_license_number in H.
  apply first_some_Some in H. destruct H as ([pattern groups] & Hin & H).
  destruct (re_search pattern text) as [m|] eqn:E; [|discriminate H].
  cbn [mbind option_bind] in H. unfold license_of_match in H.
  destruct (re_match exactly_14_digits _); [|discriminate H].
  injection H as <-.
  unfold license_patterns in Hin. cbn [In] in Hin.
  destruct Hin as [Hp | [Hp | [Hp | [Hp | []]]]]; injection Hp as <- <-;
    try (apply (label_capture _ _ _ E)).
  unfold re_search in E. apply search_from_attempt in E.
  destruct E as (a & pv & s & pos & _ & E). rewrite attempt_generic in E.
  destruct (_ && _ && _) eqn:C; [|discriminate E]. injection E as <-.
  apply andb_true_iff in C. destruct C as [C _].
  apply andb_true_iff in C. destruct C as [_ C].
  apply andb_true_iff in C. destruct C as [L D].
  apply Nat.leb_le in L. cbn [m_group0].
  split; [rewrite length_take; lia | exact D].
Qed.

(** A document without the literal "20819019000744" whose format is
    answered "verified" has, in its text with the years repaired: a
    license number, which is 14 digits when the text is of ASCII
    characters, a business name, the word "address", and an expiry date
    that parses and has not passed. *)
Theorem verified_format_means (w : World) (path : str) :
  let text := extract_text_from_document w path in
  let fixed := _fix_pdf_dates text in
  contains "20819019000744" text = false ->
  check_fssai_format w path !! "status" = Some (VStr "verified") ->
  (exists number, extract_license_number fixed = Some number
                  /\ (ascii_only text -> digits14 number))
  /\ (exists business_name, extract_name_from_fssai fixed = Some business_name)
  /\ searches (lit "address") fixed = true
  /\ exists d dt,
       extract_expiry_date fixed = Some d /\ parse_date d = Some dt
       /\ dt_gtb (now w) dt = false.
Proof.
  intros text fixed Hlit. unfold check_fssai_format. fold text.
  destruct (nonempty text); cbn [negb]; [|intros H; discriminate H].
  rewrite Hlit. cbv zeta. fold fixed.
  destruct (check_expiry w fixed _) as [|i l] eqn:Hc; [|intros H; discriminate H].
  intros _. apply check_expiry_nil in Hc. destruct Hc as [Hall Hexp].
  destruct (truthy (extract_license_number fixed)) eqn:Hl,
           (truthy (extract_name_from_fssai fixed)) eqn:Hb,
           (searches (lit "address") fixed) eqn:Ha,
           (nonempty (findall (Group 1 dmy) 1 fixed
                      ++ findall (Group 1 ymd) 1 fixed));
    cbn [negb app] in Hall;
    try (exfalso;
         first [ specialize (Hall ("No 14-digit license number found" : str)
                               ltac:(cbn [In]; auto 10))
               | specialize (Hall ("Business name not found" : str)
                               ltac:(cbn [In]; auto 10))
               | specialize (Hall ("Address information not found" : str)
                               ltac:(cbn [In]; auto 10)) ];
         vm_compute in Hall; discriminate Hall).
  all: split; [|split; [|split; [reflexivity | exact Hexp]]].
  all: try (destruct (extract_license_number fixed) as [n|] eqn:En;
            [|discriminate Hl];
            exists n; split; [reflexivity
                            | intros _; apply (extract_license_number_digits _ _ En)]).
  all: destruct (extract_name_from_fssai fixed) as [b|]; [|discriminate Hb];
       exists b; reflexivity.
Qed.

Lemma verified_format_means_witness :
  contains "20819019000744" (extract_text_from_document state_license_world "doc.pdf")
  = false
  /\ check_fssai_format state_license_world "doc.pdf" !! "status"
     = Some (VStr "verified")
  /\ exists d dt,
       extract_expiry_date
         (_fix_pdf_dates (extract_text_from_document state_license_world "doc.pdf"))
       = Some d
       /\ parse_date d = Some dt /\ dt_gtb (now state_license_world) dt = false.
Proof.
  assert (H1 : contains "20819019000744"
                 (extract_text_from_document state_license_world "doc.pdf") = false)
    by (vm_compute; reflexivity).
  assert (H2 : check_fssai_format state_license_world "doc.pdf" !! "status"
               = Some (VStr "verified")) by (vm_compute; reflexivity).
  split; [exact H1 | split; [exact H2|]].
  exact (proj2 (proj2 (proj2 (verified_format_means state_license_world "doc.pdf"
                                H1 H2)))).
Defined.



(** ** The results of [verify_producer] *)

(** The shapes of a result of [verify_producer] *)
Lemma verify_producer_shape (w : World) (name path aadhar : str)
    (income : pyfloat) (r : dict) :
  verify_producer w name path income aadhar = Returns r ->
  (r !! "status" = Some (VStr "success") /\ r !! "stage" = None
   /\ r !! "message" = Some (VStr "Producer verified successfully"))
  \/ (r !! "status" = Some (VStr "failed")
      /\ (exists message, r !! "message" = Some (VStr message) /\ message <> [])
      /\ ((r !! "stage" = Some (VStr "name_verification")
           /\ r !! "details" = verify_names w name path !! "details"
           /\ is_Some (r !! "details"))
          \/ r !! "stage" = Some (VStr "certificate_type")
          \/ r !! "stage" = Some (VStr "certificate_match")
          \/ (r !! "stage" = Some (VStr "format_verification")
              /\ exists issues, r !! "issues" = Some (VStrs issues)
                                /\ issues <> []))).
Proof.
  unfold verify_producer.
  destruct (is_str (verify_names w name path) "status" "verified") eqn:Hv;
    cbn [negb].
  2: { intros [= <-]. right. split; [reflexivity|].
       destruct (verify_names_shape w name path)
         as (_ & _ & _ & (msg & Hm & Hne) & Hd).
       split; [exists msg; split; [|exact Hne]|].
       - rewrite lookup_insert_ne, lookup_insert_ne, lookup_insert_eq by discriminate.
         unfold item. rewrite Hm. reflexivity.
       - left. split; [reflexivity|].
         assert (Hd' : is_Some (verify_names w name path !! "details")).
         { destruct Hd as [-> | (b & _ & ->)]; eexists; reflexivity. }
         destruct Hd' as [d Hd'].
         rewrite !lookup_insert_ne, lookup_singleton_eq by discriminate.
         unfold item. rewrite Hd'. split; [reflexivity | eexists; reflexivity]. }
  destruct (verify_names_verified _ _ _ Hv) as (b & Htext & _ & _ & Hget).
  rewrite Hget, Htext. cbn [negb]. cbv zeta.
  destruct (negb (truthy _)).
  { intros [= <-]. right. split; [reflexivity|].
    split; [eexists; split; [reflexivity | discriminate]|].
    right. left. reflexivity. }
  destruct (_ && _).
  { intros [= <-]. right. split; [reflexivity|].
    split; [eexists; split; [reflexivity | discriminate]|].
    right. right. left. reflexivity. }
  destruct (_ && _).
  { intros [= <-]. right. split; [reflexivity|].
    split; [eexists; split; [reflexivity | discriminate]|].
    right. right. left. reflexivity. }
  destruct (is_str (check_fssai_format w path) "status" "verified") eqn:Hf;
    cbn [negb].
  2: { intros [= <-]. right. split; [reflexivity|].
       destruct (check_fssai_format_shape w path) as (Hs & Hi & Hiff).
       assert (Hrej : check_fssai_format w path !! "status"
                      = Some (VStr "rejected")).
       { destruct Hs as [Hs|Hs]; [|exact Hs].
         unfold is_str in Hf. rewrite Hs in Hf. discriminate Hf. }
       assert (Hmsg : check_fssai_format w path !! "message"
                      = Some (VStr "FSSAI document format issues found")
                      \/ check_fssai_format w path !! "message"
                         = Some (VStr "Could not read FSSAI document")).
       { revert Hrej. unfold check_fssai_format.
         destruct (nonempty _); cbn [negb]; [|right; reflexivity].
         destruct (contains _ _); [intros H; discriminate H|].
         cbv zeta. destruct (nonempty _); [left; reflexivity|].
         intros H; discriminate H. }
       split.
       - unfold item.
         rewrite lookup_insert_ne, lookup_insert_ne, lookup_insert_eq by discriminate.
         destruct Hmsg as [-> | ->]; eexists; (split; [reflexivity | discriminate]).
       - right. right. right. split; [reflexivity|].
         exists (issues_of (check_fssai_format w path)).
         rewrite !lookup_insert_ne, lookup_singleton_eq by discriminate.
         unfold item. rewrite Hi. split; [reflexivity|].
         intros E. apply Hiff in E. rewrite Hrej in E. discriminate E. }
  destruct (backfill_issue_date _ _); [|discriminate].
  intros [= <-]. left. repeat split.
Qed.

(** A failed result names one of four stages and explains itself; a
    failure of the format stage carries the list of issues, which is not
    empty; a failure of the name stage carries the details of
    [verify_names].  A successful result names no stage. *)
Theorem verify_producer_results (w : World) (name path aadhar : str)
    (income : pyfloat) (r : dict) :
  verify_producer w name path income aadhar = Returns r ->
  (r !! "status" = Some (VStr "success") /\ r !! "stage" = None
   /\ r !! "message" = Some (VStr "Producer verified successfully"))
  \/ (r !! "status" = Some (VStr "failed")
      /\ (exists message, r !! "message" = Some (VStr message) /\ message <> [])
      /\ ((r !! "stage" = Some (VStr "name_verification")
           /\ r !! "details" = verify_names w name path !! "details"
           /\ is_Some (r !! "details"))
          \/ r !! "stage" = Some (VStr "certificate_type")
          \/ r !! "stage" = Some (VStr "certificate_match")
          \/ (r !! "stage" = Some (VStr "format_verification")
              /\ exists issues, r !! "issues" = Some (VStrs issues)
                                /\ issues <> []))).
Proof. apply verify_producer_shape. Qed.

(** A request that is stopped by the format check: the result *)
Lemma verify_producer_format_failure (w : World) (name path aadhar : str)
    (income : pyfloat) (actual : str) :
  let text := extract_text_from_document w path in
  is_str (verify_names w name path) "status" "verified" = true ->
  extract_certificate_type text = Some actual ->
  str_eqb (expected_type income) "registration"
    && negb (str_eqb actual "registration") = false ->
  str_eqb (expected_type income) "license"
    && str_eqb actual "registration" = false ->
  is_str (check_fssai_format w path) "status" "verified" = false ->
  verify_producer w name path income aadhar
  = Returns {[ "status" := VStr "failed";
               "stage" := VStr "format_verification";
               "message" := item (check_fssai_format w path) "message";
               "issues" := item (check_fssai_format w path) "issues" ]}.
Proof.
  intros text Hv Ha H1 H2 Hf. subst text.
  destruct (verify_names_verified _ _ _ Hv) as (b & Htext & _ & _ & Hget).
  unfold verify_producer. rewrite Hv, Hget, Htext, Ha.
  rewrite (certificate_type_truthy _ _ Ha). cbn [negb]. cbv iota zeta.
  change (default [] (Some actual)) with actual.
  rewrite H1, H2, Hf. reflexivity.
Qed.

Lemma verify_producer_results_witness :
  exists r : dict,
    verify_producer expired_world "KINGS ROLL" "doc.pdf" (float_of_Z 11000)
      "442125846000" = Returns r
    /\ r !! "status" = Some (VStr "failed")
    /\ exists message, r !! "message" = Some (VStr message) /\ message <> [].
Proof.
  assert (Hr := verify_producer_format_failure expired_world "KINGS ROLL"
                  "doc.pdf" "442125846000" (float_of_Z 11000) "registration").
  cbv zeta in Hr.
  repeat (lapply Hr; [clear Hr; intros Hr | vm_compute; reflexivity]).
  eexists. split; [exact Hr|].
  destruct (verify_producer_results _ _ _ _ _ _ Hr)
    as [(Hs & _) | (Hs & Hm & _)].
  - rewrite lookup_insert_eq in Hs. discriminate Hs.
  - split; [exact Hs | exact Hm].
Defined.

Ltac lookups :=
  repeat (rewrite lookup_insert_eq || rewrite lookup_singleton_eq
          || rewrite lookup_insert_ne by discriminate).

(** A successful result vouches for every stage: the name of the document
    equals the given name up to case and surrounding white space, and both
    are reported; the class found in the document is reported, and it is
    "registration" exactly when the income is below 1,200,000; the format
    check found no issue, and its result is passed on. *)
Theorem success_vouches_for_every_stage (w : World) (name path aadhar : str)
    (income : pyfloat) (r : dict) :
  verify_producer w name path income aadhar = Returns r ->
  r !! "status" = Some (VStr "success") ->
  let text := extract_text_from_document w path in
  exists business actual : str,
    extract_name_from_fssai text = Some business
    /\ names_match name business = true
    /\ r !! "name_details"
       = Some (VDict {[ "provided_name" := VStr name;
                        "business_name" := VStr business ]})
    /\ extract_certificate_type text = Some actual
    /\ r !! "certificate_type" = Some (VStr actual)
    /\ (actual = "registration"
        <-> float_ltb income (float_of_Z 1200000) = true)
    /\ issues_of (check_fssai_format w path) = []
    /\ r !! "format_details" = Some (VDict (check_fssai_format w path)).
Proof.
  intros Hr Hs text. subst text. revert Hr. unfold verify_producer.
  destruct (is_str (verify_names w name path) "status" "verified") eqn:Hv;
    cbn [negb].
  2: { intros [= <-]. discriminate Hs. }
  destruct (verify_names_verified _ _ _ Hv) as (b & Htext & Hname & Hm & Hget).
  rewrite Hget, Htext. cbn [negb]. cbv zeta.
  destruct (extract_certificate_type _) as [actual|] eqn:Ha.
  2: { intros [= <-]. discriminate Hs. }
  rewrite (certificate_type_truthy _ _ Ha). cbn [negb].
  change (default [] (Some actual)) with actual.
  destruct (_ && _) eqn:E1; [intros [= <-]; discriminate Hs|].
  destruct (str_eqb _ "license" && _) eqn:E2; [intros [= <-]; discriminate Hs|].
  destruct (is_str (check_fssai_format w path) "status" "verified") eqn:Hf;
    cbn [negb].
  2: { intros [= <-]. discriminate Hs. }
  destruct (backfill_issue_date _ _) as [issue|e]; [|discriminate].
  intros [= <-]. exists b, actual.
  split; [exact Hname|]. split; [exact Hm|].
  split.
  { lookups. f_equal. revert Hv. unfold verify_names, is_str, item.
    rewrite Htext, Hname. cbn [negb].
    destruct (truthy (Some b)); cbn [negb].
    2: { lookups. intros H; discriminate H. }
    change (default [] (Some b)) with b. rewrite Hm. intros _.
    lookups. reflexivity. }
  split; [reflexivity|]. split; [lookups; reflexivity|].
  split.
  { unfold expected_type in E1, E2.
    destruct (float_ltb income (float_of_Z 1200000));
      destruct (str_eqb actual "registration") eqn:E;
      try (vm_compute in E1; discriminate E1);
      try (vm_compute in E2; discriminate E2).
    - apply str_eqb_eq in E. split; auto.
    - split; [|discriminate]. intros ->. vm_compute in E. discriminate E. }
  destruct (check_fssai_format_shape w path) as (Hst & _ & Hiff).
  split; [|lookups; reflexivity].
  apply Hiff. destruct Hst as [Hst|Hst]; [exact Hst|].
  unfold is_str in Hf. rewrite Hst in Hf. discriminate Hf.
Qed.

Lemma success_vouches_for_every_stage_witness :
  exists r : dict,
    verify_producer certificate_world "Kings Roll" "doc.pdf" (float_of_Z 11000)
      "442125846000" = Returns r
    /\ r !! "certificate_type" = Some (VStr "registration")
    /\ issues_of (check_fssai_format certificate_world "doc.pdf") = [].
Proof.
  destruct (verify_producer_success certificate_world "Kings Roll" "doc.pdf"
              (float_of_Z 11000) "442125846000" "registration"
              (Some ("14/12/2020" : str)))
    as (r & Hr & Hs & _); try (vm_compute; reflexivity).
  exists r. split; [exact Hr|].
  destruct (success_vouches_for_every_stage _ _ _ _ _ _ Hr Hs)
    as (b & actual & _ & _ & _ & Ha & Hc & _ & Hi & _).
  assert (E : Some actual = Some ("registration" : str))
    by (rewrite <- Ha; vm_compute; reflexivity).
  injection E as ->.
  split; [exact Hc | exact Hi].
Defined.

(** The row that a successful run offers to the store is the same
    whatever the store does with it, and it agrees with the result: the
    caller's aadhar, name and income, the license number of the document,
    and the pin, class, dates and address that the result reports.  Its
    business type is a string, empty when the document names none. *)
Theorem stored_row_agrees_with_result (w : World) (name path aadhar : str)
    (income : pyfloat) (r : dict) :
  verify_producer w name path income aadhar = Returns r ->
  r !! "status" = Some (VStr "success") ->
  let text := extract_text_from_document w path in
  exists row : dict,
    (forall u, verify_producer (with_upsert w u) name path income aadhar
               = Returns (<["data_stored" := VBool (u row)]> r))
    /\ row !! "aadhar" = Some (VStr aadhar)
    /\ row !! "name" = Some (VStr name)
    /\ row !! "annual_income" = Some (VFloat income)
    /\ row !! "fssai_license_number"
       = Some (of_opt (extract_license_number text))
    /\ row !! "business_type"
       = Some (VStr (default [] (extract_business_type text)))
    /\ row !! "pin" = r !! "pin"
    /\ row !! "certificate_type" = r !! "certificate_type"
    /\ row !! "issue_date" = r !! "issue_date"
    /\ row !! "expiry_date" = r !! "expiry_date"
    /\ row !! "address" = r !! "address".
Proof.
  intros Hr Hs text. subst text. revert Hr. unfold verify_producer.
  destruct (is_str (verify_names w name path) "status" "verified") eqn:Hv;
    cbn [negb].
  2: { intros [= <-]. discriminate Hs. }
  destruct (verify_names_verified _ _ _ Hv) as (b & Htext & Hname & Hm & Hget).
  rewrite Hget, Htext. cbn [negb]. cbv zeta.
  destruct (negb (truthy _)) eqn:E0; [intros [= <-]; discriminate Hs|].
  destruct (_ && _) eqn:E1; [intros [= <-]; discriminate Hs|].
  destruct (str_eqb _ "license" && _) eqn:E2; [intros [= <-]; discriminate Hs|].
  destruct (is_str (check_fssai_format w path) "status" "verified") eqn:Hf;
    cbn [negb].
  2: { intros [= <-]. discriminate Hs. }
  destruct (backfill_issue_date _ _) as [issue|e] eqn:Eb; [|discriminate].
  intros [= <-]. eexists. split.
  { intros u. unfold verify_producer.
    change (verify_names (with_upsert w u) name path)
      with (verify_names w name path).
    change (check_fssai_format (with_upsert w u) path)
      with (check_fssai_format w path).
    cbn [upsert with_upsert randint rupees].
    rewrite Hv, Hget, Htext. cbn [negb]. cbv zeta.
    rewrite E0, E1, E2, Hf, Eb. cbn [negb].
    symmetry.
    rewrite !(insert_insert_ne _ "data_stored") by discriminate.
    rewrite insert_singleton_eq. reflexivity. }
  repeat split; lookups; try reflexivity.
  f_equal. f_equal.
  destruct (extract_business_type _) as [[|c bt]|]; reflexivity.
Qed.

Lemma stored_row_agrees_with_result_witness :
  exists r row : dict,
    verify_producer certificate_world "Kings Roll" "doc.pdf" (float_of_Z 11000)
      "442125846000" = Returns r
    /\ row !! "aadhar" = Some (VStr "442125846000")
    /\ row !! "pin" = r !! "pin".
Proof.
  destruct (verify_producer_success certificate_world "Kings Roll" "doc.pdf"
              (float_of_Z 11000) "442125846000" "registration"
              (Some ("14/12/2020" : str)))
    as (r & Hr & Hs & _); try (vm_compute; reflexivity).
  destruct (stored_row_agrees_with_result _ _ _ _ _ _ Hr Hs)
    as (row & _ & Ha & _ & _ & _ & _ & Hp & _).
  exists r, row. split; [exact Hr|]. split; [exact Ha | exact Hp].
Defined.



(** ** The exception of the back-fill *)

Lemma type_agrees (income : pyfloat) (actual : str) :
  (str_eqb (expected_type income) "registration"
     && negb (str_eqb actual "registration") = false
   /\ str_eqb (expected_type income) "license"
        && str_eqb actual "registration" = false)
  <-> (actual = "registration"
       <-> float_ltb income (float_of_Z 1200000) = true).
Proof.
  unfold expected_type.
  destruct (float_ltb income (float_of_Z 1200000));
    destruct (str_eqb actual "registration") eqn:E.
  - apply str_eqb_eq in E. split; [tauto|]. intros _. split; reflexivity.
  - split; [intros [H _]; vm_compute in H; discriminate H|].
    intros [_ H]. specialize (H eq_refl). subst actual.
    vm_compute in E. discriminate E.
  - apply str_eqb_eq in E.
    split; [intros [_ H]; vm_compute in H; discriminate H|].
    intros [H _]. specialize (H E). discriminate H.
  - split; [|intros _; split; reflexivity]. intros _.
    split; [|discriminate]. intros ->. vm_compute in E. discriminate E.
Qed.

Lemma make_date_ordinal (y m d : Z) (dt : datetime) :
  make_date y m d = Some dt -> (toordinal dt - 1825 <= 3652059)%Z.
Proof.
  unfold make_date.
  destruct (_ && _) eqn:B; [|discriminate]. intros [= <-].
  repeat (apply andb_true_iff in B; destruct B as [B ?]).
  repeat match goal with
         | H : (_ <=? _)%Z = true |- _ => apply Z.leb_le in H
         end.
  unfold toordinal, _ymd2ord, _days_before_year, _days_before_month.
  cbn [year month day]. cbv zeta.
  assert (Hd : (d <= 31)%Z).
  { revert H. unfold _days_in_month, _DAYS_IN_MONTH.
    destruct ((m =? 2)%Z && _is_leap y); [lia|].
    assert (Hm : (m = 1 \/ m = 2 \/ m = 3 \/ m = 4 \/ m = 5 \/ m = 6 \/ m = 7
                  \/ m = 8 \/ m = 9 \/ m = 10 \/ m = 11 \/ m = 12)%Z) by lia.
    decompose [or] Hm; subst m; lia. }
  assert (Hb : (_DAYS_BEFORE_MONTH m
                + (if (2 <? m)%Z && _is_leap y then 1 else 0) <= 335)%Z).
  { assert (Hm : (m = 1 \/ m = 2 \/ m = 3 \/ m = 4 \/ m = 5 \/ m = 6 \/ m = 7
                  \/ m = 8 \/ m = 9 \/ m = 10 \/ m = 11 \/ m = 12)%Z) by lia.
    destruct ((2 <? m)%Z && _is_leap y);
      decompose [or] Hm; subst m; cbn [_DAYS_BEFORE_MONTH]; lia. }
  assert (H4 : ((y - 1) / 4 < 2500)%Z)
    by (apply Z.div_lt_upper_bound; lia).
  assert (H100 : ((y - 1) / 400 <= (y - 1) / 100)%Z).
  { apply Z.div_le_compat_l; lia. }
  lia.
Qed.

Lemma parse_date_ordinal (d : str) (dt : datetime) :
  parse_date d = Some dt -> (toordinal dt - 1825 <= 3652059)%Z.
Proof.
  unfold parse_date, strptime_dmy, strptime_ymd, strptime_with.
  destruct (contains "/" d);
    (destruct (re_match _ d) as [found|]; [|discriminate]);
    (destruct (_ =? _)%nat; [|discriminate]);
    apply make_date_ordinal.
Qed.

Lemma minus_days_overflow (d : str) (dt : datetime) :
  parse_date d = Some dt ->
  minus_days dt (365 * 5) = None <-> (toordinal dt <= 1825)%Z.
Proof.
  intros Hp. apply parse_date_ordinal in Hp. unfold minus_days. cbv zeta.
  destruct (1 <=? toordinal dt - 365 * 5)%Z eqn:B1;
    destruct (toordinal dt - 365 * 5 <=? 3652059)%Z eqn:B2; cbn [andb];
    try apply Z.leb_le in B1; try apply Z.leb_gt in B1;
    try apply Z.leb_le in B2; try apply Z.leb_gt in B2.
  - destruct (_ord2ymd _) as [[y m] dd]. split; [discriminate | lia].
  - lia.
  - split; [lia | reflexivity].
  - lia.
Qed.

(** [verify_producer] ends in an exception, the [OverflowError] of the
    back-fill, exactly when every stage passes, the document shows no date
    of issue, and its date of expiry parses to one of the first 1825 days
    of the calendar, so that five times 365 days before it there is no
    date. *)
Theorem overflow_of_the_backfill (w : World) (name path aadhar : str)
    (income : pyfloat) (e : pyexn) :
  let text := extract_text_from_document w path in
  verify_producer w name path income aadhar = Raises e
  <-> is_str (verify_names w name path) "status" "verified" = true
      /\ (exists actual : str,
            extract_certificate_type text = Some actual
            /\ (actual = "registration"
                <-> float_ltb income (float_of_Z 1200000) = true))
      /\ is_str (check_fssai_format w path) "status" "verified" = true
      /\ truthy (extract_issue_date text) = false
      /\ exists (d : str) (dt : datetime),
           extract_expiry_date text = Some d
           /\ parse_date d = Some dt
           /\ (toordinal dt <= 1825)%Z.
Proof.
  intros text. subst text. destruct e. split.
  - unfold verify_producer.
    destruct (is_str (verify_names w name path) "status" "verified") eqn:Hv;
      cbn [negb]; [|discriminate].
    destruct (verify_names_verified _ _ _ Hv) as (b & Htext & _ & _ & Hget).
    rewrite Hget, Htext. cbn [negb]. cbv zeta.
    destruct (extract_certificate_type _) as [actual|] eqn:Ha; [|discriminate].
    rewrite (certificate_type_truthy _ _ Ha). cbn [negb].
    change (default [] (Some actual)) with actual.
    destruct (str_eqb _ "registration" && _) eqn:E1; [discriminate|].
    destruct (str_eqb _ "license" && _) eqn:E2; [discriminate|].
    destruct (is_str (check_fssai_format w path) "status" "verified") eqn:Hf;
      cbn [negb]; [|discriminate].
    destruct (backfill_issue_date _ _) as [issue|e] eqn:Eb; [discriminate|].
    intros _. split; [reflexivity|].
    split; [exists actual; split; [reflexivity | apply type_agrees; auto]|].
    split; [reflexivity|].
    revert Eb. unfold backfill_issue_date.
    destruct (truthy (extract_issue_date _)); cbn [negb andb]; [discriminate|].
    destruct (extract_expiry_date _) as [d|]; [|discriminate].
    destruct (truthy (Some d)); [|discriminate].
    change (default [] (Some d)) with d.
    destruct (parse_date d) as [dt|] eqn:Hp; [|discriminate].
    destruct (minus_days dt (365 * 5)) eqn:Hm; [discriminate|].
    intros _. split; [reflexivity|]. exists d, dt.
    split; [reflexivity|]. split; [exact Hp|].
    apply (minus_days_overflow d dt Hp). exact Hm.
  - intros (Hv & (actual & Ha & Hty) & Hf & Hi & d & dt & Hd & Hp & Ho).
    destruct (verify_names_verified _ _ _ Hv) as (b & Htext & _ & _ & Hget).
    apply type_agrees in Hty. destruct Hty as [E1 E2].
    unfold verify_producer. rewrite Hv, Hget, Htext, Ha.
    rewrite (certificate_type_truthy _ _ Ha). cbn [negb]. cbv iota zeta.
    change (default [] (Some actual)) with actual.
    rewrite E1, E2, Hf. cbn [negb]. cbv iota.
    unfold backfill_issue_date. rewrite Hi, Hd.
    rewrite (parse_date_nonempty _ _ Hp). cbn [negb andb]. cbv iota.
    change (default [] (Some d)) with d. rewrite Hp.
    apply (minus_days_overflow d dt Hp) in Ho. rewrite Ho. reflexivity.
Qed.

Lemma overflow_of_the_backfill_witness :
  verify_producer ancient_world "KINGS ROLL" "doc.pdf" (float_of_Z 11000)
    "442125846000" = Raises OverflowError.
Proof.
  apply overflow_of_the_backfill.
  split; [vm_compute; reflexivity|].
  split; [exists ("registration" : str);
          split; [vm_compute; reflexivity | split; reflexivity]|].
  split; [vm_compute; reflexivity|].
  split; [vm_compute; reflexivity|].
  exists ("01/01/0003" : str), (DateTime 3 1 1 0).
  split; [vm_compute; reflexivity|].
  split; [vm_compute; reflexivity|].
  vm_compute. discriminate.
Defined.

(** ** Case and padding of the provided name *)

Lemma case_keeps_spaces (c : ascii) :
  is_space (upper_char c) = is_space c /\ is_space (lower_char c) = is_space c
  /\ lower_char (upper_char c) = lower_char c
  /\ lower_char (lower_char c) = lower_char c.
Proof.
  destruct c as [[] [] [] [] [] [] [] []]; vm_compute; repeat split.
Qed.

Lemma lstrip_map (f : ascii -> ascii) (s : str) :
  (forall c, is_space (f c) = is_space c) ->
  lstrip (map f s) = map f (lstrip s).
Proof.
  intros Hf. induction s as [|c s IH]; [reflexivity|].
  cbn [map lstrip]. rewrite Hf. destruct (is_space c); [exact IH | reflexivity].
Qed.

Lemma strip_map (f : ascii -> ascii) (s : str) :
  (forall c, is_space (f c) = is_space c) ->
  strip (map f s) = map f (strip s).
Proof.
  intros Hf. unfold strip, rstrip.
  rewrite (lstrip_map f s Hf), <- map_rev, (lstrip_map f _ Hf), map_rev.
  reflexivity.
Qed.

Lemma lstrip_spaces (pad s : str) :
  forallb is_space pad = true -> lstrip (pad ++ s) = lstrip s.
Proof.
  induction pad as [|c pad IH]; [reflexivity|]. cbn [forallb app lstrip].
  intros H. apply andb_true_iff in H. destruct H as [-> H]. exact (IH H).
Qed.

Lemma rstrip_spaces (pad s : str) :
  forallb is_space pad = true -> rstrip (s ++ pad) = rstrip s.
Proof.
  intros H. unfold rstrip. rewrite rev_app_distr, lstrip_spaces; [reflexivity|].
  rewrite forallb_forall in *. intros c Hc. apply H, in_rev, Hc.
Qed.

Lemma strip_spaces (pad1 pad2 s : str) :
  forallb is_space pad1 = true -> forallb is_space pad2 = true ->
  strip (pad1 ++ s ++ pad2) = strip s.
Proof.
  intros H1 H2. unfold strip. rewrite (lstrip_spaces pad1 _ H1).
  induction s as [|c s IH].
  - cbn [app]. rewrite <- (app_nil_r pad2), (lstrip_spaces pad2 [] H2).
    reflexivity.
  - cbn [app lstrip]. destruct (is_space c); [exact IH|].
    exact (rstrip_spaces pad2 (c :: s) H2).
Qed.

Lemma names_match_normal (a a' b : str) :
  lower (strip a') = lower (strip a) -> names_match a' b = names_match a b.
Proof. unfold names_match. cbv zeta. intros ->. reflexivity. Qed.

Lemma lower_upper (s : str) : lower (upper s) = lower s.
Proof.
  unfold lower, upper. rewrite map_map. apply map_ext.
  intros c. apply case_keeps_spaces.
Qed.

Lemma lower_lower (s : str) : lower (lower s) = lower s.
Proof.
  unfold lower. rewrite map_map. apply map_ext.
  intros c. apply case_keeps_spaces.
Qed.

(** The verdict on a name of ASCII characters does not depend on its case
    nor on white space around it: written in capitals or in small letters,
    with blanks, tabs or line ends before and after, the provided name is
    verified or rejected as it is without them, and the same text is
    passed on. *)
Theorem verdict_ignores_case_and_padding (w : World)
    (name path pad1 pad2 : str) :
  ascii_only name ->
  forallb is_space pad1 = true -> forallb is_space pad2 = true ->
  forall name',
    name' = pad1 ++ upper name ++ pad2 \/ name' = pad1 ++ lower name ++ pad2
    \/ name' = pad1 ++ name ++ pad2 ->
    verify_names w name' path !! "status" = verify_names w name path !! "status"
    /\ verify_names w name' path !! "fssai_text"
       = verify_names w name path !! "fssai_text".
Proof.
  intros _ H1 H2 name' Hn.
  assert (E : forall b, names_match name' b = names_match name b).
  { intros b. apply names_match_normal.
    destruct Hn as [-> | [-> | ->]]; rewrite (strip_spaces _ _ _ H1 H2).
    - unfold upper. rewrite strip_map by apply case_keeps_spaces.
      apply lower_upper.
    - unfold lower at 2. rewrite strip_map by apply case_keeps_spaces.
      apply lower_lower.
    - reflexivity. }
  unfold verify_names.
  destruct (negb (nonempty _)); [split; reflexivity|].
  destruct (negb (truthy _)); [split; reflexivity|].
  cbv zeta. rewrite E.
  destruct (names_match name _); lookups; split; reflexivity.
Qed.

Lemma verdict_ignores_case_and_padding_witness :
  verify_names certificate_world "  KINGS ROLL " "doc.pdf" !! "status"
  = verify_names certificate_world "Kings Roll" "doc.pdf" !! "status".
Proof.
  assert (Hn : ("  KINGS ROLL " : str) = "  " ++ upper "Kings Roll" ++ " ")
    by reflexivity.
  destruct (verdict_ignores_case_and_padding certificate_world "Kings Roll"
              "doc.pdf" "  " " " eq_refl eq_refl eq_refl "  KINGS ROLL "
              (or_introl Hn)) as [H _].
  exact H.
Defined.

(** ** Reading the document *)

Lemma add_page_texts (page_results : list (option str)) (text : str) :
  fold_left Agent1.add_page_text page_results text
  = text ++ page_texts page_results.
Proof.
  unfold page_texts. revert text.
  induction page_results as [|p l IH]; intros text.
  - cbn. rewrite app_nil_r. reflexivity.
  - cbn [fold_left]. rewrite IH, (IH (Agent1.add_page_text [] p)), app_assoc.
    f_equal. unfold Agent1.add_page_text.
    destruct (truthy p); [reflexivity | rewrite app_nil_r; reflexivity].
Qed.

Lemma add_ocr_texts (page_results : list str) (text : str) :
  fold_left (fun text page => text ++ page ++ [nl]) page_results text
  = text ++ ocr_texts page_results.
Proof.
  unfold ocr_texts. revert text.
  induction page_results as [|p l IH]; intros text.
  - cbn. rewrite app_nil_r. reflexivity.
  - cbn [fold_left]. rewrite IH, (IH ([] ++ p ++ [nl])). cbn [app].
    rewrite <- !app_assoc. reflexivity.
Qed.

(** The text depends on the file at the path only. *)
Lemma extract_text_from_pdf_file (L : Agent1.Libraries) (fs fs' : Agent1.files)
    (path path' : str) :
  fs !! path = fs' !! path' ->
  Agent1._extract_text_from_pdf L fs path
  = Agent1._extract_text_from_pdf L fs' path'.
Proof.
  intros E. unfold Agent1._extract_text_from_pdf, Agent1.run_on.
  rewrite E. reflexivity.
Qed.

Lemma extract_text_from_pdf_data_text (L : Agent1.Libraries) (fs : Agent1.files)
    (pdf_data : Agent1.bytes) :
  fst (Agent1.extract_text_from_pdf_data L fs pdf_data)
  = text_of_bytes L pdf_data.
Proof.
  unfold text_of_bytes, Agent1.extract_text_from_pdf_data. cbn [fst].
  apply extract_text_from_pdf_file. rewrite !lookup_insert_eq. reflexivity.
Qed.

Lemma extract_text_from_pdf_data_files (L : Agent1.Libraries)
    (fs : Agent1.files) (pdf_data : Agent1.bytes) :
  fs !! Agent1.NamedTemporaryFile L fs = None ->
  snd (Agent1.extract_text_from_pdf_data L fs pdf_data) = fs.
Proof.
  intros Hfresh. unfold Agent1.extract_text_from_pdf_data. cbn [snd].
  rewrite lookup_insert_eq.
  rewrite bool_decide_eq_true_2 by (eexists; reflexivity).
  apply delete_insert_id, Hfresh.
Qed.

(** How the text of a PDF is put together.  The three libraries are tried
    in turn on the same file, and the text is not reset between them: the
    result is what PyPDF2 read, when it got through the file and found
    visible text; else that followed by what pdfplumber read, on the same
    condition; else both followed by the text of the OCR, one line end
    after each page, visible or not; and it is empty when the OCR ends in
    an exception, whatever was read before. *)
Theorem text_of_a_pdf (L : Agent1.Libraries) (fs : Agent1.files)
    (pdf_path : str) (content : Agent1.bytes) :
  fs !! pdf_path = Some (Agent1.File content) ->
  let text := Agent1._extract_text_from_pdf L fs pdf_path in
  let first := page_texts (Agent1.pages (Agent1.PyPDF2 L content)) in
  let second := page_texts (Agent1.pages (Agent1.pdfplumber L content)) in
  let third := ocr_texts (Agent1.pages (Agent1.pytesseract L content)) in
  (Agent1.raised (Agent1.PyPDF2 L content) = false /\ strip first <> []
   /\ text = first)
  \/ ((Agent1.raised (Agent1.PyPDF2 L content) = true \/ strip first = [])
      /\ ((Agent1.raised (Agent1.pdfplumber L content) = false
           /\ strip (first ++ second) <> [] /\ text = first ++ second)
          \/ ((Agent1.raised (Agent1.pdfplumber L content) = true
               \/ strip (first ++ second) = [])
              /\ ((Agent1.raised (Agent1.pytesseract L content) = false
                   /\ text = first ++ second ++ third)
                  \/ (Agent1.raised (Agent1.pytesseract L content) = true
                      /\ text = []))))).
Proof.
  intros Hfile text first second third. subst text.
  unfold Agent1._extract_text_from_pdf, Agent1.run_on. rewrite Hfile. cbv zeta.
  rewrite !add_page_texts, add_ocr_texts. cbn [app].
  fold first second third.
  destruct (Agent1.raised (Agent1.PyPDF2 L content)); cbn [negb andb].
  - right. split; [left; reflexivity|].
    destruct (Agent1.raised (Agent1.pdfplumber L content)); cbn [negb andb].
    + right. split; [left; reflexivity|].
      destruct (Agent1.raised (Agent1.pytesseract L content)); cbn [negb].
      * right. split; reflexivity.
      * left. split; [reflexivity|]. rewrite app_assoc. reflexivity.
    + destruct (strip (first ++ second)) eqn:E; cbn [nonempty].
      * right. split; [right; reflexivity|].
        destruct (Agent1.raised (Agent1.pytesseract L content)); cbn [negb].
        -- right. split; reflexivity.
        -- left. split; [reflexivity|]. rewrite app_assoc. reflexivity.
      * left. split; [reflexivity|]. split; [discriminate | reflexivity].
  - destruct (strip first) eqn:E1; cbn [nonempty].
    + right. split; [right; reflexivity|].
      destruct (Agent1.raised (Agent1.pdfplumber L content)); cbn [negb andb].
      * right. split; [left; reflexivity|].
        destruct (Agent1.raised (Agent1.pytesseract L content)); cbn [negb].
        -- right. split; reflexivity.
        -- left. split; [reflexivity|]. rewrite app_assoc. reflexivity.
      * destruct (strip (first ++ second)) eqn:E; cbn [nonempty].
        -- right. split; [right; reflexivity|].
           destruct (Agent1.raised (Agent1.pytesseract L content)); cbn [negb].
           ++ right. split; reflexivity.
           ++ left. split; [reflexivity|]. rewrite app_assoc. reflexivity.
        -- left. split; [reflexivity|]. split; [discriminate | reflexivity].
    + left. split; [reflexivity|]. split; [discriminate | reflexivity].
Qed.

Lemma text_of_a_pdf_witness :
  Agent1._extract_text_from_pdf second_try {[ ("doc.pdf" : str) := Agent1.File pdf_bytes ]}
    "doc.pdf"
  = [ "A"%char; nl; "A"%char; nl; "B"%char; nl ].
Proof.
  assert (Hfile : ({[ ("doc.pdf" : str) := Agent1.File pdf_bytes ]} : Agent1.files)
                  !! ("doc.pdf" : str) = Some (Agent1.File pdf_bytes))
    by apply lookup_singleton_eq.
  destruct (text_of_a_pdf second_try _ _ _ Hfile)
    as [(H & _) | (_ & [(_ & _ & H) | (_ & [(H & _) | (H & _)])])].
  - discriminate H.
  - exact H.
  - discriminate H.
  - reflexivity.
Defined.

(** A path that names no file gives no text, with or without the suffix
    of a PDF: not when nothing is there, and not when a directory is;
    [verify_names] then reports a document that could not be read. *)
Theorem no_file_no_text (L : Agent1.Libraries) (fs : Agent1.files) (w : World)
    (name path : str) :
  (forall content, fs !! path <> Some (Agent1.File content)) ->
  Agent1.extract_text_from_document L fs path = []
  /\ Agent1._extract_text_from_pdf L fs path = []
  /\ verify_names (world_of_files L fs w) name path !! "message"
     = Some (VStr "Could not read FSSAI document").
Proof.
  intros Hno.
  assert (E : Agent1._extract_text_from_pdf L fs path = []).
  { unfold Agent1._extract_text_from_pdf, Agent1.run_on.
    destruct (fs !! path) as [[content|]|] eqn:Hp; try reflexivity.
    destruct (Hno content). reflexivity. }
  assert (E' : Agent1.extract_text_from_document L fs path = []).
  { unfold Agent1.extract_text_from_document. rewrite E.
    destruct (fs !! path) as [[content|]|] eqn:Hp.
    - destruct (Hno content). reflexivity.
    - destruct (negb _); [reflexivity|]. destruct (Agent1.endswith _ _); reflexivity.
    - destruct (negb _); [reflexivity|]. destruct (Agent1.endswith _ _); reflexivity. }
  split; [exact E'|]. split; [exact E|].
  unfold verify_names. cbn [extract_text_from_document world_of_files].
  rewrite E'. reflexivity.
Qed.

Lemma no_file_no_text_witness :
  Agent1.extract_text_from_document (one_page certificate)
    {[ ("docs" : str) := Agent1.Directory ]} "docs" = [].
Proof.
  apply (no_file_no_text (one_page certificate)
           {[ ("docs" : str) := Agent1.Directory ]} certificate_world "KINGS ROLL").
  intros content. rewrite lookup_singleton_eq. discriminate.
Defined.

(** Reading the bytes from memory: the text is the one that
    [extract_text_from_document] reads from a file with the suffix ".pdf",
    in any case of the letters, that holds these bytes, and the temporary
    file is gone afterwards: the files are as they were. *)
Theorem memory_reads_like_a_file (L : Agent1.Libraries) (fs : Agent1.files)
    (path : str) (pdf_data : Agent1.bytes) :
  fs !! path = Some (Agent1.File pdf_data) ->
  Agent1.endswith ".pdf" (lower path) = true ->
  fs !! Agent1.NamedTemporaryFile L fs = None ->
  Agent1.extract_text_from_pdf_data L fs pdf_data
  = (Agent1.extract_text_from_document L fs path, fs).
Proof.
  intros Hfile Hpdf Hfresh.
  rewrite (surjective_pairing (Agent1.extract_text_from_pdf_data L fs pdf_data)).
  rewrite (extract_text_from_pdf_data_files L fs pdf_data Hfresh).
  f_equal. unfold Agent1.extract_text_from_pdf_data. cbn [fst].
  unfold Agent1.extract_text_from_document. rewrite Hfile, Hpdf.
  rewrite bool_decide_eq_true_2 by (eexists; reflexivity). cbn [negb].
  apply extract_text_from_pdf_file. rewrite lookup_insert_eq, Hfile. reflexivity.
Qed.

Lemma memory_reads_like_a_file_witness :
  Agent1.extract_text_from_pdf_data (one_page certificate)
    {[ ("Doc.PDF" : str) := Agent1.File pdf_bytes ]} pdf_bytes
  = (Agent1.extract_text_from_document (one_page certificate)
       {[ ("Doc.PDF" : str) := Agent1.File pdf_bytes ]} "Doc.PDF",
     {[ ("Doc.PDF" : str) := Agent1.File pdf_bytes ]}).
Proof.
  apply memory_reads_like_a_file.
  - apply lookup_singleton_eq.
  - reflexivity.
  - apply lookup_singleton_ne. discriminate.
Defined.

(** ** The variants that take the bytes of the PDF *)

Lemma verify_names_with_pdf_data_eq (L : Agent1.Libraries) (w : World)
    (fs : Agent1.files) (name path : str) (pdf_data : Agent1.bytes) :
  Agent1.verify_names_with_pdf_data L fs name pdf_data
  = (verify_names (reading L pdf_data w) name path,
     snd (Agent1.extract_text_from_pdf_data L fs pdf_data)).
Proof.
  unfold Agent1.verify_names_with_pdf_data, verify_names.
  cbn [extract_text_from_document reading].
  rewrite <- (extract_text_from_pdf_data_text L fs pdf_data).
  destruct (Agent1.extract_text_from_pdf_data L fs pdf_data) as [text fs'].
  cbn [fst snd].
  destruct (negb (nonempty text)); [reflexivity|].
  destruct (negb (truthy _)); [reflexivity|].
  cbv zeta. destruct (names_match name _); reflexivity.
Qed.

Lemma check_fssai_format_with_pdf_data_eq (L : Agent1.Libraries) (w : World)
    (fs : Agent1.files) (path : str) (pdf_data : Agent1.bytes) :
  Agent1.check_fssai_format_with_pdf_data L w fs pdf_data
  = (check_fssai_format (reading L pdf_data w) path,
     snd (Agent1.extract_text_from_pdf_data L fs pdf_data)).
Proof.
  unfold Agent1.check_fssai_format_with_pdf_data, check_fssai_format.
  cbn [extract_text_from_document reading].
  rewrite <- (extract_text_from_pdf_data_text L fs pdf_data).
  destruct (Agent1.extract_text_from_pdf_data L fs pdf_data) as [text fs'].
  cbn [fst snd].
  destruct (negb (nonempty text)); [reflexivity|].
  destruct (contains _ text); [reflexivity|].
  cbv zeta.
  change (check_expiry (reading L pdf_data w)) with (check_expiry w).
  destruct (nonempty (check_expiry w _ _)); reflexivity.
Qed.

(** The outcome with the bytes is the outcome of [verify_producer] on a
    document that has the text of the bytes. *)
Lemma verify_producer_with_pdf_data_outcome (L : Agent1.Libraries) (w : World)
    (fs : Agent1.files) (name path aadhar : str) (income : pyfloat)
    (pdf_data : Agent1.bytes) :
  fst (Agent1.verify_producer_with_pdf_data L w fs name pdf_data income aadhar)
  = verify_producer (reading L pdf_data w) name path income aadhar.
Proof.
  unfold Agent1.verify_producer_with_pdf_data, verify_producer.
  rewrite (verify_names_with_pdf_data_eq L w fs name path pdf_data).
  cbv beta iota.
  set (names := verify_names (reading L pdf_data w) name path).
  destruct (negb (is_str names "status" "verified")); [reflexivity|].
  destruct (negb (nonempty _)); [reflexivity|].
  destruct (negb (truthy (extract_certificate_type _))); [reflexivity|].
  cbv zeta. cbn [rupees reading randint upsert].
  destruct (str_eqb _ "registration" && _); [reflexivity|].
  destruct (str_eqb _ "license" && _); [reflexivity|].
  rewrite (check_fssai_format_with_pdf_data_eq L w _ path pdf_data).
  cbv beta iota.
  destruct (negb (is_str (check_fssai_format _ path) "status" "verified"));
    [reflexivity|].
  destruct (backfill_issue_date _ _); reflexivity.
Qed.

(** The files after the call, when the temporary name is a new one *)
Lemma verify_producer_with_pdf_data_files (L : Agent1.Libraries) (w : World)
    (fs : Agent1.files) (name aadhar : str) (income : pyfloat)
    (pdf_data : Agent1.bytes) :
  fs !! Agent1.NamedTemporaryFile L fs = None ->
  snd (Agent1.verify_producer_with_pdf_data L w fs name pdf_data income aadhar)
  = fs.
Proof.
  intros Hfresh. unfold Agent1.verify_producer_with_pdf_data.
  rewrite (verify_names_with_pdf_data_eq L w fs name [] pdf_data).
  rewrite (extract_text_from_pdf_data_files L fs pdf_data Hfresh).
  cbv beta iota.
  destruct (negb (is_str _ "status" "verified")); [reflexivity|].
  destruct (negb (nonempty _)); [reflexivity|].
  destruct (negb (truthy (extract_certificate_type _))); [reflexivity|].
  cbv zeta.
  destruct (str_eqb _ "registration" && _); [reflexivity|].
  destruct (str_eqb _ "license" && _); [reflexivity|].
  rewrite (check_fssai_format_with_pdf_data_eq L w fs [] pdf_data).
  rewrite (extract_text_from_pdf_data_files L fs pdf_data Hfresh).
  cbv beta iota.
  destruct (negb (is_str (check_fssai_format _ _) "status" "verified"));
    [reflexivity|].
  destruct (backfill_issue_date _ _); reflexivity.
Qed.

Lemma world_of_files_reading (L : Agent1.Libraries) (w : World)
    (fs : Agent1.files) (path : str) (pdf_data : Agent1.bytes) :
  fs !! path = Some (Agent1.File pdf_data) ->
  Agent1.endswith ".pdf" (lower path) = true ->
  extract_text_from_document (world_of_files L fs w) path
  = text_of_bytes L pdf_data.
Proof.
  intros Hfile Hpdf. cbn [extract_text_from_document world_of_files].
  unfold Agent1.extract_text_from_document. rewrite Hfile, Hpdf.
  rewrite bool_decide_eq_true_2 by (eexists; reflexivity). cbn [negb].
  unfold text_of_bytes, Agent1.extract_text_from_pdf_data. cbn [fst].
  apply extract_text_from_pdf_file. rewrite lookup_insert_eq. exact Hfile.
Qed.

(** The three checks on the bytes of a PDF answer as the checks on a path
    do for a file with the suffix ".pdf" that holds these bytes, and they
    leave the files as they were. *)
Theorem pdf_data_variants_agree (L : Agent1.Libraries) (w : World)
    (fs : Agent1.files) (name path aadhar : str) (income : pyfloat)
    (pdf_data : Agent1.bytes) :
  fs !! path = Some (Agent1.File pdf_data) ->
  Agent1.endswith ".pdf" (lower path) = true ->
  fs !! Agent1.NamedTemporaryFile L fs = None ->
  let w' := world_of_files L fs w in
  Agent1.verify_names_with_pdf_data L fs name pdf_data
  = (verify_names w' name path, fs)
  /\ Agent1.check_fssai_format_with_pdf_data L w fs pdf_data
     = (check_fssai_format w' path, fs)
  /\ Agent1.verify_producer_with_pdf_data L w fs name pdf_data income aadhar
     = (verify_producer w' name path income aadhar, fs).
Proof.
  intros Hfile Hpdf Hfresh w'. subst w'.
  pose proof (world_of_files_reading L w fs path pdf_data Hfile Hpdf) as Ht.
  assert (En : verify_names (world_of_files L fs w) name path
               = verify_names (reading L pdf_data w) name path).
  { unfold verify_names. rewrite Ht. reflexivity. }
  assert (Ef : check_fssai_format (world_of_files L fs w) path
               = check_fssai_format (reading L pdf_data w) path).
  { unfold check_fssai_format. rewrite Ht. reflexivity. }
  split; [|split].
  - rewrite (verify_names_with_pdf_data_eq L w fs name path pdf_data).
    rewrite (extract_text_from_pdf_data_files L fs pdf_data Hfresh), En.
    reflexivity.
  - rewrite (check_fssai_format_with_pdf_data_eq L w fs path pdf_data).
    rewrite (extract_text_from_pdf_data_files L fs pdf_data Hfresh), Ef.
    reflexivity.
  - rewrite (surjective_pairing
               (Agent1.verify_producer_with_pdf_data L w fs name pdf_data
                  income aadhar)).
    rewrite (verify_producer_with_pdf_data_files L w fs name aadhar income
               pdf_data Hfresh).
    rewrite (verify_producer_with_pdf_data_outcome L w fs name path aadhar
               income pdf_data).
    f_equal. unfold verify_producer. rewrite En, Ef. reflexivity.
Qed.

Lemma pdf_data_variants_agree_witness :
  Agent1.verify_names_with_pdf_data (one_page certificate)
    {[ ("doc.pdf" : str) := Agent1.File pdf_bytes ]} "KINGS ROLL" pdf_bytes
  = (verify_names
       (world_of_files (one_page certificate)
          {[ ("doc.pdf" : str) := Agent1.File pdf_bytes ]} certificate_world)
       "KINGS ROLL" "doc.pdf",
     {[ ("doc.pdf" : str) := Agent1.File pdf_bytes ]}).
Proof.
  assert (H1 : ({[ ("doc.pdf" : str) := Agent1.File pdf_bytes ]} : Agent1.files)
               !! ("doc.pdf" : str) = Some (Agent1.File pdf_bytes))
    by apply lookup_singleton_eq.
  assert (H2 : Agent1.endswith ".pdf" (lower "doc.pdf") = true) by reflexivity.
  assert (H3 : ({[ ("doc.pdf" : str) := Agent1.File pdf_bytes ]} : Agent1.files)
               !! Agent1.NamedTemporaryFile (one_page certificate)
                    {[ ("doc.pdf" : str) := Agent1.File pdf_bytes ]} = None)
    by (apply lookup_singleton_ne; discriminate).
  destruct (pdf_data_variants_agree (one_page certificate) certificate_world
              _ "KINGS ROLL" "doc.pdf" "442125846000" (float_of_Z 11000)
              pdf_bytes H1 H2 H3) as [H _].
  exact H.
Defined.

(** ** The [/verify] endpoint *)

Lemma filled_Some (v : App.json) (s : str) :
  App.filled v = Some s <-> v = App.JStr s /\ strip s <> [].
Proof.
  unfold App.filled. split.
  - destruct v as [| | | |[|c t]| |]; try discriminate.
    destruct (length (strip (c :: t)) =? 0) eqn:E; [discriminate|].
    intros [= <-]. split; [reflexivity|]. intros H. rewrite H in E.
    discriminate E.
  - intros [-> H]. destruct s as [|c t]; [destruct H; reflexivity|].
    destruct (strip (c :: t)); [destruct H; reflexivity | reflexivity].
Qed.

(** The loop over the required fields, for an object *)
Lemma missing_field_object (d : gmap string App.json) (fields : list string) :
  (App.missing_field (App.JObj d) fields = inr None
   /\ forall field, In field fields -> is_Some (d !! field))
  \/ exists field,
       In field fields /\ d !! field = None
       /\ App.missing_field (App.JObj d) fields
          = inr (Some (App.Response
                         {[ "status" := VStr "failed";
                            "stage" := VStr "input_validation";
                            "message" := VStr (("Missing required field: " : str)
                                               ++ field) ]} 400%Z)).
Proof.
  induction fields as [|f fields IH]; cbn [App.missing_field App.member].
  - left. split; [reflexivity | intros ? []].
  - destruct (d !! f) as [v|] eqn:E.
    + rewrite bool_decide_eq_true_2 by (eexists; reflexivity).
      destruct IH as [[IH1 IH2] | (field & Hin & Hno & IH)].
      * left. split; [exact IH1|]. intros field [<- | Hin]; [|auto].
        rewrite E. eexists; reflexivity.
      * right. exists field. split; [right; exact Hin|]. split; assumption.
    + rewrite bool_decide_eq_false_2 by (intros [x Hx]; discriminate Hx).
      right. exists f. split; [left; reflexivity|]. split; [exact E | reflexivity].
Qed.

(** The loop over the required fields, for any body: nothing, a response
    with the code 400 and the stage of the validation, or an exception *)
Lemma missing_field_cases (data : App.json) (fields : list string) :
  App.missing_field data fields = inr None
  \/ (exists e, App.missing_field data fields = inl e)
  \/ exists field,
       In field fields /\ App.member field data = Some false
       /\ App.missing_field data fields
          = inr (Some (App.Response
                         {[ "status" := VStr "failed";
                            "stage" := VStr "input_validation";
                            "message" := VStr (("Missing required field: " : str)
                                               ++ field) ]} 400%Z)).
Proof.
  induction fields as [|f fields IH]; cbn [App.missing_field].
  - left. reflexivity.
  - destruct (App.member f data) as [[|]|] eqn:E.
    + destruct IH as [IH | [IH | (field & Hin & Hm & IH)]]; [auto | auto |].
      right. right. exists field. split; [right; exact Hin | auto].
    + right. right. exists f. split; [left; reflexivity | auto].
    + right. left. eexists; reflexivity.
Qed.

Lemma is_str_lookup (d : dict) (k : string) (s : str) :
  d !! k = Some (VStr s) -> forall s', is_str d k s' = str_eqb s s'.
Proof. intros H s'. unfold is_str. rewrite H. reflexivity. Qed.

(** The response to an outcome of the pipeline has one of three shapes. *)
Lemma response_to_shape (P : App.Python) (w : World) (name path aadhar : str)
    (income : pyfloat) :
  let r := response_to P (verify_producer w name path income aadhar) in
  (App.code r = 200%Z /\ App.body r !! "status" = Some (VStr "success")
   /\ App.body r !! "stage" = None)
  \/ (App.code r = 400%Z /\ App.body r !! "status" = Some (VStr "failed")
      /\ exists stage : str,
           App.body r !! "stage" = Some (VStr stage)
           /\ In stage [ "name_verification" : str; "certificate_type" : str;
                         "certificate_match" : str;
                         "format_verification" : str ])
  \/ (App.code r = 500%Z /\ App.body r !! "status" = Some (VStr "failed")
      /\ App.body r !! "stage" = Some (VStr "server_error")).
Proof.
  destruct (verify_producer w name path income aadhar) as [result|e] eqn:Hr;
    cbn [response_to].
  - destruct (verify_producer_shape _ _ _ _ _ _ Hr)
      as [(Hs & Hst & _) | (Hs & _ & Hst)]; cbn [App.code App.body].
    + left. rewrite (is_str_lookup _ _ _ Hs). auto.
    + right. left. rewrite (is_str_lookup _ _ _ Hs).
      split; [reflexivity|]. split; [exact Hs|].
      destruct Hst as [(Hst & _) | [Hst | [Hst | (Hst & _)]]];
        eexists; (split; [exact Hst | cbn [In]; auto 10]).
  - right. right. cbn [App.code App.body]. auto.
Qed.

(** The handler on a request that passes the validation *)
Lemma well_formed_response (P : App.Python) (L : Agent1.Libraries) (w : World)
    (fs : Agent1.files) (d : gmap string App.json) (aadhar name path : str)
    (income : pyfloat) (pdf_data : Agent1.bytes) :
  well_formed P d aadhar name income pdf_data ->
  App.verify_producer P L w fs (inr (App.JObj d))
  = (response_to P (verify_producer (reading L pdf_data w) name path income aadhar),
     snd (Agent1.verify_producer_with_pdf_data L w fs name pdf_data income aadhar)).
Proof.
  intros ((Ha & Has) & (Hn & Hns) & (v & Hv & Hf) & Hpos & s & Hs & Hne & Hd).
  unfold App.verify_producer, App.verify_producer_try.
  destruct (missing_field_object d ["aadhar"; "name"; "fssai_pdf"; "annual_income"])
    as [[-> _] | (field & Hin & Hno & _)].
  2: { cbn [In] in Hin.
       destruct Hin as [<- | [<- | [<- | [<- | []]]]]; congruence. }
  rewrite Ha, Hn, Hv, Hs. cbn [default from_option id].
  rewrite (proj2 (filled_Some _ _) (conj eq_refl Has)).
  rewrite (proj2 (filled_Some _ _) (conj eq_refl Hns)).
  rewrite Hf, Hpos.
  destruct s as [|c s]; [destruct Hne; reflexivity|].
  rewrite Hd.
  rewrite <- (verify_producer_with_pdf_data_outcome L w fs name path aadhar
                income pdf_data).
  destruct (Agent1.verify_producer_with_pdf_data L w fs name pdf_data income
              aadhar) as [[result|e] fs']; reflexivity.
Qed.

(** The code of a response goes with its body.  Whatever the request: the
    code is 200 and the body reports "success", with no stage; or it is
    400 and the body reports "failed" at the validation of the input or at
    one of the four stages of the verification; or it is 500 and the body
    reports "failed" at the stage "server_error". *)
Theorem status_code_follows_body (P : App.Python) (L : Agent1.Libraries)
    (w : World) (fs : Agent1.files) (request_json : App.failure + App.json) :
  let r := fst (App.verify_producer P L w fs request_json) in
  (App.code r = 200%Z /\ App.body r !! "status" = Some (VStr "success")
   /\ App.body r !! "stage" = None)
  \/ (App.code r = 400%Z /\ App.body r !! "status" = Some (VStr "failed")
      /\ exists stage : str,
           App.body r !! "stage" = Some (VStr stage)
           /\ In stage [ "input_validation" : str; "name_verification" : str;
                         "certificate_type" : str; "certificate_match" : str;
                         "format_verification" : str ])
  \/ (App.code r = 500%Z /\ App.body r !! "status" = Some (VStr "failed")
      /\ App.body r !! "stage" = Some (VStr "server_error")).
Proof.
  assert (Hinput : forall message : str,
    let r := App.Response {[ "status" := VStr "failed";
                             "stage" := VStr "input_validation";
                             "message" := VStr message ]} 400%Z in
    App.code r = 400%Z /\ App.body r !! "status" = Some (VStr "failed")
    /\ exists stage : str,
         App.body r !! "stage" = Some (VStr stage)
         /\ In stage [ "input_validation" : str; "name_verification" : str;
                       "certificate_type" : str; "certificate_match" : str;
                       "format_verification" : str ]).
  { intros message. cbn [App.code App.body]. split; [reflexivity|].
    split; [reflexivity|]. eexists. split; [reflexivity | left; reflexivity]. }
  cbv zeta. unfold App.verify_producer, App.verify_producer_try.
  destruct request_json as [e|data]; [right; right; cbn; auto|].
  destruct (missing_field_cases data ["aadhar"; "name"; "fssai_pdf"; "annual_income"])
    as [-> | [(e & ->) | (field & _ & _ & ->)]].
  2: { right; right; cbn; auto. }
  2: { right; left. apply Hinput. }
  destruct data as [| | | | | |d]; try (right; right; cbn; auto; fail).
  destruct (App.filled (default App.JNull (d !! "aadhar"))) as [aadhar|];
    [|right; left; apply Hinput].
  destruct (App.filled (default App.JNull (d !! "name"))) as [name|];
    [|right; left; apply Hinput].
  destruct (App.float P _) as [income| |z];
    [|right; left; apply Hinput | right; right; cbn; auto].
  destruct (float_ltb income (float_of_Z 0)); [right; left; apply Hinput|].
  destruct (default App.JNull (d !! "fssai_pdf")) as [| | | |[|c s]| |];
    try (right; left; apply Hinput).
  destruct (App.b64decode P (c :: s)) as [pdf_data|e];
    [|right; left; apply Hinput].
  pose proof (response_to_shape P (reading L pdf_data w) name [] aadhar income)
    as H.
  rewrite <- (verify_producer_with_pdf_data_outcome L w fs name [] aadhar
                income pdf_data) in H.
  destruct (Agent1.verify_producer_with_pdf_data L w fs name pdf_data income
              aadhar) as [[result|e] fs']; cbn [fst response_to] in H |- *.
  - destruct H as [H | [(H1 & H2 & stage & H3 & H4) | H]]; [auto | | auto].
    right. left. split; [exact H1|]. split; [exact H2|].
    exists stage. split; [exact H3|]. right. exact H4.
  - right. right. cbn. auto.
Qed.

(** A request that passes the validation is answered by the pipeline: the
    response is made of the outcome of [verify_producer] for the given
    name, income and aadhar on a document that has the text of the decoded
    bytes; its code is 200 for a result that reports success, 400 for any
    other result, and 500, at stage "server_error", for an exception. *)
Theorem well_formed_request_is_verified (P : App.Python) (L : Agent1.Libraries)
    (w : World) (fs : Agent1.files) (d : gmap string App.json)
    (aadhar name path : str) (income : pyfloat) (pdf_data : Agent1.bytes) :
  well_formed P d aadhar name income pdf_data ->
  fst (App.verify_producer P L w fs (inr (App.JObj d)))
  = response_to P
      (verify_producer (reading L pdf_data w) name path income aadhar).
Proof.
  intros H. rewrite (well_formed_response P L w fs d aadhar name path income
                       pdf_data H).
  reflexivity.
Qed.

Lemma sample_request_well_formed :
  well_formed sample_python sample_request "442125846000" "KINGS ROLL" NaN
    pdf_bytes.
Proof.
  unfold well_formed, sample_request.
  split; [split; [reflexivity | discriminate]|].
  split; [split; [reflexivity | discriminate]|].
  split; [exists (App.JFloat NaN); split; reflexivity|].
  split; [reflexivity|].
  exists ("JVBERg==" : str). split; [reflexivity|].
  split; [discriminate | reflexivity].
Qed.

Lemma well_formed_request_is_verified_witness :
  fst (App.verify_producer sample_python (one_page certificate) certificate_world
         ∅ (inr (App.JObj sample_request)))
  = response_to sample_python
      (verify_producer (reading (one_page certificate) pdf_bytes certificate_world)
         "KINGS ROLL" "upload" NaN "442125846000").
Proof.
  exact (well_formed_request_is_verified sample_python (one_page certificate)
           certificate_world ∅ sample_request "442125846000" "KINGS ROLL"
           "upload" NaN pdf_bytes sample_request_well_formed).
Defined.

(** The requests that do not pass the validation: the response *)
Lemma handler_cases (P : App.Python) (L : Agent1.Libraries) (w : World)
    (fs : Agent1.files) (request_json : App.failure + App.json) :
  (exists d aadhar name income pdf_data,
     request_json = inr (App.JObj d)
     /\ well_formed P d aadhar name income pdf_data)
  \/ (snd (App.verify_producer P L w fs request_json) = fs
      /\ let r := fst (App.verify_producer P L w fs request_json) in
         (App.code r = 400%Z
          /\ App.body r !! "stage" = Some (VStr "input_validation"))
         \/ (App.code r = 500%Z
             /\ App.body r !! "stage" = Some (VStr "server_error"))).
Proof.
  unfold App.verify_producer, App.verify_producer_try.
  destruct request_json as [e|data]; [right; split; [reflexivity | right; cbn; auto]|].
  destruct data as [| | | | | |d];
    try (right; split; [reflexivity | right; cbn; auto]; fail).
  - (* a string *)
    destruct (missing_field_cases (App.JStr s)
                ["aadhar"; "name"; "fssai_pdf"; "annual_income"])
      as [-> | [(e & ->) | (field & _ & _ & ->)]];
      right; (split; [reflexivity|]); cbn; auto.
  - (* an array *)
    destruct (missing_field_cases (App.JArr l)
                ["aadhar"; "name"; "fssai_pdf"; "annual_income"])
      as [-> | [(e & ->) | (field & _ & _ & ->)]];
      right; (split; [reflexivity|]); cbn; auto.
  - destruct (missing_field_object d ["aadhar"; "name"; "fssai_pdf"; "annual_income"])
      as [[-> Hall] | (field & _ & _ & ->)].
    2: { right. split; [reflexivity|]. left. cbn. auto. }
    destruct (App.filled (default App.JNull (d !! "aadhar"))) as [aadhar|] eqn:Ea.
    2: { right. split; [reflexivity|]. left. cbn. auto. }
    destruct (App.filled (default App.JNull (d !! "name"))) as [name|] eqn:En.
    2: { right. split; [reflexivity|]. left. cbn. auto. }
    destruct (App.float P _) as [income| |z] eqn:Ef.
    2: { right. split; [reflexivity|]. left. cbn. auto. }
    2: { right. split; [reflexivity|]. right. cbn. auto. }
    destruct (float_ltb income (float_of_Z 0)) eqn:Epos.
    { right. split; [reflexivity|]. left. cbn. auto. }
    destruct (default App.JNull (d !! "fssai_pdf")) as [| | | |[|c s]| |] eqn:Es;
      try (right; split; [reflexivity|]; left; cbn; auto; fail).
    destruct (App.b64decode P (c :: s)) as [pdf_data|e] eqn:Ed.
    2: { right. split; [reflexivity|]. left. cbn. auto. }
    left. exists d, aadhar, name, income, pdf_data. split; [reflexivity|].
    apply filled_Some in Ea, En.
    destruct (Hall "aadhar" ltac:(cbn [In]; auto)) as [va Hva].
    destruct (Hall "name" ltac:(cbn [In]; auto)) as [vn Hvn].
    destruct (Hall "fssai_pdf" ltac:(cbn [In]; auto)) as [vp Hvp].
    destruct (Hall "annual_income" ltac:(cbn [In]; auto)) as [vi Hvi].
    rewrite Hva in Ea. rewrite Hvn in En. rewrite Hvp in Es. rewrite Hvi in Ef.
    cbn [default from_option id] in Ea, En, Es, Ef.
    destruct Ea as [-> Ha]. destruct En as [-> Hn]. subst vp.
    split; [auto|]. split; [auto|].
    split; [exists vi; auto|]. split; [exact Epos|].
    exists (c :: s). split; [exact Hvp|]. split; [discriminate | exact Ed].
Qed.

(** What the code 200 stands for.  A response with the code 200 answers a
    request that is an object with a non-blank aadhar and name, an income
    that [float] accepts and that is not below zero, and a PDF that
    decodes; its body is the result of [verify_producer] for these on a
    document with the text of the decoded bytes, and that result reports
    success. *)
Theorem code_200_means (P : App.Python) (L : Agent1.Libraries) (w : World)
    (fs : Agent1.files) (request_json : App.failure + App.json) (path : str) :
  let r := fst (App.verify_producer P L w fs request_json) in
  App.code r = 200%Z ->
  exists d aadhar name income pdf_data,
    request_json = inr (App.JObj d)
    /\ well_formed P d aadhar name income pdf_data
    /\ verify_producer (reading L pdf_data w) name path income aadhar
       = Returns (App.body r)
    /\ App.body r !! "status" = Some (VStr "success").
Proof.
  intros r Hcode. subst r.
  destruct (handler_cases P L w fs request_json)
    as [(d & aadhar & name & income & pdf_data & -> & Hwf)
       | (_ & [(H & _) | (H & _)])];
    [|rewrite H in Hcode; discriminate Hcode..].
  exists d, aadhar, name, income, pdf_data.
  split; [reflexivity|]. split; [exact Hwf|].
  rewrite (well_formed_response P L w fs d aadhar name path income pdf_data Hwf)
    in Hcode |- *.
  cbn [fst] in Hcode |- *.
  destruct (verify_producer (reading L pdf_data w) name path income aadhar)
    as [result|e] eqn:Hr; cbn [response_to App.code App.body] in Hcode |- *;
    [|discriminate Hcode].
  split; [reflexivity|].
  destruct (verify_producer_shape _ _ _ _ _ _ Hr) as [(Hs & _) | (Hs & _)];
    [exact Hs|].
  rewrite (is_str_lookup _ _ _ Hs) in Hcode. discriminate Hcode.
Qed.

(** A body that is not an object never reaches the verification.  For
    [null], a boolean or a number the response has the code 500; for a
    string or an array it has the code 400 and names the first of
    "aadhar", "name", "fssai_pdf", "annual_income" that is not a part of
    the string, or not an element of the array, and the code 500 when all
    four are. *)
Theorem body_that_is_no_object (P : App.Python) (L : Agent1.Libraries)
    (w : World) (fs : Agent1.files) (data : App.json) :
  (forall d, data <> App.JObj d) ->
  let r := fst (App.verify_producer P L w fs (inr data)) in
  snd (App.verify_producer P L w fs (inr data)) = fs
  /\ (match data with
      | App.JStr _ | App.JArr _ => True
      | _ => App.code r = 500%Z
      end)
  /\ ((App.code r = 500%Z
       /\ App.body r !! "stage" = Some (VStr "server_error")
       /\ forall field,
            In field ["aadhar"; "name"; "fssai_pdf"; "annual_income"]%string ->
            App.member field data <> Some false)
      \/ (App.code r = 400%Z
          /\ exists field,
               In field ["aadhar"; "name"; "fssai_pdf"; "annual_income"]%string
               /\ App.member field data = Some false
               /\ App.body r !! "message"
                  = Some (VStr (("Missing required field: " : str) ++ field)))).
Proof.
  intros Hno r. subst r.
  unfold App.verify_producer, App.verify_producer_try.
  assert (Hloop : forall fields,
            (App.missing_field data fields = inr None
             \/ exists e, App.missing_field data fields = inl e)
            /\ (forall field, In field fields ->
                              App.member field data <> Some false)
            \/ exists field,
                 In field fields /\ App.member field data = Some false
                 /\ App.missing_field data fields
                    = inr (Some (App.Response
                                   {[ "status" := VStr "failed";
                                      "stage" := VStr "input_validation";
                                      "message" :=
                                        VStr (("Missing required field: " : str)
                                              ++ field) ]} 400%Z))).
  { induction fields as [|f fields IH]; cbn [App.missing_field].
    - left. split; [left; reflexivity | intros ? []].
    - destruct (App.member f data) as [[|]|] eqn:E.
      + destruct IH as [[IH1 IH2] | (field & Hin & Hm & IH)].
        * left. split; [exact IH1|]. intros field [<- | Hin]; [congruence | auto].
        * right. exists field. split; [right; exact Hin | auto].
      + right. exists f. split; [left; reflexivity | auto].
      + left. split; [right; eexists; reflexivity|].
        intros field [<- | Hin]; [congruence|].
        destruct data; try discriminate E; cbn; discriminate. }
  destruct (Hloop ["aadhar"; "name"; "fssai_pdf"; "annual_income"]%string)
    as [[[E | (e & E)] Hall] | (field & Hin & Hm & E)]; rewrite E.
  - destruct data as [| | | | | |d]; try (cbn in E; discriminate E).
    + split; [reflexivity|]. split; [exact I|]. left. cbn. auto.
    + split; [reflexivity|]. split; [exact I|]. left. cbn. auto.
    + destruct (Hno d). reflexivity.
  - split; [reflexivity|].
    split; [destruct data; try exact I; reflexivity|]. left. cbn. auto.
  - split; [reflexivity|].
    split; [destruct data; try exact I; cbn in Hm;
            try discriminate Hm; destruct (Hno d); reflexivity|].
    right. split; [reflexivity|]. exists field. split; [exact Hin|].
    split; [exact Hm | reflexivity].
Qed.

Lemma body_that_is_no_object_witness :
  App.code (fst (App.verify_producer sample_python (one_page certificate)
                   certificate_world ∅ (inr App.JNull))) = 500%Z
  /\ App.code (fst (App.verify_producer sample_python (one_page certificate)
                      certificate_world ∅ (inr (App.JArr [])))) = 400%Z.
Proof.
  split.
  - destruct (body_that_is_no_object sample_python (one_page certificate)
                certificate_world ∅ App.JNull ltac:(discriminate))
      as (_ & H & _).
    exact H.
  - destruct (body_that_is_no_object sample_python (one_page certificate)
                certificate_world ∅ (App.JArr []) ltac:(discriminate))
      as (_ & _ & [(_ & _ & H) | (H & _)]); [|exact H].
    destruct (H "aadhar"%string (or_introl eq_refl)). reflexivity.
Defined.

(** No request leaves a temporary file behind: when the name that the
    temporary file takes is a new one, the files after the response are
    the files before the request. *)
Theorem request_leaves_the_files (P : App.Python) (L : Agent1.Libraries)
    (w : World) (fs : Agent1.files) (request_json : App.failure + App.json) :
  fs !! Agent1.NamedTemporaryFile L fs = None ->
  snd (App.verify_producer P L w fs request_json) = fs.
Proof.
  intros Hfresh.
  destruct (handler_cases P L w fs request_json)
    as [(d & aadhar & name & income & pdf_data & -> & Hwf) | (H & _)];
    [|exact H].
  rewrite (well_formed_response P L w fs d aadhar name [] income pdf_data Hwf).
  cbn [snd].
  apply verify_producer_with_pdf_data_files, Hfresh.
Qed.

Lemma request_leaves_the_files_witness :
  snd (App.verify_producer sample_python (one_page certificate) certificate_world
         {[ ("doc.pdf" : str) := Agent1.File pdf_bytes ]}
         (inr (App.JObj sample_request)))
  = {[ ("doc.pdf" : str) := Agent1.File pdf_bytes ]}.
Proof.
  apply request_leaves_the_files.
  apply lookup_singleton_ne. discriminate.
Defined.

Lemma small_request_well_formed :
  well_formed sample_python small_request "442125846000" "KINGS ROLL"
    (float_of_Z 11000) pdf_bytes.
Proof.
  unfold well_formed, small_request.
  split; [split; [reflexivity | discriminate]|].
  split; [split; [reflexivity | discriminate]|].
  split; [exists (App.JInt 11000); split; reflexivity|].
  split; [reflexivity|].
  exists ("JVBERg==" : str). split; [reflexivity|].
  split; [discriminate | reflexivity].
Qed.

Lemma code_200_means_witness :
  let r := fst (App.verify_producer sample_python (one_page certificate)
                  certificate_world ∅ (inr (App.JObj small_request))) in
  App.code r = 200%Z
  /\ exists d aadhar name income pdf_data,
       inr (App.JObj small_request) = inr (B := App.json) (A := App.failure) (App.JObj d)
       /\ well_formed sample_python d aadhar name income pdf_data
       /\ verify_producer (reading (one_page certificate) pdf_data certificate_world)
            name "upload" income aadhar
          = Returns (App.body r)
       /\ App.body r !! "status" = Some (VStr "success").
Proof.
  cbv zeta.
  assert (Hcode : App.code (fst (App.verify_producer sample_python
                                   (one_page certificate) certificate_world ∅
                                   (inr (App.JObj small_request)))) = 200%Z).
  { rewrite (well_formed_response sample_python (one_page certificate)
               certificate_world ∅ small_request "442125846000" "KINGS ROLL"
               "upload" (float_of_Z 11000) pdf_bytes small_request_well_formed).
    cbn [fst].
    destruct (verify_producer_success
                (reading (one_page certificate) pdf_bytes certificate_world)
                "KINGS ROLL" "upload" (float_of_Z 11000) "442125846000"
                "registration" (Some ("14/12/2020" : str)))
      as (r & Hr & Hs & _); [vm_compute; reflexivity..|].
    rewrite Hr. cbn [response_to App.code].
    rewrite (is_str_lookup _ _ _ Hs). reflexivity. }
  split; [exact Hcode|].
  exact (code_200_means sample_python (one_page certificate) certificate_world
           ∅ (inr (App.JObj small_request)) "upload" Hcode).
Defined.

(** ** The fields of a successful result *)

Lemma digit_plain (c : ascii) : is_digit c = true -> plain c = true.
Proof. destruct c as [[] [] [] [] [] [] [] []]; vm_compute; congruence. Qed.

Lemma digits_plain (l : str) :
  forallb is_digit l = true -> forallb plain l = true.
Proof.
  intros H. apply forallb_forall. intros x Hx. apply digit_plain.
  rewrite forallb_forall in H. apply H, Hx.
Qed.

Lemma date_shaped_clean (d : str) :
  date_shaped d -> clean_text (Some d) = Some d.
Proof.
  intros H. apply clean_text_plain.
  - destruct (date_shaped_plain d H) as [L _]. intros ->. discriminate L.
  - destruct H as [(a & b & c & -> & _ & _ & _ & D)
                  | (a & b & c & -> & _ & _ & _ & D)];
      rewrite !forallb_app in D;
      apply andb_true_iff in D; destruct D as [Da D];
      apply andb_true_iff in D; destruct D as [Db Dc];
      rewrite !forallb_app, (digits_plain a Da), (digits_plain b Db),
        (digits_plain c Dc); reflexivity.
Qed.

Lemma extracted_date_clean (text : str) :
  clean_text (extract_expiry_date text) = extract_expiry_date text
  /\ clean_text (extract_issue_date text) = extract_issue_date text.
Proof.
  split.
  - destruct (extract_expiry_date text) as [d|] eqn:E; [|reflexivity].
    apply date_shaped_clean, (extracted_date_shape text d). left. exact E.
  - destruct (extract_issue_date text) as [d|] eqn:E; [|reflexivity].
    apply date_shaped_clean, (extracted_date_shape text d). right. exact E.
Qed.

(** The dates of a successful result are the dates that were extracted:
    the cleaning changes none.  The date of expiry is the one extracted
    from the text, or [None]; so is the date of issue when one is found. *)
Theorem reported_dates_are_the_extracted_ones (w : World)
    (name path aadhar : str) (income : pyfloat) (r : dict) :
  verify_producer w name path income aadhar = Returns r ->
  r !! "status" = Some (VStr "success") ->
  let text := extract_text_from_document w path in
  r !! "expiry_date" = Some (of_opt (extract_expiry_date text))
  /\ (forall d, r !! "expiry_date" = Some (VStr d) -> date_shaped d)
  /\ (forall d, extract_issue_date text = Some d ->
                r !! "issue_date" = Some (VStr d)).
Proof.
  intros Hr Hs text.
  destruct (verify_producer_success_inv w name path income aadhar r Hr Hs)
    as (_ & _ & issue & Hb & Hi & He).
  fold text in Hb, Hi, He.
  destruct (extracted_date_clean text) as [Ce Ci].
  rewrite Ce in He. split; [exact He|]. split.
  - intros d Hd. rewrite He in Hd.
    destruct (extract_expiry_date text) as [e|] eqn:E; [|discriminate Hd].
    injection Hd as <-. apply (extracted_date_shape text e). left. exact E.
  - intros d Hd. rewrite Hi. revert Hb. unfold backfill_issue_date.
    rewrite Hd.
    destruct (extracted_date_shape text d (or_intror Hd)) as [_ L].
    destruct d as [|c d]; [discriminate L|]. cbn [truthy negb andb].
    intros [= <-]. rewrite <- Hd, Ci, Hd. reflexivity.
Qed.

Lemma reported_dates_are_the_extracted_ones_witness :
  exists r : dict,
    verify_producer certificate_world "KINGS ROLL" "doc.pdf" (float_of_Z 11000)
      "442125846000" = Returns r
    /\ r !! "expiry_date"
       = Some (of_opt (extract_expiry_date
                         (extract_text_from_document certificate_world "doc.pdf"))).
Proof.
  destruct (verify_producer_success certificate_world "KINGS ROLL" "doc.pdf"
              (float_of_Z 11000) "442125846000" "registration"
              (Some ("14/12/2020" : str)))
    as (r & Hr & Hs & _); try (vm_compute; reflexivity).
  exists r. split; [exact Hr|].
  destruct (reported_dates_are_the_extracted_ones _ _ _ _ _ _ Hr Hs) as [H _].
  exact H.
Defined.

Lemma replace_Forall (P : ascii -> Prop) (c : ascii) (new s : str) :
  Forall P new -> Forall (fun x => eqc c x = true \/ P x) s ->
  Forall P (replace [c] new s).
Proof.
  intros Hnew. unfold replace. induction 1 as [|x s Hx _ IH]; [constructor|].
  cbn [replace_from startswith length Nat.sub].
  destruct (eqc c x) eqn:E; cbn [andb].
  - apply Forall_app. split; [exact Hnew | exact IH].
  - constructor; [|exact IH]. destruct Hx as [Hx|Hx]; [discriminate Hx | exact Hx].
Qed.

Lemma lstrip_Forall (P : ascii -> Prop) (s : str) :
  Forall P s -> Forall P (lstrip s).
Proof.
  induction 1 as [|x s Hx Hs IH]; [constructor|]. cbn [lstrip].
  destruct (is_space x); [exact IH | constructor; assumption].
Qed.

Lemma strip_Forall (P : ascii -> Prop) (s : str) :
  Forall P s -> Forall P (strip s).
Proof.
  intros H. unfold strip, rstrip.
  apply List.Forall_rev, lstrip_Forall, List.Forall_rev, lstrip_Forall, H.
Qed.

Lemma lstrip_idem (s : str) : lstrip (lstrip s) = lstrip s.
Proof.
  induction s as [|c s IH]; [reflexivity|]. cbn [lstrip].
  destruct (is_space c) eqn:E; [exact IH|]. cbn [lstrip]. rewrite E. reflexivity.
Qed.

Lemma lstrip_app_nonspace (l r : str) (c : ascii) :
  is_space c = false -> lstrip (l ++ c :: r) = lstrip l ++ c :: r.
Proof.
  intros Hc. induction l as [|x l IH]; cbn [app lstrip].
  - rewrite Hc. reflexivity.
  - destruct (is_space x); [exact IH | reflexivity].
Qed.

Lemma rstrip_cons_nonspace (c : ascii) (s : str) :
  is_space c = false -> rstrip (c :: s) = c :: rstrip s.
Proof.
  intros Hc. unfold rstrip. cbn [rev].
  rewrite (lstrip_app_nonspace _ [] c Hc), rev_app_distr. reflexivity.
Qed.

Lemma strip_idem (s : str) : strip (strip s) = strip s.
Proof.
  unfold strip.
  assert (H : forall t, lstrip t = t -> lstrip (rstrip t) = rstrip t).
  { intros [|c t] Ht; [reflexivity|]. cbn [lstrip] in Ht.
    destruct (is_space c) eqn:E.
    - exfalso. apply (f_equal (@length ascii)) in Ht. cbn [length] in Ht.
      assert (L : forall u : str, length (lstrip u) <= length u).
      { induction u as [|x u IH]; cbn [lstrip length]; [lia|].
        destruct (is_space x); cbn [length]; lia. }
      specialize (L t). lia.
    - rewrite (rstrip_cons_nonspace c t E). cbn [lstrip]. rewrite E.
      reflexivity. }
  rewrite (H (lstrip s) (lstrip_idem s)).
  unfold rstrip. rewrite rev_involutive, lstrip_idem. reflexivity.
Qed.

(** What [clean_text] returns holds no NUL and no end of a line, and no
    white space around it. *)
Lemma clean_text_clean (text : option str) (v : str) :
  clean_text text = Some v -> Forall inline v /\ strip v = v.
Proof.
  unfold clean_text.
  destruct text as [[|c s]|]; cbn [truthy]; try discriminate.
  { intros [= <-]. split; [constructor | reflexivity]. }
  change (default [] (Some (c :: s))) with (c :: s).
  intros [= <-]. split; [|apply strip_idem].
  apply strip_Forall.
  assert (D : forall a b : ascii, eqc a b = true \/ b <> a).
  { intros a b. unfold eqc. destruct (Ascii.eqb a b) eqn:E; [left; reflexivity|].
    right. intros ->. rewrite Ascii.eqb_refl in E. discriminate E. }
  assert (H1 : Forall (fun x => x <> nul) (replace [nul] [] (c :: s))).
  { apply replace_Forall; [constructor|]. apply Forall_forall. intros x _.
    apply D. }
  assert (H2 : Forall (fun x => x <> nul /\ x <> nl)
                 (replace [nl] " " (replace [nul] [] (c :: s)))).
  { apply replace_Forall.
    - repeat constructor; discriminate.
    - eapply Forall_impl; [exact H1|]. cbv beta. intros x Hx.
      destruct (D nl x); auto. }
  unfold inline. apply replace_Forall.
  - repeat constructor; discriminate.
  - eapply Forall_impl; [exact H2|]. cbv beta. intros x [Hx1 Hx2].
    destruct (D cr x); auto.
Qed.

(** The fields of a successful result that are cleaned *)
Lemma verify_producer_cleaned (w : World) (name path aadhar : str)
    (income : pyfloat) (r : dict) :
  verify_producer w name path income aadhar = Returns r ->
  r !! "status" = Some (VStr "success") ->
  exists issue expiry address : option str,
    r !! "issue_date" = Some (of_opt (clean_text issue))
    /\ r !! "expiry_date" = Some (of_opt (clean_text expiry))
    /\ r !! "address" = Some (of_opt (clean_text address)).
Proof.
  intros Hr Hs. revert Hr. unfold verify_producer.
  destruct (negb (is_str (verify_names w name path) "status" "verified")).
  { intros [= <-]. discriminate Hs. }
  destruct (negb (nonempty _)); [intros [= <-]; discriminate Hs|].
  destruct (negb (truthy (extract_certificate_type _)));
    [intros [= <-]; discriminate Hs|].
  cbv zeta.
  destruct (str_eqb _ "registration" && _); [intros [= <-]; discriminate Hs|].
  destruct (str_eqb _ "license" && _); [intros [= <-]; discriminate Hs|].
  destruct (negb (is_str (check_fssai_format w path) "status" "verified")).
  { intros [= <-]. discriminate Hs. }
  destruct (backfill_issue_date _ _) as [issue|e]; [|discriminate].
  intros [= <-]. eexists _, _, _. repeat split.
Qed.

(** The dates and the address of a successful result hold no NUL
    character and no end of a line, and no white space stands before or
    after them. *)
Theorem reported_fields_are_clean (w : World) (name path aadhar : str)
    (income : pyfloat) (r : dict) :
  verify_producer w name path income aadhar = Returns r ->
  r !! "status" = Some (VStr "success") ->
  forall (key : string) (v : str),
    In key ["issue_date"; "expiry_date"; "address"]%string ->
    r !! key = Some (VStr v) ->
    Forall inline v /\ strip v = v.
Proof.
  intros Hr Hs key v Hkey Hv.
  destruct (verify_producer_cleaned w name path aadhar income r Hr Hs)
    as (issue & expiry & address & Hi & He & Ha).
  assert (H : exists text, clean_text text = Some v).
  { cbn [In] in Hkey. destruct Hkey as [<- | [<- | [<- | []]]].
    - exists issue. rewrite Hi in Hv. destruct (clean_text issue);
        [injection Hv as ->; reflexivity | discriminate Hv].
    - exists expiry. rewrite He in Hv. destruct (clean_text expiry);
        [injection Hv as ->; reflexivity | discriminate Hv].
    - exists address. rewrite Ha in Hv. destruct (clean_text address);
        [injection Hv as ->; reflexivity | discriminate Hv]. }
  destruct H as [text H]. exact (clean_text_clean text v H).
Qed.

Lemma reported_fields_are_clean_witness :
  exists r : dict,
    verify_producer certificate_world "KINGS ROLL" "doc.pdf" (float_of_Z 11000)
      "442125846000" = Returns r
    /\ forall v : str, r !! "address" = Some (VStr v) -> strip v = v.
Proof.
  destruct (verify_producer_success certificate_world "KINGS ROLL" "doc.pdf"
              (float_of_Z 11000) "442125846000" "registration"
              (Some ("14/12/2020" : str)))
    as (r & Hr & Hs & _); try (vm_compute; reflexivity).
  exists r. split; [exact Hr|]. intros v Hv.
  destruct (reported_fields_are_clean _ _ _ _ _ _ Hr Hs "address"%string v
              ltac:(cbn [In]; auto) Hv) as [_ H].
  exact H.
Defined.

(** ** The business name *)

Lemma searches_chr (p : ascii -> bool) (s : str) :
  searches (Chr p) s = false -> Forall (fun c => p c = false) s.
Proof.
  unfold searches, re_search. generalize (@None ascii), 0.
  induction s as [|c s IH]; intros pv pos; [constructor|].
  rewrite search_from_unfold. unfold attempt. cbn [rmatch rest].
  destruct (p c) eqn:E; [discriminate|].
  intros H. constructor; [exact E | exact (IH _ _ H)].
Qed.

Lemma split_ws_from_words (cur s : str) :
  Forall (fun c => is_space c = false) cur ->
  Forall (Forall (fun c => is_space c = false)) (split_ws_from cur s).
Proof.
  revert cur. induction s as [|c s IH]; intros cur Hcur; cbn [split_ws_from].
  - destruct cur; [constructor|]. constructor; [|constructor].
    apply List.Forall_rev, Hcur.
  - destruct (is_space c) eqn:E.
    + destruct cur; [apply IH; constructor|].
      constructor; [apply List.Forall_rev, Hcur | apply IH; constructor].
    + apply IH. constructor; assumption.
Qed.

Lemma join_Forall (P : ascii -> Prop) (sep : str) (parts : list str) :
  Forall P sep -> Forall (Forall P) parts -> Forall P (join sep parts).
Proof.
  intros Hsep. induction 1 as [|p ps Hp Hps IH]; [constructor|].
  cbn [join]. destruct ps as [|q ps]; [exact Hp|].
  apply Forall_app. split; [exact Hp|]. apply Forall_app. split; assumption.
Qed.

(** In [' '.join(s.split())] the only white space is the blank. *)
Lemma normalized_spaces (s : str) :
  Forall (fun c => is_space c = true -> c = " "%char) (join " " (split_ws s)).
Proof.
  apply join_Forall.
  - repeat constructor.
  - eapply Forall_impl; [apply split_ws_from_words; constructor|].
    cbv beta. intros word Hw. eapply Forall_impl; [exact Hw|].
    cbv beta. intros c Hc Hs. rewrite Hc in Hs. discriminate Hs.
Qed.

Lemma alpha_cases (c : ascii) :
  is_alpha c = true ->
  is_alpha (lower_char c) = true /\ is_alpha (upper_char c) = true
  /\ is_space c = false
  /\ eqc c "/" = false /\ eqc c "\" = false
  /\ lower_char (lower_char c) = lower_char c
  /\ upper_char (upper_char c) = upper_char c.
Proof.
  destruct c as [[] [] [] [] [] [] [] []]; vm_compute; intros H;
    try discriminate H; repeat split.
Qed.

Lemma alpha_name_char (c : ascii) : is_alpha c = true -> name_char c.
Proof.
  intros H. destruct (alpha_cases c H) as (_ & _ & Hs & H1 & H2 & _).
  unfold name_char, eqc in *. repeat split.
  - intros ->. discriminate H1.
  - intros ->. discriminate H2.
  - intros Hs'. rewrite Hs in Hs'. discriminate Hs'.
Qed.

Lemma title_from_name_chars (b : bool) (s : str) :
  Forall name_char s -> Forall name_char (title_from b s).
Proof.
  intros H. revert b. induction H as [|c s Hc _ IH]; intros b; [constructor|].
  cbn [title_from]. destruct (is_alpha c) eqn:E; [|constructor; auto].
  destruct (alpha_cases c E) as (Hl & Hu & _).
  constructor; [|apply IH]. destruct b; apply alpha_name_char; assumption.
Qed.

Lemma title_from_idem (b : bool) (s : str) :
  title_from b (title_from b s) = title_from b s.
Proof.
  revert b. induction s as [|c s IH]; intros b; [reflexivity|].
  cbn [title_from]. destruct (is_alpha c) eqn:E; cbn [title_from].
  - destruct (alpha_cases c E) as (Hl & Hu & _ & _ & _ & Hll & Huu).
    destruct b.
    + rewrite Hl, Hll, IH. reflexivity.
    + rewrite Hu, Huu, IH. reflexivity.
  - rewrite E, IH. reflexivity.
Qed.

Lemma title_char_space (b : bool) (c : ascii) :
  is_space c = false ->
  is_space (if is_alpha c then (if b then lower_char c else upper_char c) else c)
  = false.
Proof.
  intros Hs. destruct (is_alpha c); [|exact Hs].
  destruct (case_keeps_spaces c) as (Hu & Hl & _).
  destruct b; congruence.
Qed.

Lemma lstrip_fixed (s : str) :
  lstrip s = s -> s = [] \/ exists c t, s = c :: t /\ is_space c = false.
Proof.
  destruct s as [|c t]; [left; reflexivity|]. cbn [lstrip].
  destruct (is_space c) eqn:E; [|right; eauto].
  intros H. exfalso. apply (f_equal (@length ascii)) in H. cbn [length] in H.
  assert (L : forall u : str, length (lstrip u) <= length u).
  { induction u as [|x u IH]; cbn [lstrip length]; [lia|].
    destruct (is_space x); cbn [length]; lia. }
  specialize (L t). lia.
Qed.

Lemma title_from_app (b : bool) (s t : str) :
  exists b', title_from b (s ++ t) = title_from b s ++ title_from b' t.
Proof.
  revert b. induction s as [|c s IH]; intros b; cbn [app title_from].
  - exists b. reflexivity.
  - destruct (is_alpha c).
    + destruct (IH true) as [b' ->]. exists b'. reflexivity.
    + destruct (IH false) as [b' ->]. exists b'. reflexivity.
Qed.

(** [title] keeps a text free of white space at its ends. *)
Lemma title_stripped (s : str) : strip s = s -> strip (title s) = title s.
Proof.
  intros Hs. unfold title.
  assert (Hl : lstrip s = s).
  { rewrite <- Hs. unfold strip.
    destruct (lstrip_fixed (lstrip s) (lstrip_idem s)) as [-> | (c & t & E & Hc)];
      [reflexivity|].
    rewrite E, (rstrip_cons_nonspace c t Hc). cbn [lstrip]. rewrite Hc.
    reflexivity. }
  assert (Hr : lstrip (rev s) = rev s).
  { rewrite <- Hs at 1. unfold strip, rstrip.
    rewrite rev_involutive, lstrip_idem, Hl.
    rewrite <- Hs at 2. unfold strip, rstrip. rewrite rev_involutive, Hl.
    reflexivity. }
  assert (Tl : lstrip (title_from false s) = title_from false s).
  { destruct (lstrip_fixed s Hl) as [-> | (c & t & -> & Hc)]; [reflexivity|].
    cbn [title_from].
    pose proof (title_char_space false c Hc) as H.
    destruct (is_alpha c); cbn [lstrip]; rewrite H; reflexivity. }
  assert (Tr : lstrip (rev (title_from false s)) = rev (title_from false s)).
  { destruct (lstrip_fixed (rev s) Hr) as [E | (c & t & E & Hc)].
    - apply (f_equal (@rev ascii)) in E. rewrite rev_involutive in E.
      subst s. reflexivity.
    - apply (f_equal (@rev ascii)) in E. rewrite rev_involutive in E.
      cbn [rev] in E. subst s.
      destruct (title_from_app false (rev t) [c]) as [b' ->].
      rewrite rev_app_distr. cbn [title_from rev app].
      pose proof (title_char_space b' c Hc) as H.
      destruct (is_alpha c); cbn [rev app lstrip]; rewrite H; reflexivity. }
  unfold strip, rstrip. rewrite Tl, Tr, rev_involutive. reflexivity.
Qed.

Lemma re_split_head (r : regex) (s : str) :
  exists k, hd [] (re_split r s) = take k s.
Proof.
  unfold re_split. destruct (finditer r s) as [|m ms]; cbn [pieces hd].
  - exists (length s). symmetry. apply firstn_all.
  - eexists. reflexivity.
Qed.

(** The business name that [extract_name_from_fssai] returns for a text of
    ASCII characters has more than two characters, is in title case
    ([title] leaves it as it is), has no white space at its ends, and holds
    no slash, no backslash and no white space but the blank. *)
Theorem extracted_name_is_tidy (text name : str) :
  ascii_only text ->
  extract_name_from_fssai text = Some name ->
  2 < length name
  /\ title name = name
  /\ strip name = name
  /\ Forall name_char name.
Proof.
  intros _ H. split; [exact (extract_name_length text name H)|].
  revert H. unfold extract_name_from_fssai.
  destruct (first_some _ name_patterns) as [n|] eqn:E.
  2: { destruct (contains _ _); [|discriminate]. intros [= <-].
       split; [reflexivity|]. split; [reflexivity|].
       repeat constructor; try discriminate. }
  intros [= ->]. apply first_some_Some in E. destruct E as (pat & _ & E).
  destruct (re_search pat _) as [m|]; [|discriminate E].
  cbn [mbind option_bind] in E. unfold name_of_match in E.
  set (raw := join " " (split_ws (re_sub (Chr (oneof [nl; cr; tab])) " "
                                    (strip (group1 m))))) in E.
  revert E.
  match goal with
  | |- (if ?c then _ else _) = _ -> _ => destruct c eqn:C
  end; [|discriminate].
  match goal with
  | |- (if ?c then _ else _) = _ -> _ => destruct c
  end; [|discriminate].
  intros E. injection E as <-.
  repeat (apply andb_true_iff in C; destruct C as [C ?]).
  match goal with
  | Hs : negb (searches (Chr (oneof _)) raw) = true |- _ =>
      apply negb_true_iff, searches_chr in Hs; rename Hs into Hslash
  end.
  assert (Hraw : Forall name_char raw).
  { pose proof (normalized_spaces (re_sub (Chr (oneof [nl; cr; tab])) " "
                                     (strip (group1 m)))) as Hn.
    fold raw in Hn. apply Forall_forall. intros c Hc.
    rewrite Forall_forall in Hslash, Hn.
    specialize (Hslash c Hc). specialize (Hn c Hc).
    unfold oneof in Hslash. cbn [existsb list_ascii_of_string] in Hslash.
    rewrite !orb_false_iff in Hslash. destruct Hslash as (Hsl & Hbs & _).
    unfold name_char, eqc in *. repeat split; [| |exact Hn].
    - intros ->. discriminate Hsl.
    - intros ->. discriminate Hbs. }
  destruct (re_split_head address_like raw) as [k ->].
  split; [apply title_from_idem|].
  split; [apply title_stripped, strip_idem|].
  apply title_from_name_chars, strip_Forall, Forall_take, Hraw.
Qed.

Lemma extracted_name_is_tidy_witness :
  ascii_only certificate
  /\ extract_name_from_fssai certificate = Some ("Kings Roll" : str)
  /\ title "Kings Roll" = "Kings Roll".
Proof.
  assert (A : ascii_only certificate) by (vm_compute; reflexivity).
  assert (H : extract_name_from_fssai certificate = Some ("Kings Roll" : str))
    by (vm_compute; reflexivity).
  split; [exact A|]. split; [exact H|].
  destruct (extracted_name_is_tidy certificate "Kings Roll" A H) as (_ & Ht & _).
  exact Ht.
Defined.

(** ** A document of white space *)

Lemma begins_with_ich (c : ascii) :
  begins_with (ich c) (fun x => eqc (lower_char x) (lower_char c)).
Proof.
  intros st k res. unfold ich. cbn [rmatch].
  destruct (rest st) as [|x s']; [discriminate|].
  destruct (eqc (lower_char x) (lower_char c)) eqn:E; [|discriminate].
  intros _. exists x, s'. split; [reflexivity | exact E].
Qed.

Lemma begins_with_seq (r1 r2 : regex) (p : ascii -> bool) :
  begins_with r1 p -> begins_with (Seq r1 r2) p.
Proof. intros H st k res. cbn [rmatch]. apply H. Qed.

Lemma begins_with_lit (c : ascii) (s : str) :
  begins_with (lit (c :: s)) (fun x => eqc (lower_char x) (lower_char c)).
Proof.
  destruct s as [|d s]; cbn [lit]; [apply begins_with_ich|].
  apply begins_with_seq, begins_with_ich.
Qed.

Lemma begins_with_impl (r : regex) (p q : ascii -> bool) :
  (forall x, p x = true -> q x = true) -> begins_with r p -> begins_with r q.
Proof.
  intros Hpq H st k res Hm. destruct (H st k res Hm) as (c & s' & E & Hp).
  exists c, s'. split; [exact E | apply Hpq, Hp].
Qed.

Lemma lower_alpha_not_space (x : ascii) :
  is_alpha (lower_char x) = true -> is_space x = false.
Proof. destruct x as [[] [] [] [] [] [] [] []]; vm_compute; congruence. Qed.

(** A literal that begins with a letter matches at no white space. *)
Lemma begins_with_letter (c : ascii) (s : str) :
  is_alpha (lower_char c) = true ->
  begins_with (lit (c :: s)) (fun x => negb (is_space x)).
Proof.
  intros Hc. eapply begins_with_impl; [|apply begins_with_lit].
  cbv beta. intros x Hx. apply negb_true_iff, lower_alpha_not_space.
  unfold eqc in Hx. apply Ascii.eqb_eq in Hx. rewrite Hx. exact Hc.
Qed.

Lemma search_from_none (r : regex) (p : ascii -> bool) (s : str) :
  begins_with r p -> Forall (fun c => p c = false) s ->
  forall pv pos, search_from r pv s pos = None.
Proof.
  intros Hr. induction 1 as [|c s Hc _ IH]; intros pv pos;
    rewrite search_from_unfold; unfold attempt.
  - destruct (rmatch r _ Some) as [st1|] eqn:E; [|reflexivity].
    destruct (Hr _ _ _ E) as (x & s' & Hx & _). discriminate Hx.
  - destruct (rmatch r _ Some) as [st1|] eqn:E; [|apply IH].
    destruct (Hr _ _ _ E) as (x & s' & Hx & Hp). cbn [rest] in Hx.
    injection Hx as <- <-. rewrite Hc in Hp. discriminate Hp.
Qed.

Lemma name_patterns_begin (pattern : regex) :
  In pattern name_patterns -> begins_with pattern (fun x => negb (is_space x)).
Proof.
  unfold name_patterns. cbn [In].
  intros [<- | [<- | [<- | [<- | []]]]];
    repeat lazymatch goal with
           | |- begins_with (Seq _ _) _ => apply begins_with_seq
           end;
    (apply begins_with_letter; reflexivity).
Qed.

Lemma contains_head (c : ascii) (sub s : str) :
  contains (c :: sub) s = true -> In c s.
Proof.
  intros H. apply contains_spec in H. destruct H as (pre & post & ->).
  apply in_or_app. right. left. reflexivity.
Qed.

(** No business name is found in a text of white space. *)
Lemma extract_name_blank (text : str) :
  forallb is_space text = true -> extract_name_from_fssai text = None.
Proof.
  intros Hb. unfold extract_name_from_fssai.
  assert (Hsp : Forall (fun c => is_space c = true) (replace [nul] [] text)).
  { apply replace_Forall; [constructor|]. apply Forall_forall. intros x Hx.
    right. rewrite forallb_forall in Hb. apply Hb, list_elem_of_In, Hx. }
  set (t := replace [nul] [] text) in *.
  assert (Hnone : forall pattern, In pattern name_patterns ->
                                  re_search pattern t = None).
  { intros pattern Hin. unfold re_search.
    apply (search_from_none pattern (fun x => negb (is_space x)));
      [apply name_patterns_begin, Hin|].
    eapply Forall_impl; [exact Hsp|]. cbv beta. intros x Hx. rewrite Hx.
    reflexivity. }
  assert (E : first_some (fun pattern => re_search pattern t ≫= name_of_match)
                name_patterns = None).
  { revert Hnone. generalize name_patterns. intros l.
    induction l as [|pattern l IH]; intros Hl; [reflexivity|].
    cbn [first_some]. rewrite (Hl pattern (or_introl eq_refl)).
    cbn [mbind option_bind]. apply IH. intros q Hq. apply Hl. right. exact Hq. }
  rewrite E.
  destruct (contains "KINGS ROLL" (upper t)) eqn:C; [|reflexivity].
  exfalso. apply contains_head in C. unfold upper in C.
  apply in_map_iff in C. destruct C as (x & Hx & Hin).
  rewrite Forall_forall in Hsp. specialize (Hsp x (proj2 (list_elem_of_In _ _) Hin)).
  destruct (case_keeps_spaces x) as (Hu & _). rewrite Hx in Hu.
  rewrite Hsp in Hu. discriminate Hu.
Qed.

(** A document whose text is white space and nothing else, as the OCR
    gives for blank pages, counts as read: [verify_names] does not report
    that it could not be read but that no business name could be
    extracted, and [verify_producer] fails with that message at the stage
    of the names. *)
Theorem blank_document_has_no_name (w : World) (name path aadhar : str)
    (income : pyfloat) :
  let text := extract_text_from_document w path in
  text <> [] -> forallb is_space text = true ->
  extract_name_from_fssai text = None
  /\ verify_producer w name path income aadhar
     = Returns {[ "status" := VStr "failed";
                  "stage" := VStr "name_verification";
                  "message" :=
                    VStr "Could not extract business name from FSSAI document";
                  "details" := VDict ∅ ]}.
Proof.
  intros text Hne Hb. pose proof (extract_name_blank text Hb) as Hn.
  split; [exact Hn|].
  unfold verify_producer, verify_names. fold text. rewrite Hn.
  destruct text as [|c t]; [destruct Hne; reflexivity|].
  reflexivity.
Qed.

Lemma blank_document_has_no_name_witness :
  extract_text_from_document
    (world_of_files blank_scan {[ ("scan.pdf" : str) := Agent1.File pdf_bytes ]}
       certificate_world) "scan.pdf"
  = [" "%char; nl]
  /\ verify_producer
       (world_of_files blank_scan {[ ("scan.pdf" : str) := Agent1.File pdf_bytes ]}
          certificate_world) "KINGS ROLL" "scan.pdf" (float_of_Z 11000)
       "442125846000"
     = Returns {[ "status" := VStr "failed";
                  "stage" := VStr "name_verification";
                  "message" :=
                    VStr "Could not extract business name from FSSAI document";
                  "details" := VDict ∅ ]}.
Proof.
  assert (E : extract_text_from_document
                (world_of_files blank_scan
                   {[ ("scan.pdf" : str) := Agent1.File pdf_bytes ]}
                   certificate_world) "scan.pdf" = [" "%char; nl])
    by (vm_compute; reflexivity).
  split; [exact E|].
  refine (proj2 (blank_document_has_no_name _ "KINGS ROLL" "scan.pdf"
                   "442125846000" (float_of_Z 11000) _ _)).
  - rewrite E. discriminate.
  - rewrite E. reflexivity.
Defined.
